(** * Hardware-offload cost-decision engine of Postgres+ (Trinity)

    A shallow embedding of the code that [src/backend/tcop/postgres.c] adds to
    the PostgreSQL backend: the query feature extractor
    ([extract_operation_info]), the query classifier ([get_query_num]), the
    table statistics probe ([get_data_num]), the accelerator latency model
    ([get_hw_expectation_time]), the adaptive CPU cost model ([polyfit],
    [get_avg_error], [adjust_range], [add_new_data]) and the decision step of
    [sw_stack_for_hw]; and, beside them, the initial sample sets
    ([get_init_values]), the column numbering and the query for the two
    tables of [sw_stack_for_hw] ([hw_query_modification]), the address
    helpers of the tree reader ([addr_auto_padder], [carefully_incl_addr])
    and the backend's own [check_log_duration].

    Conventions of the embedding.
    - A C [int] is a [Z]; where a computation can leave the 32-bit range
      (the products of [addr_auto_padder]) the model checks it and faults.
    - A C [double] is a [float]: Rocq's primitive binary64 numbers, with the
      IEEE 754 round-to-nearest operations the x86-64 build of the backend
      uses for [+ - * /] and for the comparisons.
    - A NUL-terminated [char*] is a [string]; a [char*] that may be [NULL] is
      an [option string].  The [strcpy]s into the word blocks and into the
      name blocks of the [SELECT] and [FROM] cases of the extractor are
      checked: the string must have fewer characters than the block has
      bytes, or the model faults.
    - A C array is the [list] of its cells up to its capacity; the length
      variable that accompanies it in the source is kept beside it.  Where
      the source computes an index that can leave the array (the word array
      of the extractor, the shifts of [adjust_range] and [add_new_data]) the
      model checks the index and faults; elsewhere the lengths passed along
      with an array are taken to be within its cells.
    - [malloc] returns cells of indeterminate contents: the model takes them
      as parameters.  [free] has no counterpart. *)

From Stdlib Require Import ZArith List Bool String Ascii Lia Floats.
Import ListNotations.

(** Decimal constants of the source stand for the nearest [double], as they
    do for the C compiler. *)
Set Warnings "-inexact-float".

#[local] Open Scope Z_scope.

(* ================================================================== *)
(** * Part I.  The embedding                                            *)
(* ================================================================== *)

(** ** Constants ([#define]s of postgres.c, lines 229-408) *)

Definition NONE : Z := 0.

(** Query clusters. *)
Definition SELECT : Z := 1.
Definition FROM : Z := 2.
Definition WHERE : Z := 3.
Definition GROUP_BY : Z := 4.
Definition ORDER_BY : Z := 5.
Definition AS : Z := 6.

(** HW operations.  Line 261 reads [#define FOREST 6]; line 303 defines the
    name [FOREST] a second time, as the dataset identifier 2, and every use
    of the name comes after line 303.  The operation code of line 261 is kept
    here as [FOREST_OPERATION]; [FOREST] below is the later definition, the
    one the preprocessor substitutes at the uses. *)
Definition LINREGR : Z := 1.
Definition LOGREGR : Z := 2.
Definition SVM : Z := 3.
Definition MLP : Z := 4.
Definition TREE : Z := 5.
Definition FOREST_OPERATION : Z := 6.

(** Aggregations and filters. *)
Definition COUNT : Z := 1.
Definition MAX : Z := 2.
Definition MIN : Z := 3.
Definition AVG : Z := 4.
Definition SUM : Z := 5.

Definition LARGER : Z := 1.
Definition LARGERSAME : Z := 2.
Definition SAME : Z := 3.
Definition SMALLER : Z := 4.
Definition SMALLERSAME : Z := 5.

(** Query species. *)
Definition Q1 : Z := 0.
Definition Q2 : Z := 1.
Definition Q3 : Z := 2.
Definition Q4 : Z := 3.
Definition Q5 : Z := 4.
Definition Q6 : Z := 5.
Definition Q7 : Z := 6.
Definition Q8 : Z := 7.
Definition Q9 : Z := 8.
Definition Q10 : Z := 9.
Definition Q11 : Z := 10.

(** Datasets. *)
Definition HIGGS : Z := 1.
Definition FOREST : Z := 2.
Definition WILT : Z := 4.
Definition HABERMAN : Z := 8.

Definition QUERYNUM : Z := 11.
Definition EXEC_ORDER : Z := 3.
Definition ADJ_MIN_DATANUM : Z := 3.

(** ** The operation profile ([struct operation_info], lines 505-532) *)

Record operation_info : Type := mk_operation_info {
  hw_support : bool;
  hw_operation : Z;
  hw_query_num : Z;
  data_table_name : option string;
  model_table_name : option string;
  model_col_len : Z;
  model_col_name : list string;
  data_col_len : Z;
  data_col_name : list string;
  id_col_name : option string;
  output_table_name : option string;
  filter_flag : bool;
  filter_operation : Z;
  filter_table_name : option string;
  filter_col_name : option string;
  filter_value : float;
  aggr_flag : bool;
  aggr_operation : Z;
  aggr_table_name : option string;
  aggr_table_col : option string
}.

(** [init_operation_info], lines 622-650. *)
Definition init_operation_info : operation_info :=
  {| hw_support := false; hw_operation := NONE; hw_query_num := -1;
     data_table_name := None; model_table_name := None;
     model_col_len := 0; model_col_name := [];
     data_col_len := 0; data_col_name := [];
     id_col_name := None; output_table_name := None;
     filter_flag := false; filter_operation := NONE;
     filter_table_name := None; filter_col_name := None;
     filter_value := 0%float;
     aggr_flag := false; aggr_operation := NONE;
     aggr_table_name := None; aggr_table_col := None |}.

(** ** The query classifier ([get_query_num], lines 916-957)

    The [switch] has the five cases [LINREGR], [LOGREGR], [SVM], [MLP] and
    [TREE] and no [default]: any other operation code leaves [query_num] at
    its initial value -1. *)
Definition get_query_num (info : operation_info) : Z :=
  if hw_support info then
    if hw_operation info =? LINREGR then
      if filter_flag info && aggr_flag info then Q4
      else if filter_flag info then Q2
      else if aggr_flag info then Q3
      else Q1
    else if hw_operation info =? LOGREGR then
      if filter_flag info && aggr_flag info then Q8
      else if filter_flag info then Q6
      else if aggr_flag info then Q7
      else Q5
    else if hw_operation info =? SVM then Q9
    else if hw_operation info =? MLP then Q10
    else if hw_operation info =? TREE then Q11
    else -1
  else -1.

(** A profile that differs from the initial one in the four fields that the
    classifier reads. *)
Definition profile (support : bool) (op : Z) (filter aggr : bool) : operation_info :=
  {| hw_support := support; hw_operation := op; hw_query_num := -1;
     data_table_name := None; model_table_name := None;
     model_col_len := 0; model_col_name := [];
     data_col_len := 0; data_col_name := [];
     id_col_name := None; output_table_name := None;
     filter_flag := filter; filter_operation := NONE;
     filter_table_name := None; filter_col_name := None;
     filter_value := 0%float;
     aggr_flag := aggr; aggr_operation := NONE;
     aggr_table_name := None; aggr_table_col := None |}.

(** The six operation kinds of the "HW operation" block, lines 256-261. *)
Definition defined_operations : list Z :=
  [LINREGR; LOGREGR; SVM; MLP; TREE; FOREST_OPERATION].

(** The operation kinds [get_query_num] has a case for. *)
Definition classified_operations : list Z := [LINREGR; LOGREGR; SVM; MLP; TREE].

Definition is_query_class (q : Z) : Prop := Q1 <= q <= Q11.

(** ** Strings and the tokenizer *)

(** [hw_strcmp], lines 538-551: walks [str1] up to its terminator, stops at
    the first difference, and answers 1 when the characters it stopped at are
    equal, 0 otherwise.  The [int] it returns is only ever used as a truth
    value. *)
Fixpoint hw_strcmp (str1 str2 : string) : bool :=
  match str1, str2 with
  | EmptyString, EmptyString => true
  | EmptyString, String _ _ => false
  | String _ _, EmptyString => false
  | String c1 r1, String c2 r2 => if Ascii.eqb c1 c2 then hw_strcmp r1 r2 else false
  end.

(** The delimiter set of the [strtok] calls of [sw_stack_for_hw], line 2226:
    blank, comma, parentheses, brackets, semicolon, newline and quote. *)
Definition query_delimiters : list ascii :=
  [" "; ","; "("; ")"; "["; "]"; ";"; ascii_of_nat 10; "'"]%char.

Definition is_delimiter (delims : list ascii) (c : ascii) : bool :=
  existsb (Ascii.eqb c) delims.

(** The successive results of [strtok(s, delims)], [strtok(NULL, delims)], ...
    until [NULL]: the maximal runs of characters that are not delimiters.
    [cur] holds the characters of the token being read, last one first. *)
Fixpoint strtok_from (delims : list ascii) (s : string) (cur : list ascii) : list string :=
  match s with
  | EmptyString =>
      match cur with
      | [] => []
      | _ => [string_of_list_ascii (rev cur)]
      end
  | String c r =>
      if is_delimiter delims c then
        match cur with
        | [] => strtok_from delims r []
        | _ => string_of_list_ascii (rev cur) :: strtok_from delims r []
        end
      else strtok_from delims r (c :: cur)
  end.

Definition strtok_all (delims : list ascii) (s : string) : list string :=
  strtok_from delims s [].

(** A string written as its runs: the words of [ws], each followed by the
    separator that is paired with it, and then [last].  It is the other side
    of what is proved of [strtok_all], not a part of the program. *)
Fixpoint words_and_separators (ws : list (string * string)) (last : string) : string :=
  match ws with
  | [] => last
  | (w, sep) :: r => (w ++ sep ++ words_and_separators r last)%string
  end.

(** The words that the [strtok] loop of [sw_stack_for_hw] hands out for the
    query string, lines 2226-2231, in order; [word_size] is their number. *)
Definition word_array_of (query_string : string) : list string :=
  strtok_all query_delimiters query_string.

(** Each word is copied with [strcpy] into a block of 25 bytes of its own
    (lines 2227-2228), and the names that the extractor records are copied
    into blocks of [MAX_NAME_LEN] = 30 bytes (line 239), in both cases
    without a look at the length.  [fits bytes s]: the characters of [s] and
    the terminator find room in [bytes] bytes. *)
Definition WORD_BYTES : nat := 25.
Definition MAX_NAME_LEN : nat := 30.

Definition fits (bytes : nat) (s : string) : bool := (String.length s <? bytes)%nat.

(** The words of a word array as [sw_stack_for_hw] builds it: each is
    shorter than its block. *)
Definition words_fit (ws : list string) : Prop :=
  Forall (fun w => (String.length w < WORD_BYTES)%nat) ws.

(** ** Keyword tables, lines 554-618 *)

Definition hw_queryhashmap (str : string) (query_cluster : Z) : Z :=
  if hw_strcmp str "SELECT" then SELECT
  else if hw_strcmp str "FROM" then FROM
  else if hw_strcmp str "WHERE" then WHERE
  else if hw_strcmp str "GROUP_BY" then GROUP_BY
  else if hw_strcmp str "ORDER_BY" then ORDER_BY
  else if hw_strcmp str "AS" then AS
  else query_cluster.

Definition hw_aggrhashmap (str : string) : Z :=
  if hw_strcmp str "COUNT" then COUNT
  else if hw_strcmp str "MAX" then MAX
  else if hw_strcmp str "MIN" then MIN
  else if hw_strcmp str "AVG" then AVG
  else if hw_strcmp str "SUM" then SUM
  else 0.

Definition hw_filterhashmap (str : string) : Z :=
  if hw_strcmp str ">" then LARGER
  else if hw_strcmp str ">=" then LARGERSAME
  else if hw_strcmp str "==" then SAME
  else if hw_strcmp str "<" then SMALLER
  else if hw_strcmp str "<=" then SMALLERSAME
  else 0.

(** ** The feature extractor ([extract_operation_info], lines 707-914) *)

(** Field updates of the profile. *)
Definition set_hw_support (b : bool) (info : operation_info) : operation_info :=
  mk_operation_info b (hw_operation info) (hw_query_num info)
    (data_table_name info) (model_table_name info)
    (model_col_len info) (model_col_name info) (data_col_len info) (data_col_name info)
    (id_col_name info) (output_table_name info)
    (filter_flag info) (filter_operation info) (filter_table_name info)
    (filter_col_name info) (filter_value info)
    (aggr_flag info) (aggr_operation info) (aggr_table_name info) (aggr_table_col info).

Definition set_hw_operation (op : Z) (info : operation_info) : operation_info :=
  mk_operation_info (hw_support info) op (hw_query_num info)
    (data_table_name info) (model_table_name info)
    (model_col_len info) (model_col_name info) (data_col_len info) (data_col_name info)
    (id_col_name info) (output_table_name info)
    (filter_flag info) (filter_operation info) (filter_table_name info)
    (filter_col_name info) (filter_value info)
    (aggr_flag info) (aggr_operation info) (aggr_table_name info) (aggr_table_col info).

Definition set_hw_query_num (q : Z) (info : operation_info) : operation_info :=
  mk_operation_info (hw_support info) (hw_operation info) q
    (data_table_name info) (model_table_name info)
    (model_col_len info) (model_col_name info) (data_col_len info) (data_col_name info)
    (id_col_name info) (output_table_name info)
    (filter_flag info) (filter_operation info) (filter_table_name info)
    (filter_col_name info) (filter_value info)
    (aggr_flag info) (aggr_operation info) (aggr_table_name info) (aggr_table_col info).

Definition set_tables (model data : string) (info : operation_info) : operation_info :=
  mk_operation_info (hw_support info) (hw_operation info) (hw_query_num info)
    (Some data) (Some model)
    (model_col_len info) (model_col_name info) (data_col_len info) (data_col_name info)
    (id_col_name info) (output_table_name info)
    (filter_flag info) (filter_operation info) (filter_table_name info)
    (filter_col_name info) (filter_value info)
    (aggr_flag info) (aggr_operation info) (aggr_table_name info) (aggr_table_col info).

Definition set_model_col (names : list string) (info : operation_info) : operation_info :=
  mk_operation_info (hw_support info) (hw_operation info) (hw_query_num info)
    (data_table_name info) (model_table_name info)
    (Z.of_nat (List.length names)) names (data_col_len info) (data_col_name info)
    (id_col_name info) (output_table_name info)
    (filter_flag info) (filter_operation info) (filter_table_name info)
    (filter_col_name info) (filter_value info)
    (aggr_flag info) (aggr_operation info) (aggr_table_name info) (aggr_table_col info).

Definition set_data_col (names : list string) (info : operation_info) : operation_info :=
  mk_operation_info (hw_support info) (hw_operation info) (hw_query_num info)
    (data_table_name info) (model_table_name info)
    (model_col_len info) (model_col_name info) (Z.of_nat (List.length names)) names
    (id_col_name info) (output_table_name info)
    (filter_flag info) (filter_operation info) (filter_table_name info)
    (filter_col_name info) (filter_value info)
    (aggr_flag info) (aggr_operation info) (aggr_table_name info) (aggr_table_col info).

Definition set_id_col_name (id : string) (info : operation_info) : operation_info :=
  mk_operation_info (hw_support info) (hw_operation info) (hw_query_num info)
    (data_table_name info) (model_table_name info)
    (model_col_len info) (model_col_name info) (data_col_len info) (data_col_name info)
    (Some id) (output_table_name info)
    (filter_flag info) (filter_operation info) (filter_table_name info)
    (filter_col_name info) (filter_value info)
    (aggr_flag info) (aggr_operation info) (aggr_table_name info) (aggr_table_col info).

Definition set_output_table_name (out : string) (info : operation_info) : operation_info :=
  mk_operation_info (hw_support info) (hw_operation info) (hw_query_num info)
    (data_table_name info) (model_table_name info)
    (model_col_len info) (model_col_name info) (data_col_len info) (data_col_name info)
    (id_col_name info) (Some out)
    (filter_flag info) (filter_operation info) (filter_table_name info)
    (filter_col_name info) (filter_value info)
    (aggr_flag info) (aggr_operation info) (aggr_table_name info) (aggr_table_col info).

Definition set_filter (flag : bool) (op : Z) (table col : option string) (value : float)
    (info : operation_info) : operation_info :=
  mk_operation_info (hw_support info) (hw_operation info) (hw_query_num info)
    (data_table_name info) (model_table_name info)
    (model_col_len info) (model_col_name info) (data_col_len info) (data_col_name info)
    (id_col_name info) (output_table_name info)
    flag op table col value
    (aggr_flag info) (aggr_operation info) (aggr_table_name info) (aggr_table_col info).

Definition set_aggr (flag : bool) (op : Z) (table col : option string)
    (info : operation_info) : operation_info :=
  mk_operation_info (hw_support info) (hw_operation info) (hw_query_num info)
    (data_table_name info) (model_table_name info)
    (model_col_len info) (model_col_name info) (data_col_len info) (data_col_name info)
    (id_col_name info) (output_table_name info)
    (filter_flag info) (filter_operation info) (filter_table_name info)
    (filter_col_name info) (filter_value info)
    flag op table col.

(** The [strtok(.., ".")] loops of lines 824-841 and 871-888: the first piece
    of [table.column] replaces the table name, the second the column name, a
    third stops the loop; a name for which there is no piece keeps its
    value. *)
Definition split_table_col (w : string) (table col : option string)
    : option string * option string :=
  match strtok_all ["."%char] w with
  | [] => (table, col)
  | t :: [] => (Some t, col)
  | t :: c :: _ => (Some t, Some c)
  end.

(** What one pass through the body of the [for] loop does. *)
Inductive step_result : Type :=
| Continue (i : nat) (info : operation_info)
    (* the [switch] was left by [break]; the loop goes on from index [i] *)
| Return (info : operation_info)
    (* a [return] inside the [switch] *)
| MemFault.
    (* [word_array] was read at an index that is not below [word_size], or a
       name was copied into a block that is too short for it *)

Inductive run_result : Type :=
| Finished (info : operation_info) (iterations : nat)
| Faulted (iterations : nat)
| OutOfFuel.

(** The [while] loops of lines 742-745 and 769-772, on the words that follow
    the [ARRAY] word: the number of words before the next [FROM] or [ARRAY].
    The loop has no bound of its own; when no such word follows it runs off
    the word array. *)
Fixpoint scan_array (ws : list string) : option nat :=
  match ws with
  | [] => None
  | w :: r =>
      if negb (hw_strcmp w "FROM") && negb (hw_strcmp w "ARRAY")
      then option_map S (scan_array r)
      else Some 0%nat
  end.

Section Extractor.

(** Two things the extractor takes from outside the repository's code.
    [hw_ophashmap] (lines 572-586) has no final [else]: for a name that is
    none of the six function names it reaches its closing brace without a
    [return], and the value its caller then reads is indeterminate;
    [ophash_unmatched] stands for that value.  [atof] is the C library's,
    followed by the conversion to the [float] field. *)
Variable ophash_unmatched : string -> Z.
Variable atof : string -> float.

(** The last line returns the macro [FOREST], which at that point of the file
    is the dataset identifier 2 (see the constants above). *)
Definition hw_ophashmap (str : string) : Z :=
  if hw_strcmp str "madlib.linregr_predict" then LINREGR
  else if hw_strcmp str "madlib.logregr_predict_prob" then LOGREGR
  else if hw_strcmp str "madlib.svm_predict" then SVM
  else if hw_strcmp str "madlib.mlp_predict" then MLP
  else if hw_strcmp str "madlib.tree_predict" then TREE
  else if hw_strcmp str "madlib.forest_predict" then FOREST
  else ophash_unmatched str.

(** One of the two column-list blocks of the regression branch (lines 740-765
    for the model side, 767-790 for the data side), at index [i]: the new
    index and the column names read, if any.  Each name is copied into a
    block of [MAX_NAME_LEN] bytes (lines 750-751 and 777-778); the word
    [coef] always fits. *)
Definition read_column_list (word_array : list string) (i : nat)
    : option (nat * option (list string)) :=
  match nth_error word_array i with
  | None => None
  | Some w =>
      if hw_strcmp w "ARRAY" then
        match scan_array (skipn (i + 1) word_array) with
        | None => None
        | Some arr_len =>
            let names := firstn arr_len (skipn (i + 1) word_array) in
            if forallb (fits MAX_NAME_LEN) names
            then Some ((i + (1 + arr_len))%nat, Some names)
            else None
        end
      else if hw_strcmp w "coef" then Some ((i + 1)%nat, Some [w])
      else Some (i, None)
  end.

Definition rd_word (word_array : list string) (i : nat) : option string :=
  nth_error word_array i.

(** A word that is read to be copied into a block of [MAX_NAME_LEN] bytes,
    e.g. lines 793-794. *)
Definition rd_name (word_array : list string) (i : nat) : option string :=
  match rd_word word_array i with
  | Some w => if fits MAX_NAME_LEN w then Some w else None
  | None => None
  end.

(** [case SELECT], lines 723-849. *)
Definition select_case (word_array : list string) (i : nat) (info : operation_info)
    : step_result :=
  match rd_word word_array (i + 1) with
  | None => MemFault
  | Some w1 =>
      let query_check := hw_ophashmap w1 in
      if negb (query_check =? NONE) then
        let info := set_hw_operation query_check (set_hw_support true info) in
        if (query_check =? LINREGR) || (query_check =? LOGREGR) then
          match read_column_list word_array (i + 2) with
          | None => MemFault
          | Some (i1, model_cols) =>
              let info := match model_cols with
                          | Some cols => set_model_col cols info
                          | None => info
                          end in
              match read_column_list word_array i1 with
              | None => MemFault
              | Some (i2, data_cols) =>
                  let info := match data_cols with
                              | Some cols => set_data_col cols info
                              | None => info
                              end in
                  Continue i2 info
              end
          end
        else if (query_check =? SVM) || (query_check =? MLP) || (query_check =? TREE) then
          match rd_name word_array (i + 2), rd_name word_array (i + 3) with
          | Some model, Some data =>
              let info := set_tables model data info in
              if (query_check =? SVM) || (query_check =? MLP) then
                match rd_name word_array (i + 4), rd_name word_array (i + 5) with
                | Some id, Some out =>
                    let info := set_output_table_name out (set_id_col_name id info) in
                    Continue (if query_check =? MLP then (i + 7)%nat else (i + 6)%nat) info
                | _, _ => MemFault
                end
              else
                match rd_name word_array (i + 4) with
                | Some out => Continue (i + 6)%nat (set_output_table_name out info)
                | None => MemFault
                end
          | _, _ => MemFault
          end
        else Continue (i + 1)%nat info
      else
        let query_check := hw_aggrhashmap w1 in
        if negb (query_check =? 0) then
          match rd_name word_array (i + 2) with
          | None => MemFault
          | Some w2 =>
              let '(t, c) := split_table_col w2 (aggr_table_name info) (aggr_table_col info) in
              Continue (i + 3)%nat (set_aggr true query_check t c info)
          end
        else Return (set_hw_support false info)
  end.

(** [case FROM], lines 850-864. *)
Definition from_case (word_array : list string) (i : nat) (info : operation_info)
    : step_result :=
  if hw_support info && ((hw_operation info =? LINREGR) || (hw_operation info =? LOGREGR)) then
    match rd_name word_array (i + 1), rd_name word_array (i + 2) with
    | Some model, Some data => Continue (i + 3)%nat (set_tables model data info)
    | _, _ => MemFault
    end
  else Continue (i + 1)%nat info.

(** [case WHERE], lines 865-895.  The word after [WHERE] is split at the
    dot.  Its copy into the block [filter_table] (lines 868-869) is not
    checked in the model: the flag, the operation, the value and the index
    that this case sets do not depend on it, and what is proved of the names
    it records carries the length of the word as a hypothesis. *)
Definition where_case (word_array : list string) (i : nat) (info : operation_info)
    : step_result :=
  match rd_word word_array (i + 1), rd_word word_array (i + 2), rd_word word_array (i + 3) with
  | Some w1, Some w2, Some w3 =>
      let '(t, c) := split_table_col w1 (filter_table_name info) (filter_col_name info) in
      Continue (i + 4)%nat (set_filter true (hw_filterhashmap w2) t c (atof w3) info)
  | _, _, _ => MemFault
  end.

(** The body of the [for] loop, lines 713-907, entered with [i < word_size]:
    the new cluster and what the [switch] does. *)
Definition extract_step (word_array : list string) (i : nat) (query_cluster : Z)
    (info : operation_info) : Z * step_result :=
  match rd_word word_array i with
  | None => (query_cluster, MemFault)
  | Some w =>
      let query_cluster := hw_queryhashmap w query_cluster in
      (query_cluster,
       if query_cluster =? NONE then
         let info := set_hw_support false info in
         if (i =? 0)%nat then Return info else Continue (i + 1)%nat info
       else if query_cluster =? SELECT then select_case word_array i info
       else if query_cluster =? FROM then from_case word_array i info
       else if query_cluster =? WHERE then where_case word_array i info
       else if query_cluster =? GROUP_BY then Continue i (set_hw_support false info)
       else if query_cluster =? ORDER_BY then Continue i (set_hw_support false info)
       else Continue (i + 1)%nat info)
  end.

(** The [for] loop, lines 712-912.  [inhib] counts the passes through the
    body; [fuel] bounds the unfolding of the loop in the model. *)
Fixpoint extract_loop (fuel : nat) (word_array : list string)
    (i : nat) (query_cluster : Z) (inhib : nat) (info : operation_info) : run_result :=
  if (i <? List.length word_array)%nat then
    match fuel with
    | O => OutOfFuel
    | S fuel' =>
        match extract_step word_array i query_cluster info with
        | (_, MemFault) => Faulted (S inhib)
        | (_, Return info') => Finished info' (S inhib)
        | (query_cluster', Continue i' info') =>
            if (20 <? S inhib)%nat then Finished info' (S inhib)
            else extract_loop fuel' word_array i' query_cluster' (S inhib) info'
        end
    end
  else Finished info inhib.

Definition extract_operation_info (fuel : nat) (word_array : list string)
    (info : operation_info) : run_result :=
  extract_loop fuel word_array 0 0 0 info.

(** The front of [sw_stack_for_hw], lines 2218-2247: tokenize, copy every
    word into its block of [WORD_BYTES] bytes, initialise the profile,
    extract.  A word that does not fit its block is a fault before the first
    pass of the extractor.  The look for the word [madlib.tree_train]
    (lines 2233-2241) sets two variables that the extractor does not read,
    and is left out. *)
Definition extract_from_query (fuel : nat) (query_string : string) : run_result :=
  let word_array := word_array_of query_string in
  if forallb (fits WORD_BYTES) word_array
  then extract_operation_info fuel word_array init_operation_info
  else Faulted 0.

End Extractor.

(** ** Doubles and arrays of doubles *)

(** Conversion of an integer to [double] (round to nearest, ties to even). *)
Definition double_of_Z (z : Z) : float :=
  SF2Prim (binary_normalize prec emax z 0 false).

Definition double_of_nat (n : nat) : float := double_of_Z (Z.of_nat n).

(** Conversion of a [double] to an integer type: the fractional part is
    discarded.  C leaves the conversion of a NaN or an infinity undefined;
    the model answers 0 there. *)
Definition Z_of_double (f : float) : Z :=
  match Prim2SF f with
  | S754_finite s m e =>
      let v := if (0 <=? e)%Z then (Zpos m * 2 ^ e)%Z else (Zpos m / 2 ^ (- e))%Z in
      if s then (- v)%Z else v
  | _ => 0%Z
  end.

(** The [ABS] macro of line 404. *)
Definition ABS (x : float) : float := if (x <? 0)%float then (- x)%float else x.

(** Cell [i] of an array, and the array with cell [i] overwritten.  Both are
    total; the functions below that could leave an array check the index
    first and fault. *)
Definition cell (a : list float) (i : nat) : float := nth i a 0%float.

Fixpoint store (a : list float) (i : nat) (v : float) : list float :=
  match a, i with
  | [], _ => []
  | _ :: r, O => v :: r
  | x :: r, S j => x :: store r j v
  end.

(** [for (i = 0; i < n; i++) s = body(i, s)]. *)
Fixpoint for_up {S : Type} (n : nat) (body : nat -> S -> S) (s : S) : S :=
  match n with
  | O => s
  | Datatypes.S k => body k (for_up k body s)
  end.

(** [for (i = hi; i >= lo; i--) s = body(i, s)], with [count] the number of
    values [i] takes and [hi = lo + count - 1]. *)
Fixpoint for_down {S : Type} (lo count : nat) (body : nat -> S -> S) (s : S) : S :=
  match count with
  | O => s
  | Datatypes.S k => for_down lo k body (body (lo + k)%nat s)
  end.

(** ** Comparison of doubles *)

(** The comparison of two doubles: [None] when one of them is a NaN. *)
Definition fcompare (x y : float) : option comparison :=
  SFcompare (Prim2SF x) (Prim2SF y).

(** [below c]: the comparison [c] is "less" or "equal"; [chain x y]: what
    two such comparisons in a row amount to. *)
Definition below (c : comparison) : bool :=
  match c with Gt => false | _ => true end.

Definition chain (x y : comparison) : comparison :=
  match x, y with Eq, Eq => Eq | _, _ => Lt end.

(** ** Least-squares fit ([polyfit], lines 2500-2596) *)

Record matrix_t : Type := mk_matrix { rows : nat; cols : nat; pContents : list float }.

(** [*MATRIX_VALUE_PTR(pA, row, col)] read and written. *)
Definition MATRIX_VALUE (pA : matrix_t) (row col : nat) : float :=
  cell (pContents pA) (row * cols pA + col).

Definition MATRIX_SET (pA : matrix_t) (row col : nat) (v : float) : matrix_t :=
  mk_matrix (rows pA) (cols pA) (store (pContents pA) (row * cols pA + col) v).

(** [createMatrix]: [calloc] gives cells that are all zero.  A failed
    allocation (the -3 exits of [polyfit]) is not modelled. *)
Definition createMatrix (rows cols : nat) : matrix_t :=
  mk_matrix rows cols (repeat 0%float (rows * cols)).

Definition createTranspose (pMat : matrix_t) : matrix_t :=
  let rVal := createMatrix (cols pMat) (rows pMat) in
  for_up (rows rVal) (fun r rVal =>
    for_up (cols rVal) (fun c rVal =>
      MATRIX_SET rVal r c (MATRIX_VALUE pMat c r)) rVal) rVal.

Definition createProduct (pLeft pRight : matrix_t) : matrix_t :=
  let rVal := createMatrix (rows pLeft) (cols pRight) in
  for_up (rows rVal) (fun i rVal =>
    for_up (cols rVal) (fun j rVal =>
      for_up (cols pLeft) (fun k rVal =>
        MATRIX_SET rVal i j
          (MATRIX_VALUE rVal i j + MATRIX_VALUE pLeft i k * MATRIX_VALUE pRight k j)%float)
        rVal) rVal) rVal.

(** The body of the elimination loop for a column [c] whose pivot [prVal] is
    not zero, lines 2565-2574. *)
Definition eliminate_column (c : nat) (prVal : float) (ab : matrix_t * matrix_t)
    : matrix_t * matrix_t :=
  for_up (rows (fst ab)) (fun r ab =>
    if (r =? c)%nat then ab
    else
      let pMatATA := fst ab in
      let pMatATB := snd ab in
      let targetRowVal := MATRIX_VALUE pMatATA r c in
      let factor := (targetRowVal / prVal)%float in
      let pMatATA :=
        for_up (cols pMatATA) (fun c2 m =>
          MATRIX_SET m r c2 (MATRIX_VALUE m r c2 - MATRIX_VALUE m c c2 * factor)%float)
          pMatATA in
      let pMatATB :=
        MATRIX_SET pMatATB r 0 (MATRIX_VALUE pMatATB r 0 - MATRIX_VALUE pMatATB c 0 * factor)%float in
      (pMatATA, pMatATB)) ab.

(** The elimination loop, lines 2556-2575, from column [c] on, with [todo]
    columns left: a pivot that compares equal to zero sets [rVal] to -4 and
    leaves the loop by [break]. *)
Fixpoint eliminate (todo c : nat) (ab : matrix_t * matrix_t) : Z * (matrix_t * matrix_t) :=
  match todo with
  | O => (0%Z, ab)
  | S todo' =>
      let prVal := MATRIX_VALUE (fst ab) c c in
      if (prVal =? 0)%float then ((-4)%Z, ab)
      else eliminate todo' (S c) (eliminate_column c prVal ab)
  end.

(** The second loop, lines 2576-2582: every row is divided by its pivot. *)
Definition normalize_rows (ab : matrix_t * matrix_t) : matrix_t * matrix_t :=
  for_up (cols (fst ab)) (fun c ab =>
    let prVal := MATRIX_VALUE (fst ab) c c in
    (MATRIX_SET (fst ab) c c (MATRIX_VALUE (fst ab) c c / prVal)%float,
     MATRIX_SET (snd ab) c 0 (MATRIX_VALUE (snd ab) c 0 / prVal)%float)) ab.

Section Polyfit.

(** [pow] is the C library's. *)
Variable pow : float -> float -> float.

(** The normal equations of lines 2514-2551: the matrices [AT*A] and [AT*b]. *)
Definition normal_equations (pointCount : nat) (xValues yValues : list float)
    (coefficientCount : nat) : matrix_t * matrix_t :=
  let degree := (Z.of_nat coefficientCount - 1)%Z in
  let pMatA :=
    for_up pointCount (fun r m =>
      for_up coefficientCount (fun c m =>
        MATRIX_SET m r c (pow (cell xValues r) (double_of_Z (degree - Z.of_nat c))))
        m) (createMatrix pointCount coefficientCount) in
  let pMatB :=
    for_up pointCount (fun r m => MATRIX_SET m r 0 (cell yValues r))
      (createMatrix pointCount 1) in
  let pMatAT := createTranspose pMatA in
  (createProduct pMatAT pMatA, createProduct pMatAT pMatB).

(** [polyfit]: the returned code and the contents of [coefficientResults]
    when it returns.  The arrays are never [NULL] here (the -1 exit). *)
Definition polyfit (pointCount : nat) (xValues yValues : list float)
    (coefficientCount : nat) (coefficientResults : list float) : Z * list float :=
  if (pointCount <? coefficientCount)%nat then ((-2)%Z, coefficientResults)
  else
    let '(rVal, ab) :=
      eliminate coefficientCount 0
        (normal_equations pointCount xValues yValues coefficientCount) in
    let ab := normalize_rows ab in
    (rVal,
     for_up coefficientCount (fun i res => store res i (MATRIX_VALUE (snd ab) i 0))
       coefficientResults).

(** [polyval], lines 2621-2634, and the body of [polyval_multi]: the cubic
    with coefficients [exec_coef], highest degree first, at [new_data]. *)
Definition polyval (new_data : float) (exec_coef : list float) : float :=
  for_down 0 4 (fun j result =>
    let partial_mul := for_up j (fun _ p => (p * new_data)%float) 1%float in
    (result + cell exec_coef (3 - j) * partial_mul)%float) 0%float.

Definition polyval_multi (data_num : list float) (data_len : nat) (exec_coef : list float)
    : list float :=
  map (fun i => polyval (cell data_num i) exec_coef) (seq 0 data_len).

(** [get_avg_error], lines 2706-2743: refits [exec_coef] and measures the
    fit; the results are [*error], [*error_rate] and the coefficients.  The
    code of [polyfit] is printed when it is not zero, and otherwise unused. *)
Definition get_avg_error (data_num exec_time : list float) (data_len : nat)
    (exec_coef : list float) (first_flag : bool) : float * float * list float :=
  let exec_coef := snd (polyfit data_len data_num exec_time 4 exec_coef) in
  let assume_result := polyval_multi data_num data_len exec_coef in
  let totals :=
    for_up data_len (fun j totals =>
      let partial_error := ABS (cell exec_time j - cell assume_result j)%float in
      if negb first_flag && (j =? 0)%nat then totals
      else ((fst totals + partial_error)%float,
            (snd totals + partial_error / cell exec_time j * 100)%float))
      (0%float, 0%float) in
  ((fst totals / double_of_nat data_len)%float,
   (snd totals / double_of_nat data_len)%float,
   exec_coef).

End Polyfit.

(** ** Re-partitioning of two adjacent buckets ([adjust_range], lines 2745-3255) *)

(** The places where [adjust_range] allocates a coefficient block with
    [malloc]; [rec] is the value of the loop counter. *)
Inductive alloc_site : Type :=
| DefLeft | DefRight
| Phase1Left (rec : nat) | Phase1Right (rec : nat)
| Phase2Left (rec : nat) | Phase2Right (rec : nat).

(** The variables of one scan.  The four arrays have [total_len] cells; the
    source names them [min_left_data_num_1], ... in phase 1 and
    [min_left_data_num_2], ... in phase 2. *)
Record scan_state : Type := mk_scan_state {
  min_left_data_num : list float;
  min_right_data_num : list float;
  min_left_exec_time : list float;
  min_right_exec_time : list float;
  left_len : nat;
  right_len : nat;
  min_left_error : float;
  min_right_error : float;
  min_left_error_rate : float;
  min_right_error_rate : float;
  min_left_coef : list float;
  min_right_coef : list float;
  min_left_len : nat;
  min_right_len : nat
}.

(** What [adjust_range] hands back through its pointer arguments, and the two
    rates of its "Final result" line. *)
Record adjust_result : Type := mk_adjust_result {
  out_left_data_num : list float;
  out_right_data_num : list float;
  out_left_exec_time : list float;
  out_right_exec_time : list float;
  out_left_coef : list float;
  out_right_coef : list float;
  out_data1_len : nat;
  out_data2_len : nat;
  final_left_error_rate : float;
  final_right_error_rate : float
}.

(** The sample at cell 1 of the right arrays is appended to the left arrays
    and the right arrays are shifted down by one cell: the move of phase 1
    (lines 2821-2830) and the roll back of phase 2 (lines 3070-3079 and its
    copies).  [None]: an index outside the arrays. *)
Definition take_from_right (st : scan_state) : option scan_state :=
  let cap := List.length (min_left_data_num st) in
  if ((1 <? cap) && (left_len st <? cap) && (1 <=? right_len st) && (right_len st <=? cap))%nat
  then
    let ln := store (min_left_data_num st) (left_len st) (cell (min_right_data_num st) 1) in
    let lt := store (min_left_exec_time st) (left_len st) (cell (min_right_exec_time st) 1) in
    let shift a := for_up (right_len st - 1) (fun d a => store a d (cell a (d + 1))) a in
    let rn := store (shift (min_right_data_num st)) (right_len st - 1) 0%float in
    let rt := store (shift (min_right_exec_time st)) (right_len st - 1) 0%float in
    Some (mk_scan_state ln rn lt rt (left_len st + 1) (right_len st - 1)
            (min_left_error st) (min_right_error st)
            (min_left_error_rate st) (min_right_error_rate st)
            (min_left_coef st) (min_right_coef st) (min_left_len st) (min_right_len st))
  else None.

(** The right arrays are shifted up by one cell, their cell 0 receives the
    last but one sample of the left arrays, and the last cell of the left
    arrays is zeroed: the roll back of phase 1 (lines 2862-2871 and its
    copies) and the move of phase 2 (lines 3029-3038). *)
Definition give_to_right (st : scan_state) : option scan_state :=
  let cap := List.length (min_left_data_num st) in
  if ((2 <=? left_len st) && (left_len st <=? cap) && (right_len st <? cap))%nat
  then
    let shift a := for_down 1 (right_len st) (fun d a => store a d (cell a (d - 1))) a in
    let rn := store (shift (min_right_data_num st)) 0 (cell (min_left_data_num st) (left_len st - 2)) in
    let rt := store (shift (min_right_exec_time st)) 0 (cell (min_left_exec_time st) (left_len st - 2)) in
    let ln := store (min_left_data_num st) (left_len st - 1) 0%float in
    let lt := store (min_left_exec_time st) (left_len st - 1) 0%float in
    Some (mk_scan_state ln rn lt rt (left_len st - 1) (right_len st + 1)
            (min_left_error st) (min_right_error st)
            (min_left_error_rate st) (min_right_error_rate st)
            (min_left_coef st) (min_right_coef st) (min_left_len st) (min_right_len st))
  else None.

(** The assignments of an accepted step, e.g. lines 2848-2857. *)
Definition record_min (st : scan_state) (left_error right_error
    left_error_rate right_error_rate : float) (left_coef right_coef : list float)
    : scan_state :=
  mk_scan_state (min_left_data_num st) (min_right_data_num st)
    (min_left_exec_time st) (min_right_exec_time st) (left_len st) (right_len st)
    left_error right_error left_error_rate right_error_rate left_coef right_coef
    (left_len st) (right_len st).

(** The four-way test of a step, e.g. lines 2845-2943: [true] when the step
    is kept (both rates lower, or one lower by more than the other is
    higher), [false] when it is rolled back and the scan stops. *)
Definition step_accepted (min_left_rate min_right_rate left_error_rate right_error_rate : float)
    : bool :=
  if (left_error_rate <? min_left_rate)%float && (right_error_rate <? min_right_rate)%float
  then true
  else if (min_left_rate <? left_error_rate)%float && (min_right_rate <? right_error_rate)%float
  then false
  else if (left_error_rate <? min_left_rate)%float && (min_right_rate <? right_error_rate)%float
  then
    let left_improved := (min_left_rate - left_error_rate)%float in
    let right_worsed := (right_error_rate - min_right_rate)%float in
    (right_worsed <? left_improved)%float
  else
    let left_worsed := (left_error_rate - min_left_rate)%float in
    let right_improved := (min_right_rate - right_error_rate)%float in
    (left_worsed <? right_improved)%float.

Section AdjustRange.

Variable pow : float -> float -> float.

(** What a block returned by [malloc] holds before the program writes to it:
    [uninit_coef site] for a coefficient block, [uninit_cell] in the cells of
    the sample arrays. *)
Variable uninit_coef : alloc_site -> list float.
Variable uninit_cell : float.

(** Phase 1, lines 2820-2978, with [todo] passes of the loop left. *)
Fixpoint phase1 (first_flag : bool) (todo rec : nat) (st : scan_state) : option scan_state :=
  match todo with
  | O => Some st
  | S todo' =>
      match take_from_right st with
      | None => None
      | Some st =>
          let '(left_error, left_error_rate, left_coef) :=
            get_avg_error pow (min_left_data_num st) (min_left_exec_time st) (left_len st)
              (uninit_coef (Phase1Left rec)) first_flag in
          let '(right_error, right_error_rate, right_coef) :=
            get_avg_error pow (min_right_data_num st) (min_right_exec_time st) (right_len st)
              (uninit_coef (Phase1Right rec)) false in
          if step_accepted (min_left_error_rate st) (min_right_error_rate st)
               left_error_rate right_error_rate
          then
            let st := record_min st left_error right_error left_error_rate right_error_rate
                        left_coef right_coef in
            if (min_left_error_rate st <? 5)%float || (min_right_error_rate st <? 5)%float
            then give_to_right st
            else if (min_left_len st <? 4)%nat || (min_right_len st <? 4)%nat
            then give_to_right st
            else phase1 first_flag todo' (S rec) st
          else give_to_right st
      end
  end.

(** Phase 2, lines 3028-3186.  Its two tests after an accepted step, lines
    3152 and 3169, read the variables of phase 1 ([min_left_error_rate_1],
    [min_right_error_rate_1], [min_left_len_1], [min_right_len_1]); [p1] is
    the state phase 1 ended in. *)
Fixpoint phase2 (first_flag : bool) (p1 : scan_state) (todo rec : nat) (st : scan_state)
    : option scan_state :=
  match todo with
  | O => Some st
  | S todo' =>
      match give_to_right st with
      | None => None
      | Some st =>
          let '(left_error, left_error_rate, left_coef) :=
            get_avg_error pow (min_left_data_num st) (min_left_exec_time st) (left_len st)
              (uninit_coef (Phase2Left rec)) first_flag in
          let '(right_error, right_error_rate, right_coef) :=
            get_avg_error pow (min_right_data_num st) (min_right_exec_time st) (right_len st)
              (uninit_coef (Phase2Right rec)) false in
          if step_accepted (min_left_error_rate st) (min_right_error_rate st)
               left_error_rate right_error_rate
          then
            let st := record_min st left_error right_error left_error_rate right_error_rate
                        left_coef right_coef in
            if (min_left_error_rate p1 <? 5)%float || (min_right_error_rate p1 <? 5)%float
            then take_from_right st
            else if (min_left_len p1 <? 4)%nat || (min_right_len p1 <? 4)%nat
            then take_from_right st
            else phase2 first_flag p1 todo' (S rec) st
          else take_from_right st
      end
  end.

(** The state both scans start from, lines 2788-2818 and 2995-3026: arrays of
    [total_len] cells that hold copies of the two buckets, and the fit of the
    buckets as they are. *)
Definition initial_scan_state (data_num1 data_num2 exec_time1 exec_time2 : list float)
    (data1_len data2_len : nat) (first_flag : bool) : scan_state :=
  let '(def_left_error, def_left_error_rate, def_left_coef) :=
    get_avg_error pow data_num1 exec_time1 data1_len (uninit_coef DefLeft) first_flag in
  let '(def_right_error, def_right_error_rate, def_right_coef) :=
    get_avg_error pow data_num2 exec_time2 data2_len (uninit_coef DefRight) false in
  let copy a n pad := (map (cell a) (seq 0 n) ++ repeat uninit_cell pad)%list in
  mk_scan_state
    (copy data_num1 data1_len data2_len) (copy data_num2 data2_len data1_len)
    (copy exec_time1 data1_len data2_len) (copy exec_time2 data2_len data1_len)
    data1_len data2_len
    def_left_error def_right_error def_left_error_rate def_right_error_rate
    def_left_coef def_right_coef data1_len data2_len.

Definition result_of_scan (st : scan_state) : adjust_result :=
  mk_adjust_result (min_left_data_num st) (min_right_data_num st)
    (min_left_exec_time st) (min_right_exec_time st)
    (min_left_coef st) (min_right_coef st) (min_left_len st) (min_right_len st)
    (min_left_error_rate st) (min_right_error_rate st).

(** [adjust_range]: both scans from the same start, then the choice of lines
    3204-3252.  [None]: an array was indexed outside its cells. *)
Definition adjust_range (data_num1 data_num2 exec_time1 exec_time2 : list float)
    (data1_len data2_len : nat) (first_flag : bool) : option adjust_result :=
  let st0 := initial_scan_state data_num1 data_num2 exec_time1 exec_time2
               data1_len data2_len first_flag in
  match phase1 first_flag data2_len 0 st0 with
  | None => None
  | Some p1 =>
      match phase2 first_flag p1 data1_len 0 st0 with
      | None => None
      | Some p2 =>
          if (min_left_error_rate p1 + min_right_error_rate p1
              <? min_left_error_rate p2 + min_right_error_rate p2)%float
          then Some (result_of_scan p1)
          else Some (result_of_scan p2)
      end
  end.

(** The fit of the buckets that [adjust_range] hands back, measured the way
    [adjust_range] itself measures a fit. *)
Definition refit_error_rates (r : adjust_result) (first_flag : bool) : float * float :=
  (snd (fst (get_avg_error pow (out_left_data_num r) (out_left_exec_time r)
               (out_data1_len r) (uninit_coef DefLeft) first_flag)),
   snd (fst (get_avg_error pow (out_right_data_num r) (out_right_exec_time r)
               (out_data2_len r) (uninit_coef DefRight) false))).

End AdjustRange.

(** ** The sample set of a query class and [add_new_data] (lines 3467-3561) *)

(** The entries that the global arrays [data_num1], [exec_time1], [data1_len],
    [exec_coef1], ... hold for one query class (lines 429-443). *)
Record class_model : Type := mk_class_model {
  data_num1 : list float;
  data_num2 : list float;
  data_num3 : list float;
  exec_time1 : list float;
  exec_time2 : list float;
  exec_time3 : list float;
  data1_len : nat;
  data2_len : nat;
  data3_len : nat;
  exec_coef1 : list float;
  exec_coef2 : list float;
  exec_coef3 : list float
}.

(** The search loop of a data range, e.g. lines 3490-3491: the first index
    [i] in [i0, i0 + todo) with [data_num[i] >= new_data_num_add]. *)
Fixpoint first_not_below (data_num : list float) (new_data_num_add : float) (i0 todo : nat)
    : option nat :=
  match todo with
  | O => None
  | S todo' =>
      if (new_data_num_add <=? cell data_num i0)%float then Some i0
      else first_not_below data_num new_data_num_add (S i0) todo'
  end.

(** The body of one data range, e.g. lines 3490-3507, on the arrays and the
    length of that range.  [None]: the shift writes past the last cell. *)
Definition insert_sample (data_num exec_time : list float) (data_len : nat)
    (new_data_num_add new_exec_time_add : float) : option (list float * list float * nat) :=
  match first_not_below data_num new_data_num_add 0 data_len with
  | None => Some (data_num, exec_time, data_len)
  | Some i =>
      if (cell data_num i =? new_data_num_add)%float then
        Some (data_num,
              store exec_time i ((cell exec_time i + new_exec_time_add) / 2)%float,
              data_len)
      else if ((data_len <? List.length data_num) && (data_len <? List.length exec_time))%nat then
        let shift a := for_down i (data_len - i) (fun j a => store a (j + 1) (cell a j)) a in
        Some (store (shift data_num) i new_data_num_add,
              store (shift exec_time) i new_exec_time_add,
              S data_len)
      else None
  end.

(** The data range an observation is routed to, lines 3489, 3509 and 3528. *)
Definition data_range (m : class_model) (new_data_num_add : float) : nat :=
  if (new_data_num_add <=? cell (data_num2 m) 0)%float then 1
  else if (new_data_num_add <=? cell (data_num3 m) 0)%float then 2
  else 3.

(** The arrays and the length of a data range. *)
Definition range_data_num (m : class_model) (k : nat) : list float :=
  match k with 1%nat => data_num1 m | 2%nat => data_num2 m | _ => data_num3 m end.

Definition range_exec_time (m : class_model) (k : nat) : list float :=
  match k with 1%nat => exec_time1 m | 2%nat => exec_time2 m | _ => exec_time3 m end.

Definition range_len (m : class_model) (k : nat) : nat :=
  match k with 1%nat => data1_len m | 2%nat => data2_len m | _ => data3_len m end.

(** The insertion step of [add_new_data], lines 3489-3547.  The arrays are
    the caller's, written in place, and the length is incremented through
    [len1], [len2] or [len3]. *)
Definition insert_step (m : class_model) (new_data_num_add new_exec_time_add : float)
    : option class_model :=
  match data_range m new_data_num_add with
  | 1%nat =>
      match insert_sample (data_num1 m) (exec_time1 m) (data1_len m)
              new_data_num_add new_exec_time_add with
      | None => None
      | Some (dn, et, len) =>
          Some (mk_class_model dn (data_num2 m) (data_num3 m) et (exec_time2 m) (exec_time3 m)
                  len (data2_len m) (data3_len m) (exec_coef1 m) (exec_coef2 m) (exec_coef3 m))
      end
  | 2%nat =>
      match insert_sample (data_num2 m) (exec_time2 m) (data2_len m)
              new_data_num_add new_exec_time_add with
      | None => None
      | Some (dn, et, len) =>
          Some (mk_class_model (data_num1 m) dn (data_num3 m) (exec_time1 m) et (exec_time3 m)
                  (data1_len m) len (data3_len m) (exec_coef1 m) (exec_coef2 m) (exec_coef3 m))
      end
  | _ =>
      match insert_sample (data_num3 m) (exec_time3 m) (data3_len m)
              new_data_num_add new_exec_time_add with
      | None => None
      | Some (dn, et, len) =>
          Some (mk_class_model (data_num1 m) (data_num2 m) dn (exec_time1 m) (exec_time2 m) et
                  (data1_len m) (data2_len m) len (exec_coef1 m) (exec_coef2 m) (exec_coef3 m))
      end
  end.

Section AddNewData.

Variable pow : float -> float -> float.
Variable uninit_coef : alloc_site -> list float.
Variable uninit_cell : float.

(** [add_new_data].  After the insertion step the two calls of
    [adjust_range] (lines 3549-3556) receive the local copies [data1_len],
    [data2_len], [data3_len] made at lines 3481-3483, before the insertion;
    what they return goes to local variables, of which only the three
    coefficient arrays are written back (lines 3558-3560). *)
Definition add_new_data (m : class_model) (new_data_num_add new_exec_time_add : float)
    : option class_model :=
  match insert_step m new_data_num_add new_exec_time_add with
  | None => None
  | Some m1 =>
      match adjust_range pow uninit_coef uninit_cell
              (data_num1 m1) (data_num2 m1) (exec_time1 m1) (exec_time2 m1)
              (data1_len m) (data2_len m) true with
      | None => None
      | Some r1 =>
          match adjust_range pow uninit_coef uninit_cell
                  (out_right_data_num r1) (data_num3 m1) (out_right_exec_time r1) (exec_time3 m1)
                  (out_data2_len r1) (data3_len m) false with
          | None => None
          | Some r2 =>
              Some (mk_class_model (data_num1 m1) (data_num2 m1) (data_num3 m1)
                      (exec_time1 m1) (exec_time2 m1) (exec_time3 m1)
                      (data1_len m1) (data2_len m1) (data3_len m1)
                      (out_left_coef r1) (out_left_coef r2) (out_right_coef r2))
          end
      end
  end.

End AddNewData.

(** The invariant of a sample set (specification, section 3): in each range
    the sizes of the samples are strictly ascending, and the ranges follow
    one another on the size axis. *)
Definition sorted_upto (a : list float) (n : nat) : Prop :=
  forall i, (S i < n)%nat -> (cell a i <? cell a (S i))%float = true.

Definition ranges_sorted (m : class_model) : Prop :=
  sorted_upto (data_num1 m) (data1_len m) /\
  sorted_upto (data_num2 m) (data2_len m) /\
  sorted_upto (data_num3 m) (data3_len m).

Definition ranges_contiguous (m : class_model) : Prop :=
  (1 <= data1_len m)%nat /\ (1 <= data2_len m)%nat /\ (1 <= data3_len m)%nat /\
  (cell (data_num1 m) (data1_len m - 1) <=? cell (data_num2 m) 0)%float = true /\
  (cell (data_num2 m) (data2_len m - 1) <=? cell (data_num3 m) 0)%float = true.

(** Every range has a free cell after its last sample. *)
Definition ranges_have_room (m : class_model) : Prop :=
  (data1_len m < List.length (data_num1 m))%nat /\ (data1_len m < List.length (exec_time1 m))%nat /\
  (data2_len m < List.length (data_num2 m))%nat /\ (data2_len m < List.length (exec_time2 m))%nat /\
  (data3_len m < List.length (data_num3 m))%nat /\ (data3_len m < List.length (exec_time3 m))%nat.

(** ** The table statistics probe ([get_data_num], lines 1802-1840) *)

(** What the probe reads of a relation: the size in bytes of the file that
    [relpathbackend(.., 0)] names (the first segment of the main fork) and,
    for a block number, [PageGetMaxOffsetNumber] of that block of the main
    fork.  The probe computes in [double]; every value is an integer far
    below 2^53, so the arithmetic is exact and modelled in [Z]. *)
Record relation_storage : Type := mk_relation_storage {
  st_size : Z;
  max_offset_number : Z -> Z
}.

Definition total_page_num (rel : relation_storage) : Z := Z.quot (st_size rel) 8192.

Definition first_page_size (rel : relation_storage) : Z := max_offset_number rel 0.

Definition last_page_size (rel : relation_storage) : Z :=
  max_offset_number rel (total_page_num rel - 1).

(** The returned estimate; [*page_num] receives [total_page_num]. *)
Definition get_data_num (rel : relation_storage) : Z :=
  if total_page_num rel =? 1 then first_page_size rel
  else first_page_size rel * (total_page_num rel - 1) + last_page_size rel.

(** ** The accelerator latency model ([get_hw_expectation_time], lines 1842-2213) *)

Definition PAGE_SIZE : Z := 8192.
Definition UNIT_DATABASE_SIZE : Z := 1073741824.

Definition USER_TOTAL_LUT : Z := 320000.
Definition USER_TOTAL_FF : Z := 862374.
Definition USER_TOTAL_URAM : Z := 120.
Definition USER_TOTAL_BRAM : Z := 673.
Definition USER_TOTAL_DSP : Z := 1959.
Definition USER_CLOCK : Z := 170.

Definition HOST_ADDRESSMAP_LATENCY : float := 0.44.
Definition HOST_SETKERNEL_LATENCY : float := 0.08.
Definition HOST_CREATEBUF_LATENCY_0 : float := 56.415.
Definition HOST_CREATEBUF_LATENCY_1 : float := 12.845.
Definition HOST_CREATEBUF_LATENCY_2 : float := 4.085.
Definition HOST_CREATEBUF_LATENCY_3 : float := 3.095.
Definition HOST_CREATEBUF_LATENCY_4 : float := 2.842.

Definition SMARTSSD_CORE_VAR_LUT : Z := 105998.
Definition SMARTSSD_CORE_VAR_FF : Z := 92258.
Definition SMARTSSD_CORE_VAR_URAM : Z := 32.
Definition SMARTSSD_CORE_VAR_BRAM : Z := 15.
Definition SMARTSSD_CORE_VAR_DSP : Z := 342.
Definition SMARTSSD_CORE_CONST_LUT : Z := 10708.
Definition SMARTSSD_CORE_CONST_FF : Z := 9750.
Definition SMARTSSD_CORE_CONST_URAM : Z := 0.
Definition SMARTSSD_CORE_CONST_BRAM : Z := 22.
Definition SMARTSSD_CORE_CONST_DSP : Z := 10.

Definition SMARTSSD_DATABASE_SIZE_STD_0 : Z := 536870912.
Definition SMARTSSD_DATABASE_SIZE_STD_1 : Z := 107380736.
Definition SMARTSSD_DATABASE_SIZE_STD_2 : Z := 10731520.
Definition SMARTSSD_DATABASE_SIZE_STD_3 : Z := 1064960.
Definition SMARTSSD_DATABASE_SIZE_STD_4 : Z := 98304.

Definition SMARTSSD_SSD2FPGA_EFFBW_0 : float := 3489660928.
Definition SMARTSSD_SSD2FPGA_EFFBW_1 : float := 3328599654.4.
Definition SMARTSSD_SSD2FPGA_EFFBW_2 : float := 2641404887.04.
Definition SMARTSSD_SSD2FPGA_EFFBW_3 : float := 1181116006.4.
Definition SMARTSSD_SSD2FPGA_EFFBW_4 : float := 493921239.04.

Definition SMARTSSD_OUTBUF_SIZE_STD_0 : Z := 264240.
Definition SMARTSSD_OUTBUF_SIZE_STD_1 : Z := 24576.
Definition SMARTSSD_FPGA2HOST_EFFBW_0 : float := 934155386.88.
Definition SMARTSSD_FPGA2HOST_EFFBW_1 : float := 311385128.96.

(** A value stored in a [size_t]. *)
Definition size_t (z : Z) : Z := z mod 2 ^ 64.

(** The usable core count, lines 1856-1874. *)
Definition user_corenum : Z :=
  let user_corenum_resource :=
    [ size_t (USER_TOTAL_LUT - SMARTSSD_CORE_CONST_LUT) / SMARTSSD_CORE_VAR_LUT;
      size_t (USER_TOTAL_FF - SMARTSSD_CORE_CONST_FF) / SMARTSSD_CORE_VAR_FF;
      size_t (USER_TOTAL_URAM - SMARTSSD_CORE_CONST_URAM) / SMARTSSD_CORE_VAR_URAM;
      size_t (USER_TOTAL_BRAM - SMARTSSD_CORE_CONST_BRAM) / SMARTSSD_CORE_VAR_BRAM;
      size_t (USER_TOTAL_DSP - SMARTSSD_CORE_CONST_DSP) / SMARTSSD_CORE_VAR_DSP ] in
  for_up 4 (fun k user_corenum =>
    let r := nth (S k) user_corenum_resource 0 in
    if r <=? user_corenum then r else user_corenum)
    (nth 0 user_corenum_resource 0).

(** The measured unit cycle counts [(user_unit_com_cycle, user_unit_dma_cycle)]
    of lines 1976-2177; both stay 0 for a dataset or a query outside the
    tables.  In the second table, [FOREST] is the dataset identifier. *)
Definition unit_cycles (user_dataset user_query_num : Z) : Z * Z :=
  if user_dataset =? HIGGS then
    if user_query_num =? Q1 then (5522, 703)
    else if user_query_num =? Q2 then (5522, 703)
    else if user_query_num =? Q3 then (5582, 518)
    else if user_query_num =? Q4 then (5582, 518)
    else if user_query_num =? Q5 then (5552, 701)
    else if user_query_num =? Q6 then (5552, 701)
    else if user_query_num =? Q7 then (5612, 521)
    else if user_query_num =? Q8 then (5612, 521)
    else if user_query_num =? Q9 then (5522, 703)
    else if user_query_num =? Q10 then (28048, 5766)
    else if user_query_num =? Q11 then (4591, 5534)
    else (0, 0)
  else if user_dataset =? FOREST then
    if user_query_num =? Q1 then (5215, 785)
    else if user_query_num =? Q2 then (5215, 778503)
    else if user_query_num =? Q3 then (5308, 527)
    else if user_query_num =? Q4 then (5308, 527)
    else if user_query_num =? Q5 then (5244, 782)
    else if user_query_num =? Q6 then (5244, 782)
    else if user_query_num =? Q7 then (5338, 535)
    else if user_query_num =? Q8 then (5338, 535)
    else if user_query_num =? Q9 then (5215, 785)
    else if user_query_num =? Q10 then (14651, 5685)
    else if user_query_num =? Q11 then (2903, 5500)
    else (0, 0)
  else if user_dataset =? WILT then
    if user_query_num =? Q1 then (5087, 884)
    else if user_query_num =? Q2 then (5087, 884)
    else if user_query_num =? Q3 then (5238, 536)
    else if user_query_num =? Q4 then (5238, 536)
    else if user_query_num =? Q5 then (5117, 882)
    else if user_query_num =? Q6 then (5117, 882)
    else if user_query_num =? Q7 then (5268, 534)
    else if user_query_num =? Q8 then (5268, 534)
    else if user_query_num =? Q9 then (5087, 882)
    else if user_query_num =? Q10 then (7785, 5864)
    else if user_query_num =? Q11 then (4512, 5623)
    else (0, 0)
  else if user_dataset =? HABERMAN then
    if user_query_num =? Q1 then (4335, 980)
    else if user_query_num =? Q2 then (4335, 980)
    else if user_query_num =? Q3 then (4507, 533)
    else if user_query_num =? Q4 then (4507, 533)
    else if user_query_num =? Q5 then (4365, 949)
    else if user_query_num =? Q6 then (4365, 949)
    else if user_query_num =? Q7 then (4537, 534)
    else if user_query_num =? Q8 then (4537, 534)
    else if user_query_num =? Q9 then (4335, 979)
    else if user_query_num =? Q10 then (4019, 5356)
    else if user_query_num =? Q11 then (4153, 5050)
    else (0, 0)
  else (0, 0).

(** The test [user_query == Q3 || user_query == Q4 || user_query == Q7 ||
    user_query == Q8] of lines 1947, 1961 and 2190.  [user_query] is the
    [int] converted to [size_t], which does not change the outcome. *)
Definition aggregate_query (user_query_num : Z) : bool :=
  (user_query_num =? Q3) || (user_query_num =? Q4) ||
  (user_query_num =? Q7) || (user_query_num =? Q8).

(** Lines 1877-1887. *)
Definition user_database_size (user_pagenum : float) : Z :=
  size_t ((Z_of_double user_pagenum + 1) * 8 * 1024).

Definition host_iteration (user_pagenum : float) : Z :=
  user_database_size user_pagenum / (UNIT_DATABASE_SIZE * 2).

Definition page_iteration (user_pagenum : float) : Z :=
  size_t (user_database_size user_pagenum
          - size_t (host_iteration user_pagenum * UNIT_DATABASE_SIZE * 2)) / PAGE_SIZE.

Definition user_lastdatabase_size (user_pagenum : float) : Z :=
  size_t (user_database_size user_pagenum
          - size_t (host_iteration user_pagenum * UNIT_DATABASE_SIZE * 2)).

(** The loops [for (int i = 0; i < host_iteration + 1; i++)]. *)
Definition host_loop {S : Type} (user_pagenum : float) (body : Z -> S -> S) (s : S) : S :=
  for_up (Z.to_nat (host_iteration user_pagenum + 1)) (fun i => body (Z.of_nat i)) s.

(** The summands of the total, in the order of line 2210. *)
Record hw_latency : Type := mk_hw_latency {
  host_total_createbuffer_latency : float;
  host_total_addressmap_latency : float;
  host_total_ssd2fpga_latency : float;
  host_total_setkernel_latency : float;
  user_total_kernel_latency : float;
  user_kernel_overhead_latency : float;
  host_total_fpga2host_latency : float
}.

Definition user_total_latency (l : hw_latency) : float :=
  (host_total_createbuffer_latency l + host_total_addressmap_latency l
   + host_total_ssd2fpga_latency l + host_total_setkernel_latency l
   + user_total_kernel_latency l + user_kernel_overhead_latency l
   + host_total_fpga2host_latency l)%float.

Definition hw_latency_of (aggregate : bool) (unit_cycle : Z * Z) (user_pagenum : float)
    : hw_latency :=
  let user_unit_com_cycle := fst unit_cycle in
  let user_unit_dma_cycle := snd unit_cycle in
  let host_iteration := host_iteration user_pagenum in
  let page_iteration := page_iteration user_pagenum in
  let user_lastdatabase_size := user_lastdatabase_size user_pagenum in
  let last_size := double_of_Z user_lastdatabase_size in
  (* lines 1889-1893 *)
  let addressmap := (HOST_ADDRESSMAP_LATENCY * double_of_Z (size_t (host_iteration + 1)))%float in
  let setkernel := (HOST_SETKERNEL_LATENCY * double_of_Z (size_t (host_iteration + 1)))%float in
  (* lines 1898-1920 *)
  let host_createbuffer_latency :=
    if user_lastdatabase_size <=? SMARTSSD_DATABASE_SIZE_STD_4 then HOST_CREATEBUF_LATENCY_4
    else if user_lastdatabase_size <=? SMARTSSD_DATABASE_SIZE_STD_3 then
      (HOST_CREATEBUF_LATENCY_4 * last_size / double_of_Z SMARTSSD_DATABASE_SIZE_STD_4)%float
    else if user_lastdatabase_size <=? SMARTSSD_DATABASE_SIZE_STD_2 then
      (HOST_CREATEBUF_LATENCY_3 * last_size / double_of_Z SMARTSSD_DATABASE_SIZE_STD_3)%float
    else if user_lastdatabase_size <=? SMARTSSD_DATABASE_SIZE_STD_1 then
      (HOST_CREATEBUF_LATENCY_2 * last_size / double_of_Z SMARTSSD_DATABASE_SIZE_STD_2)%float
    else if user_lastdatabase_size <=? SMARTSSD_DATABASE_SIZE_STD_0 then
      (HOST_CREATEBUF_LATENCY_1 * last_size / double_of_Z SMARTSSD_DATABASE_SIZE_STD_1)%float
    else
      (HOST_CREATEBUF_LATENCY_0 * last_size / double_of_Z SMARTSSD_DATABASE_SIZE_STD_0)%float in
  let createbuffer :=
    host_loop user_pagenum (fun i acc =>
      if (i =? host_iteration) && negb (host_iteration =? 0) then
        (acc + host_createbuffer_latency + 100)%float
      else if (i =? host_iteration) && (host_iteration =? 0) then
        (acc + host_createbuffer_latency)%float
      else (acc + 100)%float)
      (double_of_Z host_iteration * HOST_CREATEBUF_LATENCY_0
       * double_of_Z UNIT_DATABASE_SIZE * 2
       / double_of_Z SMARTSSD_DATABASE_SIZE_STD_0)%float in
  (* lines 1922-1943 *)
  let user_ssd2fpga_effbw :=
    if user_lastdatabase_size <=? SMARTSSD_DATABASE_SIZE_STD_4 then SMARTSSD_SSD2FPGA_EFFBW_4
    else if user_lastdatabase_size <=? SMARTSSD_DATABASE_SIZE_STD_3 then
      (SMARTSSD_SSD2FPGA_EFFBW_4 * last_size / double_of_Z SMARTSSD_DATABASE_SIZE_STD_4)%float
    else if user_lastdatabase_size <=? SMARTSSD_DATABASE_SIZE_STD_2 then
      (SMARTSSD_SSD2FPGA_EFFBW_3 * last_size / double_of_Z SMARTSSD_DATABASE_SIZE_STD_3)%float
    else if user_lastdatabase_size <=? SMARTSSD_DATABASE_SIZE_STD_1 then
      (SMARTSSD_SSD2FPGA_EFFBW_2 * last_size / double_of_Z SMARTSSD_DATABASE_SIZE_STD_2)%float
    else if user_lastdatabase_size <=? SMARTSSD_DATABASE_SIZE_STD_0 then
      (SMARTSSD_SSD2FPGA_EFFBW_1 * last_size / double_of_Z SMARTSSD_DATABASE_SIZE_STD_1)%float
    else SMARTSSD_SSD2FPGA_EFFBW_0 in
  let ssd2fpga :=
    host_loop user_pagenum (fun i acc =>
      if i =? host_iteration then (acc + last_size / user_ssd2fpga_effbw * 1000)%float
      else (acc + double_of_Z UNIT_DATABASE_SIZE * 2 / SMARTSSD_SSD2FPGA_EFFBW_0 * 1000)%float)
      0%float in
  (* lines 1945-1973 *)
  let user_outbuffer_size :=
    if aggregate then 4096
    else size_t (Z_of_double
           ((user_pagenum - double_of_Z (size_t (host_iteration * 131072 * 2))) * 4096 / 2)%float) in
  let out_size := double_of_Z user_outbuffer_size in
  let user_fpga2host_effbw :=
    if user_outbuffer_size <=? SMARTSSD_OUTBUF_SIZE_STD_1 then SMARTSSD_FPGA2HOST_EFFBW_1
    else if user_outbuffer_size <=? SMARTSSD_OUTBUF_SIZE_STD_0 then
      (SMARTSSD_FPGA2HOST_EFFBW_1 * out_size / double_of_Z SMARTSSD_OUTBUF_SIZE_STD_1)%float
    else SMARTSSD_FPGA2HOST_EFFBW_0 in
  let fpga2host :=
    if aggregate then
      host_loop user_pagenum (fun _ acc => (acc + out_size / user_fpga2host_effbw * 1000)%float)
        0%float
    else
      host_loop user_pagenum (fun i acc =>
        if i =? host_iteration then (acc + out_size / user_fpga2host_effbw * 1000)%float
        else (acc + double_of_Z (131072 * 4096) / SMARTSSD_FPGA2HOST_EFFBW_0 * 1000)%float)
        0%float in
  (* lines 2179-2208 *)
  let user_total_com_cycle :=
    host_loop user_pagenum (fun i acc =>
      if i =? host_iteration then size_t (acc + size_t (user_unit_com_cycle * page_iteration))
      else size_t (acc + size_t (user_unit_com_cycle * (UNIT_DATABASE_SIZE * 2)) / PAGE_SIZE))
      0 in
  let user_total_dma_cycle :=
    if aggregate then size_t (size_t (host_iteration + 1) * user_unit_dma_cycle)
    else
      host_loop user_pagenum (fun i acc =>
        if i =? host_iteration then size_t (acc + size_t (user_unit_dma_cycle * page_iteration))
        else size_t (acc + size_t (user_unit_dma_cycle * (UNIT_DATABASE_SIZE * 2)) / PAGE_SIZE))
        0 in
  let user_effective_com_cycle := user_total_com_cycle / user_corenum in
  let user_effective_dma_cycle := user_total_dma_cycle / user_corenum in
  let user_total_com_latency :=
    (double_of_Z user_effective_com_cycle / (double_of_Z USER_CLOCK * 1000000) * 1000)%float in
  let user_total_dma_latency :=
    (double_of_Z user_effective_dma_cycle / (double_of_Z USER_CLOCK * 1000000) * 1000)%float in
  let kernel := (user_total_com_latency + user_total_dma_latency)%float in
  mk_hw_latency createbuffer addressmap ssd2fpga setkernel kernel (kernel * 0.041)%float fpga2host.

Definition get_hw_expectation_time (user_query_num user_dataset : Z) (user_pagenum : float)
    : float :=
  user_total_latency
    (hw_latency_of (aggregate_query user_query_num)
       (unit_cycles user_dataset user_query_num) user_pagenum).

(** Specification, section 4.4, read for a table that needs no full host
    iteration: each summand is built from the remainder alone.  The remainder
    of a single-page table is [(1 + 1) * 8192] bytes, two pages, which is in
    the smallest size tier; its output buffer is 4096 bytes for the
    aggregate-only classes and [1 * 4096 / 2] bytes otherwise, the smaller
    of the two bandwidth tiers in both cases. *)
Definition remainder_only_latency (aggregate : bool) (unit_cycle : Z * Z) : hw_latency :=
  let remainder_size := 16384%float in
  let remainder_pages := 2 in
  let out_size := (if aggregate then 4096 else 2048)%float in
  let com_cycle := fst unit_cycle * remainder_pages / user_corenum in
  let dma_cycle :=
    (if aggregate then snd unit_cycle else snd unit_cycle * remainder_pages) / user_corenum in
  let kernel :=
    (double_of_Z com_cycle / (double_of_Z USER_CLOCK * 1000000) * 1000
     + double_of_Z dma_cycle / (double_of_Z USER_CLOCK * 1000000) * 1000)%float in
  mk_hw_latency
    HOST_CREATEBUF_LATENCY_4
    HOST_ADDRESSMAP_LATENCY
    (remainder_size / SMARTSSD_SSD2FPGA_EFFBW_4 * 1000)%float
    HOST_SETKERNEL_LATENCY
    kernel
    (kernel * 0.041)%float
    (out_size / SMARTSSD_FPGA2HOST_EFFBW_1 * 1000)%float.

(** ** The decision step of [sw_stack_for_hw] (lines 2423-2473) *)

Inductive backend : Type := CPU | HW.

(** What the decision step prints: the two predictions, the backend it
    names, how many times faster that backend is, and the CPU/HW ratio. *)
Record decision : Type := mk_decision {
  new_exec_time_predict : float;
  hw_expectation_time : float;
  chosen : backend;
  times_faster : float;
  cpu_hw_ratio : float
}.

(** Lines 2438-2444. *)
Definition predict (m : class_model) (new_data_num_predict : float) : float :=
  if (new_data_num_predict <=? cell (data_num2 m) 0)%float then
    polyval new_data_num_predict (exec_coef1 m)
  else if (new_data_num_predict <=? cell (data_num3 m) 0)%float then
    polyval new_data_num_predict (exec_coef2 m)
  else polyval new_data_num_predict (exec_coef3 m).

(** Lines 2448-2457; [FOREST] is the dataset identifier. *)
Definition dataset_num (data_col_len : Z) : Z :=
  if 17 <? data_col_len then HIGGS
  else if 8 <? data_col_len then FOREST
  else if 4 <? data_col_len then WILT
  else HABERMAN.

(** The decision for a statement of class [query_num] whose sample set is
    [m], with the row count and the page count the probe has found.  [None]:
    "not enough data gathered". *)
Definition decide_backend (m : class_model) (query_num data_col_len : Z)
    (new_data_num page_num : float) : option decision :=
  let new_data_num_predict := (new_data_num / 1000)%float in
  if (ADJ_MIN_DATANUM <? Z.of_nat (data1_len m)) && (ADJ_MIN_DATANUM <? Z.of_nat (data2_len m))
     && (ADJ_MIN_DATANUM <? Z.of_nat (data3_len m))
  then
    let cpu := predict m new_data_num_predict in
    let hw := get_hw_expectation_time query_num (dataset_num data_col_len) page_num in
    if (cpu <? hw)%float
    then Some (mk_decision cpu hw CPU (hw / cpu)%float (cpu / hw)%float)
    else Some (mk_decision cpu hw HW (cpu / hw)%float (cpu / hw)%float)
  else None.

(** ** Inputs used in the examples of the cost model *)

(** The C library's [pow] on the arguments for which the examples call it:
    exponents 0, 1, 2 and 3 and bases whose power is a small integer, which
    is representable, so that the result is the exact power. *)
Definition pow_exact (x y : float) : float :=
  for_up (Z.to_nat (Z_of_double y)) (fun _ p => (p * x)%float) 1%float.

(** A coefficient block of four cells with arbitrary contents. *)
Definition coef_block (g : float * float * float * float) : list float :=
  [fst (fst (fst g)); snd (fst (fst g)); snd (fst g); snd g].

(** Two adjacent buckets of six and seven samples that share the sample at
    size 6; the times are within a few percent of a straight line. *)
Definition steady_left_num : list float := [1; 2; 3; 4; 5; 6]%float.
Definition steady_left_time : list float := [10; 21; 29; 41; 50; 60]%float.
Definition steady_right_num : list float := [6; 7; 8; 9; 10; 11; 12]%float.
Definition steady_right_time : list float := [60; 70; 80; 92; 100; 110; 120]%float.

(** Two adjacent buckets of seven and four samples that share the sample at
    size 7; one time of the left bucket is close to zero. *)
Definition outlier_left_num : list float := [1; 2; 3; 4; 5; 6; 7]%float.
Definition outlier_left_time : list float := [10; 20; 0.01; 40; 50; 60; 70]%float.
Definition outlier_right_num : list float := [7; 8; 9; 10]%float.
Definition outlier_right_time : list float := [70; 80; 90; 100]%float.


(** A sample set of three ranges of four samples each, in arrays of six
    cells; the near range ends at size 4 and the middle range begins at size
    10. *)
Definition gap_model : class_model :=
  mk_class_model
    [1; 2; 3; 4; 0; 0]%float [10; 20; 30; 40; 0; 0]%float [100; 200; 300; 400; 0; 0]%float
    [5; 5; 5; 5; 0; 0]%float [5; 5; 5; 5; 0; 0]%float [5; 5; 5; 5; 0; 0]%float
    4 4 4
    [0; 0; 0; 5]%float [0; 0; 0; 5]%float [0; 0; 0; 5]%float.

(** Sample sets with three and with four samples in every range, for the
    decision step. *)
Definition three_samples_each : class_model :=
  mk_class_model [1; 2; 3; 0]%float [3; 4; 5; 0]%float [5; 6; 7; 0]%float
    [1; 2; 3; 0]%float [3; 4; 5; 0]%float [5; 6; 7; 0]%float 3 3 3
    [0; 0; 1; 0]%float [0; 0; 1; 0]%float [0; 0; 1; 0]%float.

Definition four_samples_each : class_model :=
  mk_class_model [1; 2; 3; 4; 0]%float [4; 5; 6; 7; 0]%float [7; 8; 9; 10; 0]%float
    [1; 2; 3; 4; 0]%float [4; 5; 6; 7; 0]%float [7; 8; 9; 10; 0]%float 4 4 4
    [0; 0; 1; 0]%float [0; 0; 1; 0]%float [0; 0; 1; 0]%float.

(** ** The initial sample sets ([get_init_values], lines 3257-3465) *)

Definition DATASIZE : nat := 50.

Definition data1_len_saved : nat := 15.
Definition data2_len_saved : nat := 13.
Definition data3_len_saved : nat := 18.

Definition data_num1_saved : list float :=
  [1.5; 2.5; 6.5; 14; 15; 25; 30; 50; 65; 130; 140; 280; 300; 500; 1300]%float.

Definition data_num2_saved : list float :=
  [1300; 2800; 3000; 5000; 13000; 15000; 25000; 28000; 33000; 55000; 65000; 75000;
   125000]%float.

Definition data_num3_saved : list float :=
  [125000; 130000; 143000; 150000; 225000; 250000; 308000; 325000; 330000; 375000;
   550000; 650000; 700000; 975000; 1400000; 1430000; 2100000; 3080000]%float.

Definition q1_exec_time1_saved : list float :=
  [5.009; 11.191; 7.748; 16.792; 28.235; 30.145; 38.956; 41.345; 35.973; 52.418; 45.241;
   72.999; 209.909; 240.505; 365.524]%float.

Definition q2_exec_time1_saved : list float :=
  [9.35; 11.292; 12.841; 13.251; 20.488; 26.042; 27.193; 35.864; 30.417; 46.946; 33.15;
   54.163; 139.75; 193.902; 305.527]%float.

Definition q3_exec_time1_saved : list float :=
  [7.403; 8.965; 14.224; 15.928; 27.692; 29.636; 0.784; 40.371; 35.787; 56.302; 45.382;
   72.221; 220.958; 327.824; 405.367]%float.

Definition q4_exec_time1_saved : list float :=
  [17.894; 12.516; 12.863; 13.896; 21.687; 25.323; 28.148; 34.996; 32.996; 48.222;
   36.216; 52.933; 144.889; 265.951; 330.051]%float.

Definition q5_exec_time1_saved : list float :=
  [12.797; 11.42; 12.91; 15.846; 28.189; 33.896; 43.234; 46.022; 39.047; 55.375; 46.382;
   75.878; 277.066; 326.803; 421.25]%float.

Definition q6_exec_time1_saved : list float :=
  [10.161; 10.688; 12.009; 13.49; 22.58; 26.02; 33.045; 40.856; 33.935; 52.943; 34.686;
   61.955; 174.466; 239.625; 356.558]%float.

Definition q7_exec_time1_saved : list float :=
  [12.207; 13.605; 14.461; 16.98; 33.153; 33.544; 46.006; 46.649; 36.199; 59.511;
   47.827; 81.501; 284.85; 327.834; 456.841]%float.

Definition q8_exec_time1_saved : list float :=
  [5.164; 12.622; 7.569; 13.963; 21.629; 26.906; 33.316; 40.492; 32.828; 54.775; 36.015;
   59.572; 187.089; 271.938; 390.979]%float.

Definition q9_exec_time1_saved : list float :=
  [81.173; 78.342; 74.583; 76.848; 89.299; 92.651; 110.814; 111.765; 101.522; 124.612;
   115.361; 152.165; 439.068; 496.864; 611.651]%float.

Definition q10_exec_time1_saved : list float :=
  [76.744; 79.285; 92.126; 96.959; 120.581; 124.703; 175.217; 190.55; 133.223; 190.336;
   159.885; 219.694; 1118.38; 1119.738; 1217.085]%float.

Definition q11_exec_time1_saved : list float :=
  [82.316; 91.629; 85.542; 86.28; 107.702; 97.484; 116.438; 121.662; 104.085; 122.37;
   110.878; 129.364; 589.264; 494.269; 539.124]%float.

Definition q1_exec_time2_saved : list float :=
  [365.524; 548.974; 6666.357; 7450.265; 10573.282; 11350.895; 15220.229; 16374.973;
   23334.794; 25803.333; 30390.761; 48559.641; 56551.836]%float.

Definition q2_exec_time2_saved : list float :=
  [305.527; 370.061; 6021.93246334; 6514.26459818; 8481.72458038; 8973.12457391;
   11427.35590204; 12162.73070221; 14509.886; 20321.73; 21199.06336971; 30649.077;
   46062.151]%float.

Definition q3_exec_time2_saved : list float :=
  [405.367; 584.49; 7216.43449593; 8025.49679421; 11249.47676199; 12052.41687257;
   16048.912387; 17241.97468969; 24134.952; 29738.307; 31736.86129067; 50551.571;
   61687.493]%float.

Definition q4_exec_time2_saved : list float :=
  [330.051; 400.493; 6597.10549806; 7109.06105127; 9155.29350517; 9666.45670223;
   12219.92842243; 12985.21420294; 15849.221; 21907.723; 22395.83766147; 31569.845;
   48325.145]%float.

Definition q5_exec_time2_saved : list float :=
  [421.25; 613.809; 9864.14617857; 10846.62041209; 14758.79295158; 15732.42105622;
   20574.23208211; 22018.25747001; 32271.319; 35754.92; 39509.61420881; 65646.335;
   75013.658]%float.

Definition q6_exec_time2_saved : list float :=
  [356.558; 418.147; 8935.00350494; 9539.82865238; 11955.61884908; 12558.69199287;
   15568.84320857; 16470.20164238; 19916.996; 28217.732; 27523.92327023; 40260.792;
   64115.814]%float.

Definition q7_exec_time2_saved : list float :=
  [456.841; 702.726; 10815.20215599; 11841.04134743; 15927.66562521; 16945.15329738;
   22007.72852185; 23518.45646139; 33953.631; 35622.5; 41850.02452749; 69992.293;
   79871.8]%float.

Definition q8_exec_time2_saved : list float :=
  [390.979; 451.671; 8778.50949406; 9439.91505461; 12079.51247548; 12737.91121821;
   16020.95718528; 17002.97659032; 20564.634; 30655.974; 29006.43550846; 43267.373;
   61718.12]%float.

Definition q9_exec_time2_saved : list float :=
  [611.651; 901.701; 16873.16079022; 18331.18083296; 24140.19240713; 25586.697604;
   32784.93193344; 34933.30485993; 50805.343; 52559.642; 61014.77109314; 106375.62;
   119138.578]%float.

Definition q10_exec_time2_saved : list float :=
  [1217.085; 1486.951; 34104.40485182; 38096.02330834; 53963.1758748; 57905.20692585;
   77467.55188106; 83288.39550443; 131299.554; 139747.236; 153285.15724642; 282640.036;
   275979.924]%float.

Definition q11_exec_time2_saved : list float :=
  [539.124; 612.425; 13740.36693347; 15351.51686031; 21755.97804103; 23347.08718315;
   31242.88076143; 33592.26880851; 48744.342; 55878.196; 61842.52693009; 113040.877;
   116197.875]%float.

Definition q1_exec_time3_saved : list float :=
  [56551.836; 54036.095; 43052.146; 61071.692; 86508.129; 94670.007; 57944.830;
   89096.379; 229580.474; 133318.417; 240975.250; 208061.190; 139562.096; 285402.931;
   385307.503; 404717.703; 605279.805; 1205969.281]%float.

Definition q2_exec_time3_saved : list float :=
  [46062.151; 36930.7716255; 33194.21; 41736.49542082; 59622.25107331; 65539.22415667;
   39115.23; 76771.871; 144551.863; 94824.56763492; 195283.74; 157911.44883953;
   92798.449; 231350.64857283; 328468.50227745; 346516.425; 501269.13437175;
   800323.03]%float.

Definition q3_exec_time3_saved : list float :=
  [61687.493; 56253.37365761; 45069.838; 63564.71019344; 90068.0256174; 98597.22457359;
   62449.838; 90084.871; 230095.489; 139172.33065245; 257091.821; 218708.63103929;
   149521.546; 302778.41635731; 413402.38312261; 433311.225; 656418.43931735;
   1302605.243]%float.

Definition q4_exec_time3_saved : list float :=
  [48325.145; 38810.34355586; 38924.262; 43832.96942265; 62562.48563911; 68771.85370615;
   41669.582; 76962.051; 149945.698; 99609.51944416; 205844.827; 166716.75043134;
   100548.227; 246207.61845195; 353890.32444684; 372984.949; 552478.59096392;
   910734.295]%float.

Definition q5_exec_time3_saved : list float :=
  [75013.658; 68858.42989366; 47366.668; 77549.06833796; 108791.266591; 118752.54243;
   62513.73; 95989.188; 315766.676; 165445.4473204; 314395.783; 253034.11470036;
   144649.888; 339181.78300541; 445323.72966091; 470954.754; 680506.05433504;
   1367070.923]%float.

Definition q6_exec_time3_saved : list float :=
  [64115.814; 46669.51674702; 42560.047; 52493.20042447; 74065.24772427; 81166.31899731;
   41905.492; 82042.596; 187861.985; 116055.71674629; 252727.297; 189820.71700739;
   96630.489; 273574.92598765; 381851.58671075; 404462.286; 572297.32875584;
   909565.503]%float.

Definition q7_exec_time3_saved : list float :=
  [79871.8; 72749.59329389; 55270.125; 81935.38078833; 115103.42257276; 125729.18931245;
   69447.435; 102812.695; 329552.087; 175890.00215365; 334101.326; 271699.65509181;
   157916.653; 367820.24290061; 485594.940487; 513220.959; 730063.62056644;
   1389510.781]%float.

Definition q8_exec_time3_saved : list float :=
  [61718.12; 49625.49544608; 45133.391; 55854.6296957; 78757.65960457; 86238.91552716;
   46049.951; 89405.264; 197538.799; 122595.35143136; 260710.662; 197509.8659916;
   102993.039; 280352.63686408; 386994.02819621; 409701.388; 585069.44941168;
   989253.662]%float.

Definition q9_exec_time3_saved : list float :=
  [119138.578; 105030.30306953; 70971.661; 118127.9795205; 165469.227651;
   180651.13879189; 88398.364; 152488.774; 487207.765; 252413.84648453; 486045.704;
   389752.81641627; 213980.835; 527111.23345996; 692429.29846554; 733679.654;
   1021928.81897446; 1882207.197]%float.

Definition q10_exec_time3_saved : list float :=
  [275979.924; 268429.80209396; 149850.802; 301916.39666793; 419697.46880134;
   456314.73992464; 145871.085; 283570.55; 1293367.083; 620865.09514693; 1330796.074;
   888394.83125547; 351843.433; 1080210.9215306; 1227456.41780535; 1306695.821;
   1562435.53665559; 3278640.336]%float.

Definition q11_exec_time3_saved : list float :=
  [116197.875; 108303.79609046; 53292.176; 121811.98591795; 169302.06215946;
   184056.93648885; 57931.305; 115217.056; 539001.221; 250268.27543469; 535615.678;
   357110.82368786; 128568.488; 431333.44379791; 482087.57494324; 515894.317;
   586774.86681101; 1187134.287]%float.

(** The [switch (x)] of the three copy loops: the times of class [x]; the
    [default] case copies nothing. *)
Definition exec_time1_saved (x : nat) : option (list float) :=
  match x with
  | 0%nat => Some q1_exec_time1_saved
  | 1%nat => Some q2_exec_time1_saved
  | 2%nat => Some q3_exec_time1_saved
  | 3%nat => Some q4_exec_time1_saved
  | 4%nat => Some q5_exec_time1_saved
  | 5%nat => Some q6_exec_time1_saved
  | 6%nat => Some q7_exec_time1_saved
  | 7%nat => Some q8_exec_time1_saved
  | 8%nat => Some q9_exec_time1_saved
  | 9%nat => Some q10_exec_time1_saved
  | 10%nat => Some q11_exec_time1_saved
  | _ => None
  end.

Definition exec_time2_saved (x : nat) : option (list float) :=
  match x with
  | 0%nat => Some q1_exec_time2_saved
  | 1%nat => Some q2_exec_time2_saved
  | 2%nat => Some q3_exec_time2_saved
  | 3%nat => Some q4_exec_time2_saved
  | 4%nat => Some q5_exec_time2_saved
  | 5%nat => Some q6_exec_time2_saved
  | 6%nat => Some q7_exec_time2_saved
  | 7%nat => Some q8_exec_time2_saved
  | 8%nat => Some q9_exec_time2_saved
  | 9%nat => Some q10_exec_time2_saved
  | 10%nat => Some q11_exec_time2_saved
  | _ => None
  end.

Definition exec_time3_saved (x : nat) : option (list float) :=
  match x with
  | 0%nat => Some q1_exec_time3_saved
  | 1%nat => Some q2_exec_time3_saved
  | 2%nat => Some q3_exec_time3_saved
  | 3%nat => Some q4_exec_time3_saved
  | 4%nat => Some q5_exec_time3_saved
  | 5%nat => Some q6_exec_time3_saved
  | 6%nat => Some q7_exec_time3_saved
  | 7%nat => Some q8_exec_time3_saved
  | 8%nat => Some q9_exec_time3_saved
  | 9%nat => Some q10_exec_time3_saved
  | 10%nat => Some q11_exec_time3_saved
  | _ => None
  end.

Section GetInitValues.

(** What the blocks of [DATASIZE] doubles hold when [malloc] returns them,
    and what stands for a coefficient array of class [x]: [get_init_values]
    does not touch the coefficients, and its callers leave [exec_coef1[x]],
    [exec_coef2[x]] and [exec_coef3[x]] unset until [adjust_range] stores a
    block there. *)
Variable uninit_cell : float.
Variable unset_coef : list float.

(** One of the three copy loops, e.g. lines 3323-3364. *)
Definition copy_saved (data_len_saved : nat) (data_num_saved : list float)
    (exec_time_saved : option (list float)) : list float * list float :=
  for_up data_len_saved (fun i arrays =>
    (store (fst arrays) i (cell data_num_saved i),
     match exec_time_saved with
     | Some saved => store (snd arrays) i (cell saved i)
     | None => snd arrays
     end))
    (repeat uninit_cell DATASIZE, repeat uninit_cell DATASIZE).

(** The sample set that [get_init_values] builds for class [x]. *)
Definition get_init_values (x : nat) : class_model :=
  let range1 := copy_saved data1_len_saved data_num1_saved (exec_time1_saved x) in
  let range2 := copy_saved data2_len_saved data_num2_saved (exec_time2_saved x) in
  let range3 := copy_saved data3_len_saved data_num3_saved (exec_time3_saved x) in
  mk_class_model (fst range1) (fst range2) (fst range3)
    (snd range1) (snd range2) (snd range3)
    data1_len_saved data2_len_saved data3_len_saved
    unset_coef unset_coef unset_coef.

End GetInitValues.

(** Boolean forms of the invariant of a sample set, for arrays whose cells
    are known. *)
Definition sorted_uptob (a : list float) (n : nat) : bool :=
  forallb (fun i => (cell a i <? cell a (S i))%float) (seq 0 (n - 1)).

Definition positive_uptob (a : list float) (n : nat) : bool :=
  forallb (fun i => (0 <? cell a i)%float) (seq 0 n).

(** ** The table statistics probe: the items that the pages hold *)

(** The sum of [PageGetMaxOffsetNumber] over the blocks [0 .. n-1]: what a
    scan of the first [n] pages would count. *)
Fixpoint items_on_pages (rel : relation_storage) (n : nat) : Z :=
  match n with
  | O => 0
  | S k => items_on_pages rel k + max_offset_number rel (Z.of_nat k)
  end.

(** ** The query for the two tables ([hw_query_modification], lines 1057-1064) *)

Definition hw_query_modification (data_table : string) (model_table : string) : string :=
  ("SELECT * FROM " ++ data_table ++ ", " ++ model_table ++ ";")%string.

(** The bytes that [sw_stack_for_hw] allocates for that query, line 2263. *)
Definition data_model_query_bytes (data_table model_table : string) : nat :=
  20 + String.length data_table + String.length model_table.

(** ** Column numbers and column bit masks ([sw_stack_for_hw], lines 2321-2381) *)

(** The loop over the columns of the table, lines 2330-2336 and 2360-2366,
    for one column name of the statement.  [continue] is the last statement
    of its body: every column is compared, and the number recorded is the one
    of the last column that matches.  The state is the cell of
    [model_col_num] (or [data_col_num]) for this name, [None] as long as it
    has not been written, and the bit mask.  [mask_base << (31 - n)] is a
    shift of a 32-bit value: for [n] above 31 its count is negative, which C
    leaves undefined, and the model faults ([None]). *)
Definition match_columns (now_col_name : string) (rtable_colname : list string)
    (st : option (option Z * Z)) : option (option Z * Z) :=
  for_up (List.length rtable_colname) (fun now_col_num st =>
    match st with
    | None => None
    | Some (col_num, col_num_bit) =>
        if hw_strcmp now_col_name (nth now_col_num rtable_colname EmptyString) then
          if (now_col_num <=? 31)%nat then
            Some (Some (Z.of_nat now_col_num),
                  Z.lor col_num_bit (Z.shiftl 1 (31 - Z.of_nat now_col_num)))
          else None
        else Some (col_num, col_num_bit)
    end) st.

(** The loop over the column names of the statement, lines 2325-2338 and
    2355-2368: the array of column numbers (-1 for the bias column [1]) and
    the bit mask. *)
Definition column_numbers (col_name rtable_colname : list string)
    : option (list (option Z) * Z) :=
  fold_left (fun acc now_col_name =>
    match acc with
    | None => None
    | Some (col_num, col_num_bit) =>
        if hw_strcmp now_col_name "1" then Some ((col_num ++ [Some (-1)])%list, col_num_bit)
        else
          match match_columns now_col_name rtable_colname (Some (None, col_num_bit)) with
          | None => None
          | Some (num, col_num_bit) => Some ((col_num ++ [num])%list, col_num_bit)
          end
    end) col_name (Some ([], 0)).

(** ** Reading arrays out of a TOAST item (lines 1376-1402) *)

(** The values of an [int]. *)
Definition in_int (z : Z) : bool := (- 2 ^ 31 <=? z) && (z <? 2 ^ 31).

(** Addresses are byte offsets; [lp_len] is the length of the item that
    begins at [item_base_addr], a bit field of 15 bits that is promoted to
    [int].  [now_filled], [will_filled], their sum and [remain] are [int]s
    (lines 1378-1383): the model faults ([None]) when one of them leaves the
    range of [int], and when [data_size] is 0.  [%] is the remainder of C,
    [Z.rem]. *)
Definition addr_auto_padder (lp_len now_data_addr item_base_addr num_nodes data_size : Z)
    : option Z :=
  let now_filled := now_data_addr - item_base_addr in
  let will_filled := num_nodes * data_size in
  if in_int now_filled && in_int will_filled && in_int (now_filled + will_filled) then
    if lp_len <=? now_filled + will_filled then
      let remain := lp_len - now_filled in
      if in_int remain && negb (data_size =? 0) then
        let padding := Z.rem remain data_size in
        Some (now_data_addr + padding)
      else None
    else Some now_data_addr
  else None.

Definition carefully_incl_addr (lp_len item_base_addr now_data_addr incl_num : Z) : bool :=
  if item_base_addr + lp_len <=? now_data_addr + incl_num then false else true.

(** ** Logging of durations ([check_log_duration], lines 5626-5664) *)

(** The settings [log_duration], [log_min_duration_statement] and
    [xact_is_sampled] and the two results [secs] and [usecs] of
    [TimestampDifference] are arguments; the text written to [msec_str] is
    left out. *)
Definition check_log_duration (log_duration : bool) (log_min_duration_statement : Z)
    (xact_is_sampled : bool) (secs usecs : Z) (was_logged : bool) : Z :=
  if log_duration || (0 <=? log_min_duration_statement) || xact_is_sampled then
    let msecs := Z.quot usecs 1000 in
    let exceeded :=
      (log_min_duration_statement =? 0) ||
      ((0 <? log_min_duration_statement) &&
       ((Z.quot log_min_duration_statement 1000 <? secs) ||
        (log_min_duration_statement <=? secs * 1000 + msecs))) in
    if exceeded || log_duration || xact_is_sampled then
      if (exceeded || xact_is_sampled) && negb was_logged then 2 else 1
    else 0
  else 0.

(** ** Further inputs of the examples *)

(** Fresh coefficient blocks that hold zeros. *)
Definition zero_blocks : alloc_site -> list float := fun _ => [0; 0; 0; 0]%float.

(** Two adjacent buckets of eight and six samples on a straight line, but
    for the time of the sample they share, at size 8. *)
Definition bent_left_num : list float := [1; 2; 3; 4; 5; 6; 7; 8]%float.
Definition bent_left_time : list float := [10; 20; 30; 40; 50; 60; 70; 160]%float.
Definition bent_right_num : list float := [8; 9; 10; 11; 12; 13]%float.
Definition bent_right_time : list float := [160; 90; 100; 110; 120; 130]%float.

(** What a scan keeps: the number of samples in the two buckets together,
    running and recorded, and the number of cells of the four arrays. *)
Definition scan_counts (n : nat) (st : scan_state) : Prop :=
  (left_len st + right_len st = n)%nat /\
  (min_left_len st + min_right_len st = n)%nat /\
  List.length (min_left_data_num st) = n /\ List.length (min_right_data_num st) = n /\
  List.length (min_left_exec_time st) = n /\ List.length (min_right_exec_time st) = n.

(* ================================================================== *)
(** * Part II.  Properties                                              *)
(* ================================================================== *)

(** ** The order of doubles

    The comparisons of [double]s are those of IEEE 754: every comparison
    with a NaN is false, and on the other values [<], [<=] and [==] are a
    total order (with the two zeros equal).  The lemmas come from the
    specification of the primitive operations, [SFcompare]. *)

Lemma compare_cont_spec (p q : positive) :
  CompareSpec (p = q) (p < q)%positive (q < p)%positive (PosDef.Pos.compare_cont Eq p q).
Proof. exact (Pos.compare_spec p q). Qed.

Lemma SFcompare_antisym (a b : spec_float) :
  SFcompare b a = option_map CompOpp (SFcompare a b).
Proof.
  destruct a as [sa|sa| |sa ma ea], b as [sb|sb| |sb mb eb]; simpl;
    try reflexivity; try (destruct sa; reflexivity); try (destruct sb; reflexivity);
    try (destruct sa, sb; reflexivity).
  destruct sa, sb; simpl; try reflexivity;
    rewrite (Z.compare_antisym ea eb); destruct (ea ?= eb)%Z; simpl; try reflexivity;
    rewrite (Pos.compare_cont_antisym); simpl; try reflexivity.
  rewrite CompOpp_involutive. reflexivity.
Qed.

Lemma SFcompare_refl (a : spec_float) :
  a <> S754_nan -> SFcompare a a = Some Eq.
Proof.
  destruct a as [sa|sa| |sa ma ea]; simpl; intros H; try reflexivity.
  - destruct sa; reflexivity.
  - congruence.
  - destruct sa; rewrite Z.compare_refl, Pos.compare_cont_refl; reflexivity.
Qed.

Lemma SFcompare_some_not_nan (a b : spec_float) (c : comparison) :
  SFcompare a b = Some c -> a <> S754_nan /\ b <> S754_nan.
Proof.
  destruct a, b; simpl; intros H; try discriminate H; split; discriminate.
Qed.

Lemma SFcompare_not_nan_some (a b : spec_float) :
  a <> S754_nan -> b <> S754_nan -> exists c, SFcompare a b = Some c.
Proof.
  destruct a, b; simpl; intros Ha Hb; try congruence; eexists; reflexivity.
Qed.

Lemma SFcompare_trans (a b c : spec_float) (x y : comparison) :
  SFcompare a b = Some x -> SFcompare b c = Some y ->
  below x = true -> below y = true ->
  SFcompare a c = Some (chain x y).
Proof.
  destruct a as [sa|sa| |sa ma ea], b as [sb|sb| |sb mb eb], c as [sc|sc| |sc mc ec];
    simpl; intros Hab Hbc Hx Hy; try discriminate;
    injection Hab as <-; injection Hbc as <-;
    repeat match goal with s : bool |- _ => destruct s end;
    simpl in *; try discriminate; try reflexivity.
  all: repeat match goal with
       | H : context [(?a ?= ?b)%Z] |- _ => destruct (Z.compare_spec a b)
       | |- context [(?a ?= ?b)%Z] => destruct (Z.compare_spec a b)
       end; cbv [below chain CompOpp] in *; try discriminate; try reflexivity; try lia; subst.
  all: repeat match goal with
       | H : context [PosDef.Pos.compare_cont Eq ?a ?b] |- _ => destruct (compare_cont_spec a b)
       | |- context [PosDef.Pos.compare_cont Eq ?a ?b] => destruct (compare_cont_spec a b)
       end; cbv [below chain CompOpp] in *; try discriminate; try reflexivity; try lia.
Qed.

Lemma ltb_fcompare (x y : float) : (x <? y)%float = true <-> fcompare x y = Some Lt.
Proof.
  rewrite ltb_spec. unfold SFltb, fcompare.
  destruct (SFcompare (Prim2SF x) (Prim2SF y)) as [[| |]|]; split; congruence.
Qed.

Lemma eqb_fcompare (x y : float) : (x =? y)%float = true <-> fcompare x y = Some Eq.
Proof.
  rewrite eqb_spec. unfold SFeqb, fcompare.
  destruct (SFcompare (Prim2SF x) (Prim2SF y)) as [[| |]|]; split; congruence.
Qed.

Lemma leb_fcompare (x y : float) :
  (x <=? y)%float = true <-> fcompare x y = Some Lt \/ fcompare x y = Some Eq.
Proof.
  rewrite leb_spec. unfold SFleb, fcompare.
  destruct (SFcompare (Prim2SF x) (Prim2SF y)) as [[| |]|]; split;
    intuition congruence.
Qed.

Lemma fcompare_antisym (x y : float) : fcompare y x = option_map CompOpp (fcompare x y).
Proof. apply SFcompare_antisym. Qed.

Lemma ltb_leb (x y : float) : (x <? y)%float = true -> (x <=? y)%float = true.
Proof. rewrite ltb_fcompare, leb_fcompare. tauto. Qed.

Lemma eqb_leb (x y : float) : (x =? y)%float = true -> (x <=? y)%float = true.
Proof. rewrite eqb_fcompare, leb_fcompare. tauto. Qed.

Lemma eqb_sym (x y : float) : (x =? y)%float = true -> (y =? x)%float = true.
Proof.
  rewrite !eqb_fcompare, (fcompare_antisym x y). intros ->. reflexivity.
Qed.

(** [x < y] excludes [y <= x]. *)
Lemma ltb_not_leb (x y : float) : (x <? y)%float = true -> (y <=? x)%float = false.
Proof.
  rewrite ltb_fcompare. intros H.
  destruct (y <=? x)%float eqn:E; [|reflexivity].
  apply leb_fcompare in E. rewrite (fcompare_antisym x y), H in E.
  simpl in E. destruct E; discriminate.
Qed.

(** A double that takes part in a true comparison is not a NaN. *)
Lemma leb_self (x y : float) :
  (x <=? y)%float = true -> (x =? x)%float = true /\ (y =? y)%float = true.
Proof.
  rewrite leb_fcompare, !eqb_fcompare. unfold fcompare. intros H.
  assert (Hc : exists c, SFcompare (Prim2SF x) (Prim2SF y) = Some c)
    by (destruct H as [H|H]; eexists; exact H).
  destruct Hc as [c Hc]. apply SFcompare_some_not_nan in Hc as [Hx Hy].
  split; apply SFcompare_refl; assumption.
Qed.

Lemma ltb_self (x y : float) :
  (x <? y)%float = true -> (x =? x)%float = true /\ (y =? y)%float = true.
Proof. intros H. apply leb_self, ltb_leb, H. Qed.

(** Totality, away from NaN: if [x <= y] fails then [y < x]. *)
Lemma not_leb_ltb (x y : float) :
  (x =? x)%float = true -> (y =? y)%float = true ->
  (x <=? y)%float = false -> (y <? x)%float = true.
Proof.
  rewrite !eqb_fcompare, ltb_fcompare. unfold fcompare. intros Hx Hy Hle.
  apply SFcompare_some_not_nan in Hx as [Hx _].
  apply SFcompare_some_not_nan in Hy as [Hy _].
  destruct (SFcompare_not_nan_some _ _ Hx Hy) as [c Hc].
  rewrite (SFcompare_antisym (Prim2SF x) (Prim2SF y)), Hc.
  destruct c; simpl; try reflexivity;
    assert (E : (x <=? y)%float = true)
      by (apply leb_fcompare; unfold fcompare; rewrite Hc; tauto);
    congruence.
Qed.

(** [x <= y] and not [y == x] give [x < y]. *)
Lemma leb_neq_ltb (x y : float) :
  (x <=? y)%float = true -> (y =? x)%float = false -> (x <? y)%float = true.
Proof.
  intros Hle Hne. apply leb_fcompare in Hle. apply ltb_fcompare.
  destruct Hle as [H|H]; [exact H|].
  assert (E : (y =? x)%float = true)
    by (apply eqb_fcompare; rewrite (fcompare_antisym x y), H; reflexivity).
  congruence.
Qed.

Lemma fcompare_trans (x y z : float) (c1 c2 : comparison) :
  fcompare x y = Some c1 -> fcompare y z = Some c2 ->
  below c1 = true -> below c2 = true ->
  fcompare x z = Some (chain c1 c2).
Proof. apply SFcompare_trans. Qed.

Lemma ltb_trans (x y z : float) :
  (x <? y)%float = true -> (y <? z)%float = true -> (x <? z)%float = true.
Proof.
  rewrite !ltb_fcompare. intros H1 H2.
  apply (fcompare_trans x y z Lt Lt H1 H2); reflexivity.
Qed.

Lemma leb_ltb_trans (x y z : float) :
  (x <=? y)%float = true -> (y <? z)%float = true -> (x <? z)%float = true.
Proof.
  rewrite leb_fcompare, !ltb_fcompare. intros [H1|H1] H2.
  - apply (fcompare_trans x y z Lt Lt H1 H2); reflexivity.
  - apply (fcompare_trans x y z Eq Lt H1 H2); reflexivity.
Qed.

Lemma ltb_eqb_trans (x y z : float) :
  (x <? y)%float = true -> (y =? z)%float = true -> (x <? z)%float = true.
Proof.
  rewrite eqb_fcompare, !ltb_fcompare. intros H1 H2.
  apply (fcompare_trans x y z Lt Eq H1 H2); reflexivity.
Qed.

(** ** Query classifier *)

Lemma get_query_num_support_false (info : operation_info) :
  hw_support info = false -> get_query_num info = -1.
Proof. unfold get_query_num; intros ->; reflexivity. Qed.

(** The classifier answers a class exactly for the five operation codes of
    its [switch]. *)
Lemma get_query_num_class_iff (info : operation_info) :
  is_query_class (get_query_num info) <->
  hw_support info = true /\ In (hw_operation info) classified_operations.
Proof.
  unfold get_query_num, is_query_class, classified_operations.
  destruct (hw_support info); simpl.
  - destruct (Z.eqb_spec (hw_operation info) LINREGR) as [->|H1].
    { destruct (filter_flag info), (aggr_flag info); simpl; unfold Q1, Q2, Q3, Q4, Q11; intuition lia. }
    destruct (Z.eqb_spec (hw_operation info) LOGREGR) as [->|H2].
    { destruct (filter_flag info), (aggr_flag info); simpl; unfold Q1, Q5, Q6, Q7, Q8, Q11; intuition lia. }
    destruct (Z.eqb_spec (hw_operation info) SVM) as [->|H3].
    { unfold Q1, Q9, Q11; intuition lia. }
    destruct (Z.eqb_spec (hw_operation info) MLP) as [->|H4].
    { unfold Q1, Q10, Q11; intuition lia. }
    destruct (Z.eqb_spec (hw_operation info) TREE) as [->|H5].
    { unfold Q1, Q11; intuition lia. }
    unfold Q1, Q11; split; [lia|].
    intros [_ H]; intuition congruence.
  - unfold Q1, Q11; split; [lia | intros [H _]; discriminate].
Qed.

(** The operation code 6 of line 261 has no case in the [switch]: a
    supported profile that holds it is answered with the error value -1.
    No statement gives a profile that code (see
    [forest_statement_read_as_logistic] below). *)
Lemma get_query_num_forest_unclassified :
  ~ (forall info : operation_info,
       hw_support info = true ->
       In (hw_operation info) defined_operations ->
       is_query_class (get_query_num info)).
Proof.
  intros H.
  specialize (H (profile true FOREST_OPERATION false false) eq_refl).
  assert (Hin : In (hw_operation (profile true FOREST_OPERATION false false)) defined_operations)
    by (simpl; tauto).
  specialize (H Hin). unfold is_query_class in H. vm_compute in H.
  destruct H as [H _]. apply H. reflexivity.
Qed.

Lemma get_query_num_unclassified (info : operation_info) :
  hw_support info = true ->
  ~ In (hw_operation info) classified_operations ->
  get_query_num info = -1.
Proof.
  intros Hs Hop. unfold get_query_num. rewrite Hs.
  unfold classified_operations in Hop. simpl in Hop.
  repeat match goal with
  | |- context [?a =? ?b] =>
      destruct (Z.eqb_spec a b); [exfalso; apply Hop; intuition congruence|]
  end.
  reflexivity.
Qed.

(** For every supported profile whose operation is one of the
    five kinds that [get_query_num] has a case for (LinearRegression,
    LogisticRegression, SVM, MLP, DecisionTree) the classifier returns one of
    the classes Q1..Q11, never -1; within a regression operation two profiles
    of the same class have the same filter and aggregate flags, so the four
    combinations go to four distinct classes; SVM, MLP and DecisionTree go to
    Q9, Q10 and Q11 whatever the flags. *)
Theorem get_query_num_classified (info : operation_info) :
  hw_support info = true ->
  In (hw_operation info) classified_operations ->
  is_query_class (get_query_num info) /\
  get_query_num info <> -1 /\
  (forall info' : operation_info,
      hw_support info' = true ->
      hw_operation info' = hw_operation info ->
      hw_operation info = LINREGR \/ hw_operation info = LOGREGR ->
      get_query_num info' = get_query_num info ->
      filter_flag info' = filter_flag info /\ aggr_flag info' = aggr_flag info) /\
  (hw_operation info = SVM -> get_query_num info = Q9) /\
  (hw_operation info = MLP -> get_query_num info = Q10) /\
  (hw_operation info = TREE -> get_query_num info = Q11).
Proof.
  intros Hs Hop.
  assert (Hc : is_query_class (get_query_num info))
    by (apply get_query_num_class_iff; split; assumption).
  split; [exact Hc|].
  split; [unfold is_query_class, Q1 in Hc; lia|].
  split; [|unfold get_query_num; rewrite Hs; repeat split; intros ->; reflexivity].
  intros info' Hs' Hop' Hreg. unfold get_query_num. rewrite Hs, Hs', Hop'.
  destruct Hreg as [-> | ->]; simpl;
    destruct (filter_flag info), (aggr_flag info), (filter_flag info'), (aggr_flag info');
    simpl; intros H; try discriminate H; split; reflexivity.
Qed.

Lemma get_query_num_classified_witness :
  is_query_class (get_query_num (profile true LOGREGR true false)) /\
  get_query_num (profile true LOGREGR true false) <> -1.
Proof.
  destruct (get_query_num_classified (profile true LOGREGR true false)) as (H1 & H2 & _).
  - reflexivity.
  - simpl; tauto.
  - split; assumption.
Defined.

(** ** Feature extractor *)

(** [hw_strcmp] decides equality of strings. *)
Lemma hw_strcmp_eqb (str1 str2 : string) : hw_strcmp str1 str2 = String.eqb str1 str2.
Proof.
  revert str2; induction str1 as [|c1 r1 IH]; intros [|c2 r2]; simpl;
    try reflexivity; rewrite IH; reflexivity.
Qed.

Lemma hw_strcmp_true_iff (str1 str2 : string) : hw_strcmp str1 str2 = true <-> str1 = str2.
Proof. rewrite hw_strcmp_eqb. apply String.eqb_eq. Qed.

(** A run that has made at most 20 passes and still has the fuel for 21 in
    all neither runs out of fuel nor makes a 22nd pass, and does not depend
    on how much more fuel it has. *)
Lemma extract_loop_bounded (ophash_unmatched : string -> Z) (atof : string -> float)
    (word_array : list string) (fuel : nat) :
  forall (i : nat) (query_cluster : Z) (inhib : nat) (info : operation_info),
    (inhib <= 20)%nat -> (21 <= inhib + fuel)%nat ->
    match extract_loop ophash_unmatched atof fuel word_array i query_cluster inhib info with
    | Finished _ n => (inhib <= n <= 21)%nat
    | Faulted n => (inhib <= n <= 21)%nat
    | OutOfFuel => False
    end.
Proof.
  induction fuel as [|fuel IH]; intros i query_cluster inhib info Hin Hfuel; [lia|].
  simpl. destruct (i <? List.length word_array)%nat; [|lia].
  destruct (extract_step ophash_unmatched atof word_array i query_cluster info)
    as [query_cluster' [i' info'|info'|]]; try lia.
  destruct (Nat.ltb_spec 20 (S inhib)) as [Hlt|Hge]; [lia|].
  specialize (IH i' query_cluster' (S inhib) info' Hge ltac:(lia)).
  destruct (extract_loop ophash_unmatched atof fuel word_array i' query_cluster' (S inhib) info');
    lia.
Qed.

Lemma extract_loop_fuel_irrelevant (ophash_unmatched : string -> Z) (atof : string -> float)
    (word_array : list string) (fuel1 : nat) :
  forall (fuel2 i : nat) (query_cluster : Z) (inhib : nat) (info : operation_info),
    (inhib <= 20)%nat -> (21 <= inhib + fuel1)%nat -> (21 <= inhib + fuel2)%nat ->
    extract_loop ophash_unmatched atof fuel1 word_array i query_cluster inhib info =
    extract_loop ophash_unmatched atof fuel2 word_array i query_cluster inhib info.
Proof.
  induction fuel1 as [|fuel1 IH]; intros fuel2 i query_cluster inhib info Hin H1 H2; [lia|].
  destruct fuel2 as [|fuel2]; [lia|].
  simpl. destruct (i <? List.length word_array)%nat; [|reflexivity].
  destruct (extract_step ophash_unmatched atof word_array i query_cluster info)
    as [query_cluster' [i' info'|info'|]]; try reflexivity.
  destruct (Nat.ltb_spec 20 (S inhib)) as [Hlt|Hge]; [reflexivity|].
  apply IH; lia.
Qed.

(** The cap on [inhib]: for every word array and every initial profile the
    [for] loop of [extract_operation_info] makes at most 21 passes through
    its body, whether or not the index advances, unless a pass reads outside
    the word array before; 21 units of fuel are enough and more fuel changes
    nothing.  The cap says nothing of the [while] loops inside a pass (see
    [unclosed_array_scan_runs_off] below). *)
Theorem extract_operation_info_terminates (ophash_unmatched : string -> Z)
    (atof : string -> float) (word_array : list string) (info : operation_info)
    (extra : nat) :
  extract_operation_info ophash_unmatched atof (21 + extra) word_array info =
  extract_operation_info ophash_unmatched atof 21 word_array info /\
  match extract_operation_info ophash_unmatched atof 21 word_array info with
  | Finished _ n => (n <= 21)%nat
  | Faulted n => (n <= 21)%nat
  | OutOfFuel => False
  end.
Proof.
  unfold extract_operation_info. split.
  - apply extract_loop_fuel_irrelevant; lia.
  - pose proof (extract_loop_bounded ophash_unmatched atof word_array 21 0 0 0 info) as H.
    specialize (H ltac:(lia) ltac:(lia)).
    destruct (extract_loop ophash_unmatched atof 21 word_array 0 0 0 info); lia.
Qed.


(** C9 fails on the code.  The [while] loops that count the words of a
    column list (lines 742-745 and 769-772) stop at a word [FROM] or [ARRAY]
    and at nothing else: they do not look at [word_size].  When no such word
    follows an [ARRAY] word, the loop reads [word_array] past its last word,
    in the first pass already, whatever fuel the run has: the cap on
    [inhib], which is tested at the end of a pass, is not reached. *)
Theorem unclosed_array_scan_runs_off (ophash_unmatched : string -> Z)
    (atof : string -> float) (cols : list string) (info : operation_info) (fuel : nat) :
  Forall (fun w => w <> "FROM"%string /\ w <> "ARRAY"%string) cols ->
  scan_array cols = None /\
  extract_operation_info ophash_unmatched atof (S fuel)
    ("SELECT"%string :: "madlib.linregr_predict"%string :: "ARRAY"%string :: cols) info
  = Faulted 1.
Proof.
  intros Hcols.
  assert (Hscan : scan_array cols = None).
  { induction Hcols as [|w cols [Hf Ha] _ IH]; simpl; [reflexivity|].
    destruct (hw_strcmp w "FROM") eqn:E1; [apply hw_strcmp_true_iff in E1; contradiction|].
    destruct (hw_strcmp w "ARRAY") eqn:E2; [apply hw_strcmp_true_iff in E2; contradiction|].
    simpl. rewrite IH. reflexivity. }
  split; [exact Hscan|].
  unfold extract_operation_info. cbn [extract_loop List.length Nat.ltb Nat.leb].
  unfold extract_step. cbn [rd_word nth_error].
  change (hw_queryhashmap "SELECT" 0) with SELECT.
  change (SELECT =? NONE) with false. change (SELECT =? SELECT) with true. cbv iota.
  unfold select_case. cbn [rd_word nth_error Nat.add].
  assert (Hread : read_column_list
                    ("SELECT"%string :: "madlib.linregr_predict"%string :: "ARRAY"%string :: cols)
                    2 = None).
  { unfold read_column_list. cbn [nth_error Nat.add skipn].
    change (hw_strcmp "ARRAY" "ARRAY") with true. cbv iota. rewrite Hscan. reflexivity. }
  change (hw_ophashmap ophash_unmatched "madlib.linregr_predict") with LINREGR.
  change (negb (LINREGR =? NONE)) with true.
  change ((LINREGR =? LINREGR) || (LINREGR =? LOGREGR)) with true. cbv iota zeta.
  rewrite Hread. reflexivity.
Qed.

(** The statement [SELECT madlib.linregr_predict(ARRAY[a,b], d);], which has
    no [FROM]: the first scan runs off the end of its six words. *)
Lemma unclosed_array_scan_runs_off_witness :
  word_array_of "SELECT madlib.linregr_predict(ARRAY[a,b], d);"
  = ["SELECT"; "madlib.linregr_predict"; "ARRAY"; "a"; "b"; "d"]%string /\
  extract_from_query (fun _ => 0) (fun _ => 0%float) 21
    "SELECT madlib.linregr_predict(ARRAY[a,b], d);" = Faulted 1.
Proof.
  split; [reflexivity|].
  exact (proj2 (unclosed_array_scan_runs_off (fun _ => 0) (fun _ => 0%float)
                  ["a"; "b"; "d"]%string init_operation_info 20
                  ltac:(repeat constructor; discriminate))).
Defined.

(** The cap is reached: on a [GROUP_BY] word the index stays where it is and
    the loop makes its 21 passes. *)
Example extract_operation_info_group_by_token (ophash_unmatched : string -> Z)
    (atof : string -> float) :
  exists info,
    extract_operation_info ophash_unmatched atof 21
      ["SELECT"; "madlib.svm_predict"; "m"; "d"; "id"; "out"; "GROUP_BY"; "x"]%string
      init_operation_info = Finished info 21 /\
    hw_support info = false.
Proof. eexists. split; vm_compute; reflexivity. Qed.

(** C5 fails on the code: [strtok] splits the clause [GROUP BY] into the two
    words [GROUP] and [BY], neither of which [hw_queryhashmap] knows, so the
    [GROUP_BY] case is not reached; the words are read as a second pair of
    table names and the profile stays supported. *)
Theorem group_by_query_stays_supported (ophash_unmatched : string -> Z)
    (atof : string -> float) :
  word_array_of
    "SELECT madlib.linregr_predict(ARRAY[a,b], ARRAY[c,d]) FROM m, d GROUP BY x"
  = ["SELECT"; "madlib.linregr_predict"; "ARRAY"; "a"; "b"; "ARRAY"; "c"; "d";
     "FROM"; "m"; "d"; "GROUP"; "BY"; "x"]%string /\
  exists info,
    extract_from_query ophash_unmatched atof 21
      "SELECT madlib.linregr_predict(ARRAY[a,b], ARRAY[c,d]) FROM m, d GROUP BY x"
    = Finished info 3 /\
    hw_support info = true /\
    hw_operation info = LINREGR /\
    model_table_name info = Some "BY"%string /\
    data_table_name info = Some "x"%string.
Proof.
  split; [vm_compute; reflexivity|].
  eexists. split; [vm_compute; reflexivity|].
  repeat split.
Qed.

(** ** Table statistics probe *)

(** C7: the row count that [get_data_num] returns is
    [firstPageItems * (totalPages - 1) + lastPageItems] for a table of more
    than one page and [firstPageItems] for a table of exactly one page, where
    [totalPages] is the byte size of the main-fork file divided by 8192,
    [firstPageItems] is read from block 0 and [lastPageItems] from block
    [totalPages - 1]. *)
Theorem get_data_num_estimate (rel : relation_storage) :
  0 <= st_size rel ->
  total_page_num rel = st_size rel / 8192 /\
  first_page_size rel = max_offset_number rel 0 /\
  last_page_size rel = max_offset_number rel (st_size rel / 8192 - 1) /\
  (1 < total_page_num rel ->
   get_data_num rel
   = first_page_size rel * (total_page_num rel - 1) + last_page_size rel) /\
  (total_page_num rel = 1 -> get_data_num rel = first_page_size rel).
Proof.
  intros Hsize.
  assert (Hq : total_page_num rel = st_size rel / 8192)
    by (unfold total_page_num; apply Z.quot_div_nonneg; lia).
  split; [exact Hq|].
  split; [reflexivity|].
  split; [unfold last_page_size; rewrite Hq; reflexivity|].
  unfold get_data_num. split; intros H.
  - destruct (Z.eqb_spec (total_page_num rel) 1); [lia|reflexivity].
  - rewrite H. reflexivity.
Qed.

(** A table of three pages and a bit, 100 items on the first page and 37 on
    the last: 237 rows. *)
Lemma get_data_num_estimate_witness :
  get_data_num (mk_relation_storage 24676 (fun n => if n =? 0 then 100 else 37)) = 237.
Proof.
  pose proof (get_data_num_estimate
                (mk_relation_storage 24676 (fun n => if n =? 0 then 100 else 37))
                ltac:(simpl; lia)) as (_ & _ & _ & H & _).
  rewrite H; [reflexivity| vm_compute; reflexivity].
Defined.

(** ** Accelerator latency model *)

(** C8: for [user_pagenum = 1], whatever the query class and the dataset,
    the estimator finds no full host iteration, a remainder of two pages, and
    every summand of the total equals the summand built from the remainder
    alone: creation of one buffer of the smallest tier, one address mapping,
    one kernel set-up, the transfer of the remainder at the bandwidth of the
    smallest tier, the transfer of the output buffer at the lower bandwidth
    tier, and the compute and DMA cycles of the remainder. *)
Theorem single_page_latency_remainder_only (user_query_num user_dataset : Z) :
  host_iteration 1 = 0 /\
  page_iteration 1 = 2 /\
  hw_latency_of (aggregate_query user_query_num)
    (unit_cycles user_dataset user_query_num) 1
  = remainder_only_latency (aggregate_query user_query_num)
      (unit_cycles user_dataset user_query_num) /\
  get_hw_expectation_time user_query_num user_dataset 1
  = user_total_latency
      (remainder_only_latency (aggregate_query user_query_num)
         (unit_cycles user_dataset user_query_num)).
Proof.
  split; [vm_compute; reflexivity|].
  split; [vm_compute; reflexivity|].
  assert (H : hw_latency_of (aggregate_query user_query_num)
                (unit_cycles user_dataset user_query_num) 1
              = remainder_only_latency (aggregate_query user_query_num)
                  (unit_cycles user_dataset user_query_num)).
  { generalize (aggregate_query user_query_num) as aggregate.
    unfold unit_cycles.
    repeat match goal with
    | |- context [?a =? ?b] => destruct (a =? b)
    end;
    intros [|]; vm_compute; reflexivity. }
  split; [exact H|].
  unfold get_hw_expectation_time. rewrite H. reflexivity.
Qed.

(** An instance: class Q1 on the widest dataset, one page. *)
Example single_page_latency_Q1_HIGGS :
  get_hw_expectation_time Q1 HIGGS 1
  = (2.842 + 0.44 + 16384 / 493921239.04 * 1000 + 0.08
     + (5522 / (170 * 1000000) * 1000 + 703 / (170 * 1000000) * 1000)
     + (5522 / (170 * 1000000) * 1000 + 703 / (170 * 1000000) * 1000) * 0.041
     + 2048 / 311385128.96 * 1000)%float.
Proof. vm_compute. reflexivity. Qed.

(** ** Decision step *)

(** C4, as the specification states it, fails: with three samples in every
    range, none of them below the stated minimum of 3, no decision is made. *)
Lemma three_samples_no_decision :
  decide_backend three_samples_each Q1 5 2000 1 = None /\
  ~ (data1_len three_samples_each < 3 \/ data2_len three_samples_each < 3 \/
     data3_len three_samples_each < 3)%nat.
Proof. split; [reflexivity | simpl; lia]. Qed.

(** C4, amended: no decision is made exactly when at least one of the three
    ranges of the class holds at most [ADJ_MIN_DATANUM] = 3 samples; in every
    other case the two predictions are [predict] at rows/1000 and
    [get_hw_expectation_time] at the class, the dataset category and the
    page count, the CPU is named when its prediction is strictly the lower
    one and the accelerator otherwise, and the ratio reported is CPU/HW. *)
Theorem decide_backend_spec (m : class_model) (query_num data_col_len : Z)
    (new_data_num page_num : float) :
  (decide_backend m query_num data_col_len new_data_num page_num = None <->
   (data1_len m <= 3 \/ data2_len m <= 3 \/ data3_len m <= 3)%nat) /\
  (forall d : decision,
      decide_backend m query_num data_col_len new_data_num page_num = Some d ->
      new_exec_time_predict d = predict m (new_data_num / 1000)%float /\
      hw_expectation_time d
      = get_hw_expectation_time query_num (dataset_num data_col_len) page_num /\
      (chosen d = CPU <-> (new_exec_time_predict d <? hw_expectation_time d)%float = true) /\
      (chosen d = HW <-> (new_exec_time_predict d <? hw_expectation_time d)%float = false) /\
      cpu_hw_ratio d = (new_exec_time_predict d / hw_expectation_time d)%float /\
      times_faster d
      = match chosen d with
        | CPU => (hw_expectation_time d / new_exec_time_predict d)%float
        | HW => (new_exec_time_predict d / hw_expectation_time d)%float
        end).
Proof.
  unfold decide_backend, ADJ_MIN_DATANUM.
  destruct (Z.ltb_spec 3 (Z.of_nat (data1_len m))) as [H1|H1];
  destruct (Z.ltb_spec 3 (Z.of_nat (data2_len m))) as [H2|H2];
  destruct (Z.ltb_spec 3 (Z.of_nat (data3_len m))) as [H3|H3]; simpl;
    try (split; [split; [intros _; lia | reflexivity] | intros d Hd; discriminate Hd]).
  split.
  - split; [|lia].
    destruct (predict m (new_data_num / 1000)
              <? get_hw_expectation_time query_num (dataset_num data_col_len) page_num)%float;
      intros Hd; discriminate Hd.
  - intros d.
    destruct (predict m (new_data_num / 1000)
              <? get_hw_expectation_time query_num (dataset_num data_col_len) page_num)%float
      eqn:Hlt; intros Hd; injection Hd as <-; simpl; rewrite Hlt;
      repeat split; intros; congruence.
Qed.

(** With four samples in every range the decision is made: 2000 rows of
    class Q1 are predicted at 2 ms on the CPU, below the accelerator's
    estimate for one page, and the CPU is named. *)
Lemma decide_backend_spec_witness :
  exists d : decision,
    decide_backend four_samples_each Q1 5 2000 1 = Some d /\
    new_exec_time_predict d = 2%float /\ chosen d = CPU.
Proof.
  destruct (decide_backend four_samples_each Q1 5 2000 1) as [d|] eqn:Hd;
    [|vm_compute in Hd; discriminate Hd].
  exists d. split; [reflexivity|].
  destruct (proj2 (decide_backend_spec four_samples_each Q1 5 2000 1) d Hd)
    as (Hcpu & Hhw & Hc & _).
  split.
  - rewrite Hcpu. vm_compute. reflexivity.
  - apply Hc. rewrite Hcpu, Hhw. vm_compute. reflexivity.
Defined.

(** ** Arrays *)

Lemma length_store (a : list float) (i : nat) (v : float) :
  List.length (store a i v) = List.length a.
Proof.
  revert i; induction a as [|x a IH]; intros [|i]; simpl; try reflexivity.
  rewrite IH. reflexivity.
Qed.

Lemma cell_store_eq (a : list float) (i : nat) (v : float) :
  (i < List.length a)%nat -> cell (store a i v) i = v.
Proof.
  unfold cell. revert i; induction a as [|x a IH]; intros [|i]; simpl; intros H;
    try lia; try reflexivity.
  apply IH. lia.
Qed.

Lemma cell_store_neq (a : list float) (i j : nat) (v : float) :
  i <> j -> cell (store a i v) j = cell a j.
Proof.
  unfold cell. revert i j; induction a as [|x a IH]; intros [|i] [|j]; simpl; intros H;
    try reflexivity; try lia.
  apply IH. lia.
Qed.

(** The shift loop of an insertion: the cells [lo+1 .. lo+count] receive
    the contents of the cells [lo .. lo+count-1]. *)
Lemma shift_up_cell (count lo : nat) :
  forall (a : list float) (k : nat),
    (lo + count < List.length a)%nat ->
    cell (for_down lo count (fun j a => store a (j + 1) (cell a j)) a) k
    = if ((lo <? k) && (k <=? lo + count))%nat then cell a (k - 1) else cell a k.
Proof.
  induction count as [|c IH]; intros a k Hlen; simpl.
  - destruct (Nat.ltb_spec lo k), (Nat.leb_spec k (lo + 0)); simpl; try reflexivity; lia.
  - rewrite IH by (rewrite length_store; lia).
    destruct (Nat.ltb_spec lo k) as [H1|H1]; simpl.
    + destruct (Nat.leb_spec k (lo + c)) as [H2|H2];
        destruct (Nat.leb_spec k (lo + S c)) as [H3|H3]; try lia.
      * apply cell_store_neq. lia.
      * replace k with (lo + c + 1)%nat by lia.
        rewrite cell_store_eq by lia. f_equal. lia.
      * apply cell_store_neq. lia.
    + apply cell_store_neq. lia.
Qed.

Lemma shift_up_length (count lo : nat) :
  forall a : list float,
    List.length (for_down lo count (fun j a => store a (j + 1) (cell a j)) a) = List.length a.
Proof.
  induction count as [|c IH]; intros a; simpl; [reflexivity|].
  rewrite IH, length_store. reflexivity.
Qed.

(** The cells of an array after the insertion of [v] at index [i]. *)
Lemma inserted_cell (a : list float) (len i : nat) (v : float) (k : nat) :
  (i <= len)%nat -> (len < List.length a)%nat ->
  cell (store (for_down i (len - i) (fun j a => store a (j + 1) (cell a j)) a) i v) k
  = if (k =? i)%nat then v
    else if ((i <? k) && (k <=? len))%nat then cell a (k - 1) else cell a k.
Proof.
  intros Hi Hlen.
  destruct (Nat.eqb_spec k i) as [->|Hne].
  - apply cell_store_eq. rewrite shift_up_length. lia.
  - rewrite cell_store_neq by lia.
    rewrite shift_up_cell by lia.
    replace (i + (len - i))%nat with len by lia. reflexivity.
Qed.

(** ** Insertion step of [add_new_data] *)

Lemma first_not_below_some (data_num : list float) (new_data_num_add : float) (todo : nat) :
  forall i0 i : nat,
    first_not_below data_num new_data_num_add i0 todo = Some i ->
    (i0 <= i < i0 + todo)%nat /\
    (new_data_num_add <=? cell data_num i)%float = true /\
    (forall j, (i0 <= j < i)%nat -> (new_data_num_add <=? cell data_num j)%float = false).
Proof.
  induction todo as [|todo IH]; intros i0 i; simpl; [discriminate|].
  destruct (new_data_num_add <=? cell data_num i0)%float eqn:E.
  - intros H; injection H as <-. split; [lia|]. split; [exact E|]. intros j Hj; lia.
  - intros H. apply IH in H as (Hr & Hle & Hbelow).
    split; [lia|]. split; [exact Hle|].
    intros j Hj. destruct (Nat.eq_dec j i0) as [->|Hne]; [exact E|].
    apply Hbelow. lia.
Qed.

Lemma first_not_below_none (data_num : list float) (new_data_num_add : float) (todo : nat) :
  forall i0 : nat,
    first_not_below data_num new_data_num_add i0 todo = None ->
    forall j, (i0 <= j < i0 + todo)%nat -> (new_data_num_add <=? cell data_num j)%float = false.
Proof.
  induction todo as [|todo IH]; intros i0; simpl; [intros _ j Hj; lia|].
  destruct (new_data_num_add <=? cell data_num i0)%float eqn:E; [discriminate|].
  intros H j Hj. destruct (Nat.eq_dec j i0) as [->|Hne]; [exact E|].
  apply (IH (S i0) H). lia.
Qed.

(** In a sorted range the samples before index [j] are below the one at
    [j]. *)
Lemma sorted_upto_lt (a : list float) (n : nat) :
  sorted_upto a n ->
  forall i j, (i < j)%nat -> (j < n)%nat -> (cell a i <? cell a j)%float = true.
Proof.
  intros Hs i j Hij Hj. induction j as [|j IH]; [lia|].
  destruct (Nat.eq_dec i j) as [->|Hne].
  - apply Hs. lia.
  - apply ltb_trans with (y := cell a j); [apply IH; lia | apply Hs; lia].
Qed.

(** A range whose sizes are sorted has sorted sizes after [insert_sample]. *)
Lemma insert_sample_sorted (data_num exec_time : list float) (data_len : nat)
    (new_data_num_add new_exec_time_add : float)
    (data_num' exec_time' : list float) (data_len' : nat) :
  sorted_upto data_num data_len ->
  insert_sample data_num exec_time data_len new_data_num_add new_exec_time_add
  = Some (data_num', exec_time', data_len') ->
  sorted_upto data_num' data_len'.
Proof.
  intros Hs. unfold insert_sample.
  destruct (first_not_below data_num new_data_num_add 0 data_len) as [i|] eqn:Hf.
  2: { intros H; injection H as <- <- <-. exact Hs. }
  apply first_not_below_some in Hf as (Hi & Hle & Hbelow).
  destruct (cell data_num i =? new_data_num_add)%float eqn:Heq.
  { intros H; injection H as <- <- <-. exact Hs. }
  destruct ((data_len <? List.length data_num) && (data_len <? List.length exec_time))%nat
    eqn:Hroom; [|discriminate].
  apply andb_true_iff in Hroom as [Hroom _]. apply Nat.ltb_lt in Hroom.
  intros H; injection H as <- <- <-.
  intros k Hk.
  rewrite !inserted_cell by lia.
  destruct (Nat.eqb_spec k i) as [->|Hki].
  - (* the new sample and its successor *)
    destruct (Nat.eqb_spec (S i) i); [lia|].
    destruct (Nat.ltb_spec i (S i)); [|lia].
    destruct (Nat.leb_spec (S i) data_len); [|lia]. simpl.
    rewrite ?Nat.sub_0_r.
    apply leb_neq_ltb; assumption.
  - destruct (Nat.eqb_spec (S k) i) as [Hski|Hski].
    + (* the predecessor of the new sample *)
      destruct (Nat.ltb_spec i k); [lia|]. simpl.
      apply not_leb_ltb.
      * apply leb_self in Hle. tauto.
      * assert (Hlt : (cell data_num k <? cell data_num i)%float = true)
          by (apply (sorted_upto_lt _ _ Hs); lia).
        apply ltb_self in Hlt. tauto.
      * apply Hbelow. lia.
    + destruct (Nat.ltb_spec i k) as [H1|H1]; destruct (Nat.leb_spec k data_len) as [H2|H2];
        destruct (Nat.ltb_spec i (S k)) as [H3|H3];
        destruct (Nat.leb_spec (S k) data_len) as [H4|H4]; simpl; try lia.
      * rewrite ?Nat.sub_0_r. replace k with (S (k - 1)) at 2 by lia. apply Hs. lia.
      * apply Hs. lia.
Qed.

Lemma first_not_below_all_below (data_num : list float) (new_data_num_add : float) (todo : nat) :
  forall i0 : nat,
    (forall j, (i0 <= j < i0 + todo)%nat ->
               (new_data_num_add <=? cell data_num j)%float = false) ->
    first_not_below data_num new_data_num_add i0 todo = None.
Proof.
  induction todo as [|todo IH]; intros i0 H; simpl; [reflexivity|].
  rewrite (H i0) by lia. apply IH. intros j Hj. apply H. lia.
Qed.

(** With a free cell after the last sample, [insert_sample] stays inside the
    arrays. *)
Lemma insert_sample_room (data_num exec_time : list float) (data_len : nat)
    (new_data_num_add new_exec_time_add : float) :
  (data_len < List.length data_num)%nat -> (data_len < List.length exec_time)%nat ->
  exists r, insert_sample data_num exec_time data_len new_data_num_add new_exec_time_add
            = Some r.
Proof.
  intros H1 H2. unfold insert_sample.
  destruct (first_not_below data_num new_data_num_add 0 data_len) as [i|];
    [|eexists; reflexivity].
  destruct (cell data_num i =? new_data_num_add)%float; [eexists; reflexivity|].
  apply Nat.ltb_lt in H1, H2. rewrite H1, H2. simpl. eexists; reflexivity.
Qed.

(** An observation whose size is already in a sorted range is not inserted:
    the time of the sample of that size becomes the mean of the two times. *)
Lemma insert_sample_existing (data_num exec_time : list float) (data_len : nat)
    (new_data_num_add new_exec_time_add : float) (i : nat) :
  sorted_upto data_num data_len ->
  (i < data_len)%nat ->
  (cell data_num i =? new_data_num_add)%float = true ->
  insert_sample data_num exec_time data_len new_data_num_add new_exec_time_add
  = Some (data_num,
          store exec_time i ((cell exec_time i + new_exec_time_add) / 2)%float,
          data_len).
Proof.
  intros Hs Hi Heq. unfold insert_sample.
  assert (Hle : (new_data_num_add <=? cell data_num i)%float = true)
    by (apply eqb_leb, eqb_sym, Heq).
  destruct (first_not_below data_num new_data_num_add 0 data_len) as [i0|] eqn:Hf.
  - apply first_not_below_some in Hf as (Hi0 & Hle0 & Hbelow).
    assert (i0 = i) as ->.
    { destruct (Nat.lt_trichotomy i0 i) as [Hlt|[Heq0|Hgt]]; [|exact Heq0|].
      - assert (H : (cell data_num i0 <? new_data_num_add)%float = true).
        { apply ltb_eqb_trans with (y := cell data_num i); [|exact Heq].
          apply (sorted_upto_lt _ _ Hs); lia. }
        apply ltb_not_leb in H. congruence.
      - rewrite (Hbelow i) in Hle by lia. discriminate Hle. }
    rewrite Heq. reflexivity.
  - rewrite (first_not_below_none _ _ _ _ Hf i) in Hle by lia. discriminate Hle.
Qed.

Lemma gap_model_sorted : ranges_sorted gap_model.
Proof.
  repeat split; intros i Hi; simpl in Hi; do 3 (destruct i as [|i]; [reflexivity|]); lia.
Defined.

Lemma gap_model_room : ranges_have_room gap_model.
Proof. repeat split; simpl; lia. Defined.

Lemma gap_model_contiguous : ranges_contiguous gap_model.
Proof. repeat split; simpl; try lia; reflexivity. Defined.


(** An observation whose size is that of the first sample of the middle
    range, while the near range ends below it, is routed to the near range,
    where no sample is as large, and is dropped: the time of the sample of
    that size stays 5 where the mean with the new time 7 is 6. *)
Lemma boundary_size_not_averaged :
  ranges_sorted gap_model /\ ranges_contiguous gap_model /\ ranges_have_room gap_model /\
  (cell (data_num2 gap_model) 0 =? 10)%float = true /\
  cell (exec_time2 gap_model) 0 = 5%float /\
  insert_step gap_model 10 7 = Some gap_model.
Proof.
  split; [exact gap_model_sorted|].
  split; [exact gap_model_contiguous|].
  split; [exact gap_model_room|].
  repeat split.
Qed.

(** The three data ranges are handled by the same lines of code and by the
    same steps of proof: the insertion stays inside the arrays ([Hr], [Hr']),
    keeps the range sorted ([Hs]), and averages the time of a sample of the
    same size. *)
Ltac insert_in_range Hs Hr Hr' :=
  match goal with
  | |- context [insert_sample ?dn ?et ?len ?x ?t] =>
      let Hins := fresh "Hins" in
      destruct (insert_sample_room dn et len x t Hr Hr') as [[[? ?] ?] Hins];
      rewrite Hins; eexists; split; [reflexivity|]; split;
      [ split; [|split]; simpl; try assumption;
        exact (insert_sample_sorted _ _ _ _ _ _ _ _ Hs Hins)
      | let i := fresh "i" in
        let Hi := fresh "Hi" in
        let Heq := fresh "Heq" in
        intros i ? -> Hi Heq; simpl in Hi, Heq;
        rewrite (insert_sample_existing _ _ _ _ _ i Hs Hi Heq) in Hins;
        injection Hins as <- <- <-;
        split; [intros [|[|[|?]]]; reflexivity|];
        split; [intros [|[|[|?]]]; reflexivity|];
        split; [reflexivity|];
        let Hin := fresh "Hin" in
        intros ? Hin ?; simpl in Hin;
        destruct Hin as [<-|[<-|[<-|[]]]]; try reflexivity; congruence ]
  end.

(** What holds of the insertion step as long as the ranges have a free
    cell: for every sample set whose three ranges are sorted
    ascending by size and have a free cell, and every observation, the
    insertion step of [add_new_data] returns a sample set whose three ranges
    are sorted ascending by size, wherever the observation goes; when the
    size equals the size of a sample of the range the observation is routed
    to, no sample is inserted, no size and no length changes, and the time
    of that sample becomes the mean of its old time and the new one. *)
Theorem insert_step_sorted (m : class_model) (new_data_num_add new_exec_time_add : float) :
  ranges_sorted m -> ranges_have_room m ->
  exists m' : class_model,
    insert_step m new_data_num_add new_exec_time_add = Some m' /\
    ranges_sorted m' /\
    (forall i k : nat,
        k = data_range m new_data_num_add ->
        (i < range_len m k)%nat ->
        (cell (range_data_num m k) i =? new_data_num_add)%float = true ->
        (forall k', range_data_num m' k' = range_data_num m k') /\
        (forall k', range_len m' k' = range_len m k') /\
        range_exec_time m' k
        = store (range_exec_time m k) i
            ((cell (range_exec_time m k) i + new_exec_time_add) / 2)%float /\
        (forall k', In k' [1; 2; 3]%nat -> k' <> k ->
                    range_exec_time m' k' = range_exec_time m k')).
Proof.
  intros (Hs1 & Hs2 & Hs3) (Hr1 & Hr1' & Hr2 & Hr2' & Hr3 & Hr3').
  assert (Hk : In (data_range m new_data_num_add) [1; 2; 3]%nat).
  { unfold data_range.
    destruct (new_data_num_add <=? cell (data_num2 m) 0)%float; [simpl; tauto|].
    destruct (new_data_num_add <=? cell (data_num3 m) 0)%float; simpl; tauto. }
  unfold insert_step.
  destruct Hk as [<-|[<-|[<-|[]]]].
  - insert_in_range Hs1 Hr1 Hr1'.
  - insert_in_range Hs2 Hr2 Hr2'.
  - insert_in_range Hs3 Hr3 Hr3'.
Qed.

(** An observation of size 20, which the middle range of [gap_model] holds
    at index 1 with time 5, and of time 9: nothing is inserted and the time
    becomes 7. *)
Lemma insert_step_sorted_witness :
  exists m' : class_model,
    insert_step gap_model 20 9 = Some m' /\
    ranges_sorted m' /\
    data_num2 m' = data_num2 gap_model /\
    data2_len m' = 4%nat /\
    exec_time2 m' = [5; 7; 5; 5; 0; 0]%float.
Proof.
  destruct (insert_step_sorted gap_model 20 9 gap_model_sorted gap_model_room)
    as (m' & Hstep & Hsorted & Hdup).
  exists m'. split; [exact Hstep|]. split; [exact Hsorted|].
  destruct (Hdup 1%nat 2%nat) as (Hnum & Hlen & Htime & _).
  - reflexivity.
  - simpl; lia.
  - reflexivity.
  - split; [exact (Hnum 2%nat)|]. split; [exact (Hlen 2%nat)|]. exact Htime.
Defined.

(** ** A range without a free cell *)

(** [insert_sample] never changes the number of cells of the two arrays. *)
Lemma insert_sample_cells (dn et : list float) (len : nat) (x t : float)
    (dn' et' : list float) (len' : nat) :
  insert_sample dn et len x t = Some (dn', et', len') ->
  List.length dn' = List.length dn /\ List.length et' = List.length et.
Proof.
  unfold insert_sample.
  destruct (first_not_below dn x 0 len) as [i|].
  2:{ intros H; injection H as <- <- <-. split; reflexivity. }
  destruct (cell dn i =? x)%float.
  { intros H; injection H as <- <- <-. rewrite length_store. split; reflexivity. }
  destruct ((len <? List.length dn) && (len <? List.length et))%nat; [|discriminate].
  intros H; injection H as <- <- <-.
  rewrite !length_store, !shift_up_length. split; reflexivity.
Qed.

(** The blocks of a sample set are those that the start-up left: the
    insertion step writes into them and never replaces them by larger ones,
    while every new size makes its range one sample longer. *)
Lemma insert_step_cells (m m' : class_model) (x t : float) :
  insert_step m x t = Some m' ->
  List.length (data_num1 m') = List.length (data_num1 m) /\
  List.length (data_num2 m') = List.length (data_num2 m) /\
  List.length (data_num3 m') = List.length (data_num3 m) /\
  List.length (exec_time1 m') = List.length (exec_time1 m) /\
  List.length (exec_time2 m') = List.length (exec_time2 m) /\
  List.length (exec_time3 m') = List.length (exec_time3 m).
Proof.
  unfold insert_step.
  destruct (data_range m x) as [|[|[|k]]];
    match goal with
    | |- context [insert_sample ?a ?b ?c ?d ?e] =>
        destruct (insert_sample a b c d e) as [[[dn et] len]|] eqn:Hins; [|discriminate]
    end;
    apply insert_sample_cells in Hins as [H1 H2];
    intros H; injection H as <-; simpl; repeat split; assumption.
Qed.

(** C6 fails on the code.  [add_new_data] writes a new sample into the
    blocks it is given and has no test of their size: when the range the
    observation is routed to has no free cell, and the size is new and not
    above the range, the shift of lines 3497-3500 begins with a write to
    the cell after the last one.  The model faults there, in the insertion
    step and so in [add_new_data], whatever [adjust_range] would do after.
    Nothing in [add_new_data] enlarges a block ([insert_step_cells]), so
    every range is full after as many new sizes as it had free cells. *)
Theorem insert_step_full_range_overruns (m : class_model) (x t : float) (i : nat) :
  let k := data_range m x in
  (i < range_len m k)%nat ->
  (x <=? cell (range_data_num m k) i)%float = true ->
  (cell (range_data_num m k) i =? x)%float = false ->
  (forall j, (j < i)%nat -> (x <=? cell (range_data_num m k) j)%float = false) ->
  (List.length (range_data_num m k) <= range_len m k)%nat ->
  insert_step m x t = None /\
  forall (pow : float -> float -> float) (uninit_coef : alloc_site -> list float)
         (uninit_cell : float),
    add_new_data pow uninit_coef uninit_cell m x t = None.
Proof.
  intros k Hi Hle Hne Hbelow Hfull.
  assert (Hf : first_not_below (range_data_num m k) x 0 (range_len m k) = Some i).
  { destruct (first_not_below (range_data_num m k) x 0 (range_len m k)) as [i0|] eqn:Hf.
    - apply first_not_below_some in Hf as (Hi0 & Hle0 & Hbelow0).
      f_equal. destruct (Nat.lt_trichotomy i0 i) as [Hlt|[E|Hgt]]; [|exact E|].
      + rewrite (Hbelow i0 Hlt) in Hle0. discriminate.
      + rewrite (Hbelow0 i) in Hle by lia. discriminate.
    - rewrite (first_not_below_none _ _ _ _ Hf i) in Hle by lia. discriminate. }
  assert (Hins : insert_sample (range_data_num m k) (range_exec_time m k) (range_len m k) x t
                 = None).
  { unfold insert_sample. rewrite Hf, Hne.
    destruct (Nat.ltb_spec (range_len m k) (List.length (range_data_num m k))); [lia|].
    reflexivity. }
  assert (Hstep : insert_step m x t = None).
  { unfold insert_step. fold k.
    assert (Hk : In k [1; 2; 3]%nat).
    { unfold k, data_range.
      destruct (x <=? cell (data_num2 m) 0)%float; [simpl; tauto|].
      destruct (x <=? cell (data_num3 m) 0)%float; simpl; tauto. }
    destruct Hk as [E|[E|[E|[]]]]; rewrite <- E in *;
      cbn [range_data_num range_exec_time range_len] in Hins; rewrite Hins; reflexivity. }
  split; [exact Hstep|].
  intros pow uninit_coef uninit_cell. unfold add_new_data. rewrite Hstep. reflexivity.
Qed.

(** The near range of [gap_model] holds four samples in blocks of six cells.
    Two calls of [add_new_data] with new sizes fill the blocks, in
    ascending order.  In the third call the size 3.5 would go to index 5:
    the shift starts with a write to cell 6. *)
Lemma insert_step_full_range_overruns_witness :
  exists m1 m2 : class_model,
    add_new_data pow_exact zero_blocks 0 gap_model 1.5 9 = Some m1 /\
    add_new_data pow_exact zero_blocks 0 m1 2.5 9 = Some m2 /\
    data_num1 m2 = [1; 1.5; 2; 2.5; 3; 4]%float /\ data1_len m2 = 6%nat /\
    insert_step m2 3.5 9 = None /\
    add_new_data pow_exact zero_blocks 0 m2 3.5 9 = None.
Proof.
  eexists. eexists.
  split; [vm_compute; reflexivity|]. split; [vm_compute; reflexivity|].
  split; [reflexivity|]. split; [reflexivity|].
  refine ((fun H => conj (proj1 H) (proj2 H pow_exact zero_blocks 0%float))
            (insert_step_full_range_overruns _ 3.5 9 5 _ _ _ _ _)).
  - simpl; lia.
  - reflexivity.
  - reflexivity.
  - intros j Hj. do 5 (destruct j as [|j]; [reflexivity|]). lia.
  - simpl; lia.
Defined.

(** ** Observations beyond the far range *)

(** The arrays and the lengths that [add_new_data] leaves are those of its
    insertion step; the two calls of [adjust_range] reach the coefficients
    only. *)
Lemma add_new_data_arrays (pow : float -> float -> float)
    (uninit_coef : alloc_site -> list float) (uninit_cell : float)
    (m m' : class_model) (new_data_num_add new_exec_time_add : float) :
  add_new_data pow uninit_coef uninit_cell m new_data_num_add new_exec_time_add = Some m' ->
  exists m1 : class_model,
    insert_step m new_data_num_add new_exec_time_add = Some m1 /\
    data_num1 m' = data_num1 m1 /\ data_num2 m' = data_num2 m1 /\
    data_num3 m' = data_num3 m1 /\
    exec_time1 m' = exec_time1 m1 /\ exec_time2 m' = exec_time2 m1 /\
    exec_time3 m' = exec_time3 m1 /\
    data1_len m' = data1_len m1 /\ data2_len m' = data2_len m1 /\
    data3_len m' = data3_len m1.
Proof.
  unfold add_new_data.
  destruct (insert_step m new_data_num_add new_exec_time_add) as [m1|]; [|discriminate].
  destruct (adjust_range pow uninit_coef uninit_cell (data_num1 m1) (data_num2 m1)
              (exec_time1 m1) (exec_time2 m1) (data1_len m) (data2_len m) true)
    as [r1|]; [|discriminate].
  destruct (adjust_range pow uninit_coef uninit_cell (out_right_data_num r1) (data_num3 m1)
              (out_right_exec_time r1) (exec_time3 m1) (out_data2_len r1) (data3_len m) false)
    as [r2|]; [|discriminate].
  intros H; injection H as <-. exists m1. repeat split.
Qed.

(** C10: in a sample set whose ranges are sorted and follow one another, an
    observation whose size is strictly greater than every size stored in the
    far range is inserted into no range: the insertion step returns the
    sample set as it was, sizes, times and lengths; after the whole of
    [add_new_data] only the coefficient arrays can differ. *)
Theorem insert_step_beyond_far (m : class_model)
    (new_data_num_add new_exec_time_add : float) :
  ranges_sorted m -> ranges_contiguous m ->
  (forall i, (i < data3_len m)%nat ->
             (cell (data_num3 m) i <? new_data_num_add)%float = true) ->
  insert_step m new_data_num_add new_exec_time_add = Some m /\
  (forall (pow : float -> float -> float) (uninit_coef : alloc_site -> list float)
          (uninit_cell : float) (m' : class_model),
      add_new_data pow uninit_coef uninit_cell m new_data_num_add new_exec_time_add
      = Some m' ->
      data_num1 m' = data_num1 m /\ data_num2 m' = data_num2 m /\
      data_num3 m' = data_num3 m /\
      exec_time1 m' = exec_time1 m /\ exec_time2 m' = exec_time2 m /\
      exec_time3 m' = exec_time3 m /\
      data1_len m' = data1_len m /\ data2_len m' = data2_len m /\
      data3_len m' = data3_len m).
Proof.
  intros (Hs1 & Hs2 & Hs3) (Hn1 & Hn2 & Hn3 & Hc12 & Hc23) Hfar.
  assert (Hfar0 : (cell (data_num3 m) 0 <? new_data_num_add)%float = true)
    by (apply Hfar; lia).
  assert (Hmid0 : (cell (data_num2 m) 0 <? new_data_num_add)%float = true).
  { assert (Hlast : (cell (data_num2 m) (data2_len m - 1) <? new_data_num_add)%float = true)
      by (apply leb_ltb_trans with (y := cell (data_num3 m) 0); assumption).
    destruct (Nat.eq_dec (data2_len m - 1) 0) as [E|E]; [rewrite E in Hlast; exact Hlast|].
    apply ltb_trans with (y := cell (data_num2 m) (data2_len m - 1)); [|exact Hlast].
    apply (sorted_upto_lt _ _ Hs2); lia. }
  assert (Hstep : insert_step m new_data_num_add new_exec_time_add = Some m).
  { unfold insert_step, data_range.
    rewrite (ltb_not_leb _ _ Hmid0), (ltb_not_leb _ _ Hfar0).
    unfold insert_sample.
    rewrite first_not_below_all_below
      by (intros j Hj; apply ltb_not_leb, Hfar; lia).
    destruct m; reflexivity. }
  split; [exact Hstep|].
  intros pow uninit_coef uninit_cell m' Hadd.
  apply add_new_data_arrays in Hadd as (m1 & Hm1 & H).
  rewrite Hstep in Hm1. injection Hm1 as <-. exact H.
Qed.

(** An observation of size 500 for [gap_model], whose far range ends at
    400. *)
Lemma insert_step_beyond_far_witness :
  insert_step gap_model 500 9 = Some gap_model.
Proof.
  apply (insert_step_beyond_far gap_model 500 9 gap_model_sorted gap_model_contiguous).
  intros i Hi. simpl in Hi. do 4 (destruct i as [|i]; [reflexivity|]). lia.
Defined.

(** ** Least-squares fit *)

Lemma eliminate_codes (todo : nat) :
  forall (c : nat) (ab : matrix_t * matrix_t),
    fst (eliminate todo c ab) = 0 \/ fst (eliminate todo c ab) = -4.
Proof.
  induction todo as [|todo IH]; intros c ab; simpl; [left; reflexivity|].
  destruct (MATRIX_VALUE (fst ab) c c =? 0)%float; [right; reflexivity|apply IH].
Qed.

(** [polyfit] answers 0, -2 or -4. *)
Lemma polyfit_codes (pow : float -> float -> float) (pointCount : nat)
    (xValues yValues : list float) (coefficientCount : nat) (coefficientResults : list float) :
  In (fst (polyfit pow pointCount xValues yValues coefficientCount coefficientResults))
     [0; -2; -4].
Proof.
  unfold polyfit. destruct (pointCount <? coefficientCount)%nat; [simpl; tauto|].
  pose proof (eliminate_codes coefficientCount 0
                (normal_equations pow pointCount xValues yValues coefficientCount)) as H.
  destruct (eliminate coefficientCount 0
              (normal_equations pow pointCount xValues yValues coefficientCount)) as [rVal ab].
  simpl in *. destruct H as [-> | ->]; tauto.
Qed.

(** With too few points the coefficient array is left alone. *)
Lemma polyfit_too_few_points (pow : float -> float -> float) (pointCount : nat)
    (xValues yValues : list float) (coefficientResults : list float) :
  (pointCount < 4)%nat ->
  polyfit pow pointCount xValues yValues 4 coefficientResults = (-2, coefficientResults).
Proof.
  intros H. unfold polyfit. apply Nat.ltb_lt in H. rewrite H. reflexivity.
Qed.

(** With at least four points the four coefficients are written whatever
    the code returned, the error code -4 included: what the array held
    before the call has no part in what it holds after. *)
Lemma polyfit_ignores_previous (pow : float -> float -> float) (pointCount : nat)
    (xValues yValues : list float) (previous previous' : list float) :
  (4 <= pointCount)%nat ->
  List.length previous = 4%nat -> List.length previous' = 4%nat ->
  polyfit pow pointCount xValues yValues 4 previous
  = polyfit pow pointCount xValues yValues 4 previous'.
Proof.
  intros Hn H H'. unfold polyfit.
  destruct (Nat.ltb_spec pointCount 4); [lia|].
  destruct (eliminate 4 0 (normal_equations pow pointCount xValues yValues 4)) as [rVal ab].
  f_equal.
  destruct previous as [|a0 [|a1 [|a2 [|a3 [|]]]]]; try discriminate H.
  destruct previous' as [|b0 [|b1 [|b2 [|b3 [|]]]]]; try discriminate H'.
  reflexivity.
Qed.

(** C2 fails on the code.  Four points of the same abscissa make the second
    pivot of the normal equations exactly zero: [polyfit] returns -4, and the
    coefficient array, which held 7, 7, 7, 7, holds 0.3125 and three NaNs
    when it returns. *)
Theorem polyfit_zero_pivot_overwrites :
  normal_equations pow_exact 4 [2; 2; 2; 2]%float [1; 2; 3; 4]%float 4
  = (mk_matrix 4 4 [256; 128; 64; 32; 128; 64; 32; 16; 64; 32; 16; 8; 32; 16; 8; 4]%float,
     mk_matrix 4 1 [80; 40; 20; 10]%float) /\
  polyfit pow_exact 4 [2; 2; 2; 2]%float [1; 2; 3; 4]%float 4 [7; 7; 7; 7]%float
  = (-4, [0.3125; nan; nan; nan]%float) /\
  snd (polyfit pow_exact 4 [2; 2; 2; 2]%float [1; 2; 3; 4]%float 4 [7; 7; 7; 7]%float)
  <> [7; 7; 7; 7]%float.
Proof.
  split; [vm_compute; reflexivity|].
  split; [vm_compute; reflexivity|].
  vm_compute. discriminate.
Qed.

(** ** Re-partitioning *)

Lemma take_from_right_lengths (st st1 : scan_state) :
  take_from_right st = Some st1 ->
  left_len st1 = S (left_len st) /\
  right_len st1 = (right_len st - 1)%nat /\
  (left_len st < List.length (min_left_data_num st))%nat /\
  List.length (min_left_data_num st1) = List.length (min_left_data_num st) /\
  List.length (min_left_exec_time st1) = List.length (min_left_exec_time st) /\
  min_left_error_rate st1 = min_left_error_rate st /\
  min_right_error_rate st1 = min_right_error_rate st.
Proof.
  unfold take_from_right.
  destruct ((1 <? List.length (min_left_data_num st)) &&
            (left_len st <? List.length (min_left_data_num st)) &&
            (1 <=? right_len st) && (right_len st <=? List.length (min_left_data_num st)))%nat
    eqn:Hc; [|discriminate].
  intros H; injection H as <-. simpl.
  apply andb_true_iff in Hc as [Hc _]. apply andb_true_iff in Hc as [Hc _].
  apply andb_true_iff in Hc as [_ Hc]. apply Nat.ltb_lt in Hc.
  rewrite !length_store. repeat split; lia.
Qed.

(** The defect behind the first failure of C3, whatever the samples: when a
    step of phase 1 is recorded and one of the recorded rates is below 5, the
    scan ends with the running left length of before the step and with the
    recorded lengths of after it; the cell that the recorded left length now
    reaches holds 0. *)
Lemma phase1_recorded_then_rolled_back (pow : float -> float -> float)
    (uninit_coef : alloc_site -> list float) (first_flag : bool) (todo rec : nat)
    (st st1 st2 : scan_state) :
  List.length (min_left_exec_time st) = List.length (min_left_data_num st) ->
  take_from_right st = Some st1 ->
  let left_fit :=
    get_avg_error pow (min_left_data_num st1) (min_left_exec_time st1) (left_len st1)
      (uninit_coef (Phase1Left rec)) first_flag in
  let right_fit :=
    get_avg_error pow (min_right_data_num st1) (min_right_exec_time st1) (right_len st1)
      (uninit_coef (Phase1Right rec)) false in
  step_accepted (min_left_error_rate st) (min_right_error_rate st)
    (snd (fst left_fit)) (snd (fst right_fit)) = true ->
  ((snd (fst left_fit) <? 5)%float || (snd (fst right_fit) <? 5)%float) = true ->
  phase1 pow uninit_coef first_flag (S todo) rec st = Some st2 ->
  min_left_len st2 = S (left_len st) /\
  min_right_len st2 = (right_len st - 1)%nat /\
  left_len st2 = left_len st /\
  min_left_error_rate st2 = snd (fst left_fit) /\
  min_right_error_rate st2 = snd (fst right_fit) /\
  cell (min_left_data_num st2) (left_len st) = 0%float /\
  cell (min_left_exec_time st2) (left_len st) = 0%float.
Proof.
  intros Hlen Htake left_fit right_fit Hacc Hsmall.
  cbn [phase1]. rewrite Htake. fold left_fit right_fit.
  destruct left_fit as [[left_error left_error_rate] left_coef].
  destruct right_fit as [[right_error right_error_rate] right_coef].
  cbn [fst snd] in Hacc, Hsmall.
  destruct (take_from_right_lengths st st1 Htake) as (Hl & Hr & Hcap & Hn & Ht & Hml & Hmr).
  rewrite Hml, Hmr, Hacc.
  cbn [record_min min_left_error_rate min_right_error_rate]. rewrite Hsmall.
  unfold give_to_right.
  cbn [record_min min_left_data_num min_right_data_num min_left_exec_time
       min_right_exec_time left_len right_len min_left_error min_right_error
       min_left_error_rate min_right_error_rate min_left_coef min_right_coef
       min_left_len min_right_len].
  destruct ((2 <=? left_len st1) && (left_len st1 <=? List.length (min_left_data_num st1)) &&
            (right_len st1 <? List.length (min_left_data_num st1)))%nat; [|discriminate].
  intros H; injection H as <-.
  cbn [min_left_data_num min_right_data_num min_left_exec_time
       min_right_exec_time left_len right_len min_left_error min_right_error
       min_left_error_rate min_right_error_rate min_left_coef min_right_coef
       min_left_len min_right_len].
  rewrite Hl, Hr. replace (S (left_len st) - 1)%nat with (left_len st) by lia.
  repeat split.
  - apply cell_store_eq. lia.
  - apply cell_store_eq. lia.
Qed.

(** X26: the slip behind phase 2: its two stopping tests read what phase 1
    recorded.  When phase 1 ended with both rates at 5 or more and both
    lengths at 4 or more, a recorded step of phase 2 is followed by the next
    step whatever phase 2 itself has recorded, a left bucket of fewer than
    four samples included. *)
Lemma phase2_goes_on (pow : float -> float -> float)
    (uninit_coef : alloc_site -> list float) (first_flag : bool) (p1 : scan_state)
    (todo rec : nat) (st st1 : scan_state) :
  give_to_right st = Some st1 ->
  let left_fit :=
    get_avg_error pow (min_left_data_num st1) (min_left_exec_time st1) (left_len st1)
      (uninit_coef (Phase2Left rec)) first_flag in
  let right_fit :=
    get_avg_error pow (min_right_data_num st1) (min_right_exec_time st1) (right_len st1)
      (uninit_coef (Phase2Right rec)) false in
  step_accepted (min_left_error_rate st1) (min_right_error_rate st1)
    (snd (fst left_fit)) (snd (fst right_fit)) = true ->
  ((min_left_error_rate p1 <? 5)%float || (min_right_error_rate p1 <? 5)%float) = false ->
  ((min_left_len p1 <? 4)%nat || (min_right_len p1 <? 4)%nat) = false ->
  phase2 pow uninit_coef first_flag p1 (S todo) rec st
  = phase2 pow uninit_coef first_flag p1 todo (S rec)
      (record_min st1 (fst (fst left_fit)) (fst (fst right_fit))
         (snd (fst left_fit)) (snd (fst right_fit)) (snd left_fit) (snd right_fit)).
Proof.
  intros Hgive left_fit right_fit Hacc Hrate Hlen.
  cbn [phase2]. rewrite Hgive. fold left_fit right_fit.
  destruct left_fit as [[left_error left_error_rate] left_coef].
  destruct right_fit as [[right_error right_error_rate] right_coef].
  cbn [fst snd] in Hacc |- *.
  rewrite Hacc, Hrate, Hlen. reflexivity.
Qed.

(** C3 fails on the code, in two ways.

    First, on the buckets [steady_left] and [steady_right], of six and seven
    samples, whatever the fresh blocks hold: the first step of phase 1 (the
    sample of size 7 goes to the left bucket) lowers both rates and is
    recorded, lengths 7 and 6; the recorded left rate is below 5, so the
    arrays are rolled back and the scan stops, but the recorded lengths stay.
    [adjust_range] returns the arrays of before the step with the lengths of
    after it: the left bucket ends with a sample of size 0 and time 0 that
    was never observed, the right bucket has lost its sample of size 12, and
    the fit of the returned buckets has an infinite left rate where the rates
    of the buckets as they came in were 2.06 and 0.51.

    Second, on the buckets [outlier_left] and [outlier_right], of seven and
    four samples, when the fresh coefficient blocks hold zeros: the first
    step of phase 1 leaves three samples on the right, [polyfit] refuses them
    and the rate is computed from the unwritten block; the step is recorded
    because the left rate falls by more than the right rate rises, and the
    right bucket is returned with length 3. *)
Theorem adjust_range_breaks_partition
    (garbage : alloc_site -> float * float * float * float) (uninit_cell : float) :
  (exists r : adjust_result,
      adjust_range pow_exact (fun site => coef_block (garbage site)) uninit_cell
        steady_left_num steady_right_num steady_left_time steady_right_time 6 7 true
      = Some r /\
      out_data1_len r = 7%nat /\ out_data2_len r = 6%nat /\
      firstn 7 (out_left_data_num r) = [1; 2; 3; 4; 5; 6; 0]%float /\
      firstn 7 (out_left_exec_time r) = [10; 21; 29; 41; 50; 60; 0]%float /\
      firstn 6 (out_right_data_num r) = [6; 7; 8; 9; 10; 11]%float /\
      firstn 6 (out_right_exec_time r) = [60; 70; 80; 92; 100; 110]%float /\
      let st0 := initial_scan_state pow_exact (fun site => coef_block (garbage site))
                   uninit_cell steady_left_num steady_right_num
                   steady_left_time steady_right_time 6 7 true in
      let refit := refit_error_rates pow_exact (fun site => coef_block (garbage site))
                     r true in
      (min_left_error_rate st0 <? 2.07)%float = true /\
      (min_right_error_rate st0 <? 0.51)%float = true /\
      fst refit = infinity /\
      (fst refit + snd refit <=? min_left_error_rate st0 + min_right_error_rate st0)%float
      = false) /\
  (exists r : adjust_result,
      adjust_range pow_exact (fun _ => [0; 0; 0; 0]%float) uninit_cell
        outlier_left_num outlier_right_num outlier_left_time outlier_right_time 7 4 true
      = Some r /\
      out_data1_len r = 8%nat /\ out_data2_len r = 3%nat).
Proof.
  split.
  - eexists. split; [vm_compute; reflexivity|].
    vm_compute. repeat split.
  - eexists. split; [vm_compute; reflexivity|].
    vm_compute. repeat split.
Qed.

(* ================================================================== *)
(** * Part III.  Further properties of the code                         *)
(* ================================================================== *)

(** ** Strings and words *)

(** X1: [hw_strcmp] answers 1 exactly when its two arguments are the same
    string, whichever comes first: a proper prefix is not a match, and the
    sense is the opposite of [strcmp]'s. *)
Theorem hw_strcmp_equality (str1 str2 : string) :
  (hw_strcmp str1 str2 = true <-> str1 = str2) /\
  hw_strcmp str1 str2 = hw_strcmp str2 str1.
Proof.
  split; [apply hw_strcmp_true_iff|].
  rewrite !hw_strcmp_eqb. apply String.eqb_sym.
Qed.

(** The maximal runs of [strtok_from], with the token being read taken into
    account. *)
Lemma strtok_from_tokens (delims : list ascii) (s : string) (cur : list ascii) :
  Forall (fun c => is_delimiter delims c = false) cur ->
  Forall (fun w => w <> EmptyString /\
                   Forall (fun c => is_delimiter delims c = false) (list_ascii_of_string w))
    (strtok_from delims s cur).
Proof.
  assert (Htok : forall cur, cur <> [] ->
            Forall (fun c => is_delimiter delims c = false) cur ->
            string_of_list_ascii (rev cur) <> EmptyString /\
            Forall (fun c => is_delimiter delims c = false)
              (list_ascii_of_string (string_of_list_ascii (rev cur)))).
  { intros l Hne Hl. split.
    - intros E. apply (f_equal list_ascii_of_string) in E.
      rewrite list_ascii_of_string_of_list_ascii in E. simpl in E.
      apply (f_equal (@rev ascii)) in E. rewrite rev_involutive in E. auto.
    - rewrite list_ascii_of_string_of_list_ascii. apply Forall_rev, Hl. }
  revert cur. induction s as [|c r IH]; intros cur Hcur; simpl.
  - destruct cur as [|a l]; [constructor|].
    constructor; [|constructor]. apply Htok; [discriminate | exact Hcur].
  - destruct (is_delimiter delims c) eqn:Ec.
    + destruct cur as [|a l]; [apply IH; constructor|].
      constructor; [apply Htok; [discriminate | exact Hcur] | apply IH; constructor].
    + apply IH. constructor; assumption.
Qed.

Lemma strtok_from_concat (delims : list ascii) (s : string) (cur : list ascii) :
  List.concat (map list_ascii_of_string (strtok_from delims s cur))
  = (rev cur ++ filter (fun c => negb (is_delimiter delims c)) (list_ascii_of_string s))%list.
Proof.
  revert cur. induction s as [|c r IH]; intros cur; simpl.
  - destruct cur as [|a l]; [reflexivity|].
    cbn [map List.concat]. rewrite list_ascii_of_string_of_list_ascii. reflexivity.
  - destruct (is_delimiter delims c) eqn:Ec; simpl.
    + destruct cur as [|a l]; [apply IH|].
      cbn [map List.concat]. rewrite list_ascii_of_string_of_list_ascii, IH. reflexivity.
    + rewrite IH. simpl. rewrite <- app_assoc. reflexivity.
Qed.

Lemma strtok_from_count (delims : list ascii) (s : string) (cur : list ascii) :
  (2 * List.length (strtok_from delims s cur)
   <= String.length s + match cur with [] => 1 | _ => 2 end)%nat.
Proof.
  revert cur. induction s as [|c r IH]; intros cur; simpl.
  - destruct cur; simpl; lia.
  - destruct (is_delimiter delims c).
    + destruct cur; [specialize (IH []); simpl in IH; lia|].
      specialize (IH []); simpl in *; lia.
    + specialize (IH (c :: cur)); simpl in IH. destruct cur; lia.
Qed.

(** A run of delimiters before a word is skipped, and the characters of a
    word are gathered up to the next delimiter. *)
Lemma strtok_from_delimiters (delims : list ascii) (d s : string) :
  Forall (fun c => is_delimiter delims c = true) (list_ascii_of_string d) ->
  strtok_from delims (d ++ s) [] = strtok_from delims s [].
Proof.
  induction d as [|c d IH]; simpl; intros H; [reflexivity|].
  inversion H as [|? ? Hc Hd]; subst. rewrite Hc. apply IH, Hd.
Qed.

Lemma strtok_from_word (delims : list ascii) (w s : string) :
  forall cur : list ascii,
    Forall (fun c => is_delimiter delims c = false) (list_ascii_of_string w) ->
    strtok_from delims (w ++ s) cur
    = strtok_from delims s (rev (list_ascii_of_string w) ++ cur).
Proof.
  induction w as [|c w IH]; simpl; intros cur H; [reflexivity|].
  inversion H as [|? ? Hc Hw]; subst. rewrite Hc, IH by exact Hw.
  rewrite <- app_assoc. reflexivity.
Qed.

Lemma strtok_from_last (delims : list ascii) (last : string) :
  forall cur : list ascii,
    Forall (fun c => is_delimiter delims c = false) (list_ascii_of_string last) ->
    strtok_from delims last cur
    = match (rev (list_ascii_of_string last) ++ cur)%list with
      | [] => []
      | l => [string_of_list_ascii (rev l)]
      end.
Proof.
  induction last as [|c r IH]; simpl; intros cur H; [destruct cur; reflexivity|].
  inversion H as [|? ? Hc Hr]; subst. rewrite Hc, IH by exact Hr.
  rewrite <- app_assoc. reflexivity.
Qed.

Lemma strtok_from_runs (delims : list ascii) (ws : list (string * string)) (last : string) :
  Forall (fun p =>
            fst p <> EmptyString /\
            Forall (fun c => is_delimiter delims c = false) (list_ascii_of_string (fst p)) /\
            snd p <> EmptyString /\
            Forall (fun c => is_delimiter delims c = true) (list_ascii_of_string (snd p))) ws ->
  Forall (fun c => is_delimiter delims c = false) (list_ascii_of_string last) ->
  strtok_from delims (words_and_separators ws last) []
  = (map fst ws ++ match last with EmptyString => [] | _ => [last] end)%list.
Proof.
  intros Hws Hlast. induction Hws as [|[w sep] ws (Hw & Hwc & Hsep & Hsepc) _ IH].
  - cbn [words_and_separators map app].
    rewrite strtok_from_last by exact Hlast. rewrite app_nil_r.
    destruct last as [|c r]; [reflexivity|].
    destruct (rev (list_ascii_of_string (String c r))) eqn:E.
    + apply (f_equal (@List.length ascii)) in E. rewrite length_rev in E. discriminate E.
    + rewrite <- E, rev_involutive, string_of_list_ascii_of_string. reflexivity.
  - cbn [words_and_separators map fst snd app] in *.
    rewrite strtok_from_word by exact Hwc. rewrite app_nil_r.
    destruct sep as [|c sep]; [contradiction|].
    inversion Hsepc as [|? ? Hc Hrest]; subst.
    cbn [append strtok_from]. rewrite Hc.
    destruct (rev (list_ascii_of_string w)) eqn:E.
    + destruct w; [contradiction|].
      apply (f_equal (@List.length ascii)) in E. rewrite length_rev in E. discriminate E.
    + rewrite <- E, rev_involutive, string_of_list_ascii_of_string.
      rewrite strtok_from_delimiters by exact Hrest. rewrite IH. reflexivity.
Qed.

(** X2: the words that the [strtok] loop hands out are the maximal runs of
    the string that hold no delimiter, in their order.  No word is empty, no
    word holds a delimiter, and the words put end to end are the string with
    its delimiters taken out; and the words begin and end where the runs do:
    for a string written as a run of delimiters (which may be empty), then
    words that are each followed by a run of delimiters that is not empty,
    then a last word (which may be missing), the loop hands out exactly
    those words and the last one, whatever the delimiters are. *)
Theorem strtok_all_runs (delims : list ascii) (s : string) :
  Forall (fun w => w <> EmptyString /\
                   Forall (fun c => is_delimiter delims c = false) (list_ascii_of_string w))
    (strtok_all delims s) /\
  List.concat (map list_ascii_of_string (strtok_all delims s))
  = filter (fun c => negb (is_delimiter delims c)) (list_ascii_of_string s) /\
  forall (lead : string) (ws : list (string * string)) (last : string),
    s = (lead ++ words_and_separators ws last)%string ->
    Forall (fun c => is_delimiter delims c = true) (list_ascii_of_string lead) ->
    Forall (fun p =>
              fst p <> EmptyString /\
              Forall (fun c => is_delimiter delims c = false) (list_ascii_of_string (fst p)) /\
              snd p <> EmptyString /\
              Forall (fun c => is_delimiter delims c = true) (list_ascii_of_string (snd p)))
      ws ->
    Forall (fun c => is_delimiter delims c = false) (list_ascii_of_string last) ->
    strtok_all delims s
    = (map fst ws ++ match last with EmptyString => [] | _ => [last] end)%list.
Proof.
  split; [apply strtok_from_tokens; constructor|].
  split; [apply (strtok_from_concat delims s [])|].
  intros lead ws last -> Hlead Hws Hlast. unfold strtok_all.
  rewrite strtok_from_delimiters by exact Hlead.
  apply strtok_from_runs; assumption.
Qed.

(** The statement [ SELECT a, (b);c]: a blank in front, three words that are
    followed by one, three and one delimiters, and a last word. *)
Lemma strtok_all_runs_witness :
  word_array_of " SELECT a, (b);c" = ["SELECT"; "a"; "b"; "c"]%string.
Proof.
  refine (proj2 (proj2 (strtok_all_runs query_delimiters " SELECT a, (b);c")) " "%string
            [("SELECT", " "); ("a", ", ("); ("b", ");")]%string "c"%string eq_refl _ _ _).
  - repeat constructor.
  - repeat constructor; discriminate.
  - repeat constructor.
Defined.

(** X3: a query string of [n] characters gives at most [(n + 1) / 2] words,
    so the array of [n + 1] pointers that [sw_stack_for_hw] allocates for
    them (line 2223) is never written past its end. *)
Theorem word_array_fits (query_string : string) :
  (2 * List.length (word_array_of query_string) <= String.length query_string + 1)%nat /\
  (List.length (word_array_of query_string) < String.length query_string + 1)%nat.
Proof.
  pose proof (strtok_from_count query_delimiters query_string []) as H.
  unfold word_array_of, strtok_all. simpl in H. lia.
Qed.

(** ** Keyword tables *)

(** The tests of a keyword table, taken one after the other. *)
Ltac split_hw_strcmp :=
  repeat match goal with
  | |- context [if hw_strcmp ?a ?b then _ else _] =>
      let E := fresh "E" in
      destruct (hw_strcmp a b) eqn:E;
      [apply hw_strcmp_true_iff in E |
       assert (a <> b) by (intros ->; rewrite (proj2 (hw_strcmp_true_iff b b) eq_refl) in E;
                           discriminate E); clear E]
  end.

(** X4: [hw_queryhashmap] changes the cluster on the six keywords only,
    spelled exactly and in upper case, and then the new cluster does not
    depend on the old one; any other word leaves the cluster as it is, and
    no word brings the cluster back to [NONE]. *)
Theorem hw_queryhashmap_cluster (str : string) (query_cluster : Z) :
  (In str ["SELECT"; "FROM"; "WHERE"; "GROUP_BY"; "ORDER_BY"; "AS"]%string ->
   SELECT <= hw_queryhashmap str query_cluster <= AS /\
   hw_queryhashmap str query_cluster = hw_queryhashmap str NONE) /\
  (~ In str ["SELECT"; "FROM"; "WHERE"; "GROUP_BY"; "ORDER_BY"; "AS"]%string ->
   hw_queryhashmap str query_cluster = query_cluster) /\
  (hw_queryhashmap str query_cluster = NONE -> query_cluster = NONE).
Proof.
  unfold hw_queryhashmap. split; [|split].
  - intros Hin. split_hw_strcmp; subst; try (split; [unfold SELECT, FROM, WHERE, GROUP_BY, ORDER_BY, AS; lia | reflexivity]).
    exfalso. simpl in Hin. intuition congruence.
  - intros Hnot. split_hw_strcmp; subst; try reflexivity; exfalso; apply Hnot; simpl; tauto.
  - split_hw_strcmp; try discriminate. trivial.
Qed.

(** ** Feature extractor *)

(** X5: a [WHERE] word that has three words after it always sets the filter
    flag and takes the third word as the filter value; the filter operation
    is [NONE] exactly when the second word is none of [>], [>=], [==], [<]
    and [<=] (the SQL operators [=] and [<>] among them); the support flag,
    the operation and the aggregate flag are left alone. *)
Theorem where_case_sets_filter (atof : string -> float) (word_array : list string) (i : nat)
    (info : operation_info) (w1 w2 w3 : string) :
  nth_error word_array (i + 1) = Some w1 ->
  nth_error word_array (i + 2) = Some w2 ->
  nth_error word_array (i + 3) = Some w3 ->
  exists info',
    where_case atof word_array i info = Continue (i + 4) info' /\
    filter_flag info' = true /\
    filter_value info' = atof w3 /\
    (filter_operation info' = NONE <-> ~ In w2 [">"; ">="; "=="; "<"; "<="]%string) /\
    hw_support info' = hw_support info /\ hw_operation info' = hw_operation info /\
    aggr_flag info' = aggr_flag info.
Proof.
  intros H1 H2 H3. unfold where_case, rd_word. rewrite H1, H2, H3.
  destruct (split_table_col w1 (filter_table_name info) (filter_col_name info)) as [t c].
  eexists. split; [reflexivity|]. cbn [filter_flag filter_value filter_operation hw_support
    hw_operation aggr_flag set_filter].
  repeat split; try reflexivity.
  - unfold hw_filterhashmap. split_hw_strcmp; try discriminate.
    intros _ Hin. simpl in Hin. intuition congruence.
  - unfold hw_filterhashmap. intros Hnot.
    split_hw_strcmp; subst; try reflexivity; exfalso; apply Hnot; simpl; tauto.
Qed.

Lemma where_case_sets_filter_witness :
  exists info',
    where_case (fun _ => 0.5%float)
      ["SELECT"; "COUNT"; "t.c"; "WHERE"; "t.c"; "="; "0.5"]%string 3 init_operation_info
    = Continue 7 info' /\
    filter_flag info' = true /\ filter_operation info' = NONE.
Proof.
  destruct (where_case_sets_filter (fun _ => 0.5%float)
              ["SELECT"; "COUNT"; "t.c"; "WHERE"; "t.c"; "="; "0.5"]%string 3 init_operation_info
              "t.c" "=" "0.5" eq_refl eq_refl eq_refl)
    as (info' & Hstep & Hflag & _ & Hop & _).
  exists info'. split; [exact Hstep|]. split; [exact Hflag|].
  apply Hop. simpl. intros H. repeat (destruct H as [H|H]; [discriminate H|]). exact H.
Defined.

Lemma hw_queryhashmap_select (w : string) (query_cluster : Z) :
  hw_queryhashmap w query_cluster = SELECT -> w = "SELECT"%string \/ query_cluster = SELECT.
Proof.
  unfold hw_queryhashmap.
  destruct (hw_strcmp w "SELECT") eqn:E; [left; apply hw_strcmp_true_iff, E|].
  repeat match goal with
  | |- context [if hw_strcmp ?a ?b then _ else _] => destruct (hw_strcmp a b)
  end; try discriminate. right; assumption.
Qed.

Lemma extract_loop_no_select (ophash_unmatched : string -> Z) (atof : string -> float)
    (word_array : list string) (fuel : nat) :
  ~ In "SELECT"%string word_array ->
  forall (i : nat) (query_cluster : Z) (inhib : nat) (info : operation_info),
    query_cluster <> SELECT -> hw_support info = false ->
    match extract_loop ophash_unmatched atof fuel word_array i query_cluster inhib info with
    | Finished info' _ => hw_support info' = false
    | _ => True
    end.
Proof.
  intros Hno. induction fuel as [|fuel IH]; intros i qc inhib info Hqc Hs; simpl.
  - destruct (i <? List.length word_array)%nat; [exact I | exact Hs].
  - destruct (i <? List.length word_array)%nat; [|exact Hs].
    unfold extract_step, rd_word.
    destruct (nth_error word_array i) as [w|] eqn:Ew; [|exact I].
    assert (Hqc' : hw_queryhashmap w qc <> SELECT).
    { intros E. apply hw_queryhashmap_select in E as [E|E]; [|contradiction].
      apply Hno. rewrite <- E. eapply nth_error_In, Ew. }
    set (qc' := hw_queryhashmap w qc) in *.
    assert (Hstep : forall i' info', hw_support info' = false ->
              match (if (20 <? S inhib)%nat then Finished info' (S inhib)
                     else extract_loop ophash_unmatched atof fuel word_array i' qc' (S inhib) info')
              with Finished info'' _ => hw_support info'' = false | _ => True end).
    { intros i' info' Hs'. destruct (20 <? S inhib)%nat; [exact Hs'|]. apply IH; assumption. }
    destruct (qc' =? NONE).
    { destruct (i =? 0)%nat; [reflexivity|]. apply Hstep. reflexivity. }
    destruct (Z.eqb_spec qc' SELECT); [contradiction|].
    destruct (qc' =? FROM).
    { unfold from_case. rewrite Hs. simpl. apply Hstep, Hs. }
    destruct (qc' =? WHERE).
    { unfold where_case.
      destruct (rd_word word_array (i + 1)); [|exact I].
      destruct (rd_word word_array (i + 2)); [|exact I].
      destruct (rd_word word_array (i + 3)); [|exact I].
      destruct (split_table_col _ _ _). apply Hstep. exact Hs. }
    destruct (qc' =? GROUP_BY); [apply Hstep; reflexivity|].
    destruct (qc' =? ORDER_BY); [apply Hstep; reflexivity|].
    apply Hstep, Hs.
Qed.

(** X6: a statement none of whose words is [SELECT] (in upper case) is never
    reported as supported: from a profile that is not supported the
    extractor either ends with a profile that is not supported or runs off
    the word array. *)
Theorem no_select_not_supported (ophash_unmatched : string -> Z) (atof : string -> float)
    (word_array : list string) (info : operation_info) :
  ~ In "SELECT"%string word_array ->
  hw_support info = false ->
  match extract_operation_info ophash_unmatched atof 21 word_array info with
  | Finished info' _ => hw_support info' = false
  | Faulted _ => True
  | OutOfFuel => False
  end.
Proof.
  intros Hno Hs. unfold extract_operation_info.
  pose proof (extract_loop_no_select ophash_unmatched atof word_array 21 Hno 0 0 0 info
                ltac:(discriminate) Hs) as H1.
  pose proof (extract_loop_bounded ophash_unmatched atof word_array 21 0 0 0 info
                ltac:(lia) ltac:(lia)) as H2.
  destruct (extract_loop ophash_unmatched atof 21 word_array 0 0 0 info); auto.
Qed.

Lemma no_select_not_supported_witness :
  match extract_operation_info (fun _ => 0) (fun _ => 0%float) 21
          ["select"; "madlib.svm_predict"; "m"; "d"; "id"; "out"]%string init_operation_info with
  | Finished info' _ => hw_support info' = false
  | Faulted _ => True
  | OutOfFuel => False
  end.
Proof.
  apply no_select_not_supported.
  - simpl. intros H. repeat (destruct H as [H|H]; [discriminate H|]). exact H.
  - reflexivity.
Defined.

Lemma extract_step_group_by (ophash_unmatched : string -> Z) (atof : string -> float)
    (word_array : list string) (w : string) (i : nat) (query_cluster : Z)
    (info : operation_info) :
  nth_error word_array i = Some w ->
  w = "GROUP_BY"%string \/ w = "ORDER_BY"%string ->
  exists query_cluster',
    extract_step ophash_unmatched atof word_array i query_cluster info
    = (query_cluster', Continue i (set_hw_support false info)).
Proof.
  intros Hw Hkw. unfold extract_step, rd_word. rewrite Hw.
  destruct Hkw as [-> | ->]; eexists; reflexivity.
Qed.

(** X7: when the word under the index is [GROUP_BY] or [ORDER_BY] the loop
    never leaves it: whatever the cluster, the pass count (at most 20) and
    the profile, the remaining passes are all spent on that word, the loop
    ends on the cap at 21 passes, and the profile is the one of that moment
    with the support flag cleared; the words after it are not looked at. *)
Theorem group_by_token_spins (ophash_unmatched : string -> Z) (atof : string -> float)
    (word_array : list string) (w : string) (fuel i : nat) (query_cluster : Z) (inhib : nat)
    (info : operation_info) :
  nth_error word_array i = Some w ->
  w = "GROUP_BY"%string \/ w = "ORDER_BY"%string ->
  (inhib <= 20)%nat -> (21 <= inhib + fuel)%nat ->
  extract_loop ophash_unmatched atof fuel word_array i query_cluster inhib info
  = Finished (set_hw_support false info) 21.
Proof.
  intros Hw Hkw. revert query_cluster inhib info.
  assert (Hi : (i <? List.length word_array)%nat = true).
  { apply Nat.ltb_lt, nth_error_Some. rewrite Hw. discriminate. }
  induction fuel as [|fuel IH]; intros qc inhib info Hin Hfuel; [lia|].
  cbn [extract_loop]. rewrite Hi.
  destruct (extract_step_group_by ophash_unmatched atof word_array w i qc info Hw Hkw)
    as [qc' ->].
  destruct (Nat.ltb_spec 20 (S inhib)) as [Hlt|Hge].
  - replace (S inhib) with 21%nat by lia. reflexivity.
  - rewrite IH by lia. reflexivity.
Qed.

Lemma group_by_token_spins_witness :
  extract_loop (fun _ => 0) (fun _ => 0%float) 21
    ["SELECT"; "COUNT"; "t.c"; "ORDER_BY"; "x"]%string 3 SELECT 1
    (set_aggr true COUNT (Some "t") (Some "c") init_operation_info)%string
  = Finished (set_hw_support false
                (set_aggr true COUNT (Some "t") (Some "c") init_operation_info)%string) 21.
Proof.
  apply (group_by_token_spins _ _ _ "ORDER_BY"%string); [reflexivity | right; reflexivity | lia | lia].
Defined.

Lemma scan_array_stops (cols : list string) (stop : string) (rest : list string) :
  Forall (fun w => w <> "FROM"%string /\ w <> "ARRAY"%string) cols ->
  stop = "FROM"%string \/ stop = "ARRAY"%string ->
  scan_array (cols ++ stop :: rest) = Some (List.length cols).
Proof.
  intros Hcols Hstop. induction Hcols as [|w cols [Hf Ha] _ IH]; simpl.
  - destruct Hstop as [-> | ->]; reflexivity.
  - destruct (hw_strcmp w "FROM") eqn:E1; [apply hw_strcmp_true_iff in E1; contradiction|].
    destruct (hw_strcmp w "ARRAY") eqn:E2; [apply hw_strcmp_true_iff in E2; contradiction|].
    simpl. rewrite IH. reflexivity.
Qed.

(** A word that fits its block of 25 bytes fits a name block of 30 bytes. *)
Lemma word_fits_name (w : string) :
  (String.length w < WORD_BYTES)%nat -> fits MAX_NAME_LEN w = true.
Proof. unfold fits, WORD_BYTES, MAX_NAME_LEN. intros H. apply Nat.ltb_lt. lia. Qed.

Lemma words_fit_names (ws : list string) :
  words_fit ws -> forallb (fits MAX_NAME_LEN) ws = true.
Proof.
  intros H. apply forallb_forall. intros w Hw. apply word_fits_name.
  unfold words_fit in H. rewrite Forall_forall in H. apply H, Hw.
Qed.

Lemma rd_name_fits (word_array : list string) (i : nat) (w : string) :
  nth_error word_array i = Some w -> (String.length w < WORD_BYTES)%nat ->
  rd_name word_array i = Some w.
Proof.
  intros H Hl. unfold rd_name, rd_word. rewrite H, (word_fits_name w Hl). reflexivity.
Qed.

Lemma words_fit_app (ws1 ws2 : list string) :
  words_fit (ws1 ++ ws2) <-> words_fit ws1 /\ words_fit ws2.
Proof. apply Forall_app. Qed.

Lemma words_fit_cons (w : string) (ws : list string) :
  words_fit (w :: ws) <-> (String.length w < WORD_BYTES)%nat /\ words_fit ws.
Proof. apply Forall_cons_iff. Qed.

Lemma read_column_list_array (before cols : list string) (stop : string) (rest : list string) :
  Forall (fun w => w <> "FROM"%string /\ w <> "ARRAY"%string) cols ->
  words_fit cols ->
  stop = "FROM"%string \/ stop = "ARRAY"%string ->
  read_column_list (before ++ "ARRAY"%string :: cols ++ stop :: rest) (List.length before)
  = Some ((List.length before + (1 + List.length cols))%nat, Some cols).
Proof.
  intros Hcols Hfit Hstop. unfold read_column_list.
  rewrite nth_error_app2 by lia. rewrite Nat.sub_diag. cbn [nth_error].
  change (hw_strcmp "ARRAY" "ARRAY") with true. cbv iota.
  replace (skipn (List.length before + 1) (before ++ "ARRAY"%string :: cols ++ stop :: rest))
    with (cols ++ stop :: rest).
  2:{ rewrite skipn_app. rewrite (skipn_all2 before) by lia.
      replace (List.length before + 1 - List.length before)%nat with 1%nat by lia. reflexivity. }
  rewrite (scan_array_stops cols stop rest Hcols Hstop). cbv zeta.
  rewrite firstn_app, Nat.sub_diag, firstn_all. simpl firstn. rewrite app_nil_r.
  rewrite (words_fit_names cols Hfit). reflexivity.
Qed.

(** The passes of the loop on the words of a well-formed statement. *)
Section ExtractorSteps.

Variable ophash_unmatched : string -> Z.
Variable atof : string -> float.

(** One pass of the loop that ends in [break], below the cap. *)
Lemma extract_loop_pass (fuel : nat) (word_array : list string) (i : nat) (query_cluster : Z)
    (inhib : nat) (info : operation_info) (query_cluster' : Z) (i' : nat)
    (info' : operation_info) :
  (i < List.length word_array)%nat -> (S inhib <= 20)%nat ->
  extract_step ophash_unmatched atof word_array i query_cluster info
  = (query_cluster', Continue i' info') ->
  extract_loop ophash_unmatched atof (S fuel) word_array i query_cluster inhib info
  = extract_loop ophash_unmatched atof fuel word_array i' query_cluster' (S inhib) info'.
Proof.
  intros Hi Hcap Hstep. cbn [extract_loop].
  apply Nat.ltb_lt in Hi. rewrite Hi, Hstep.
  destruct (Nat.ltb_spec 20 (S inhib)); [lia | reflexivity].
Qed.

(** The loop at the end of the words. *)
Lemma extract_loop_end (fuel : nat) (word_array : list string) (i : nat) (query_cluster : Z)
    (inhib : nat) (info : operation_info) :
  (List.length word_array <= i)%nat ->
  extract_loop ophash_unmatched atof fuel word_array i query_cluster inhib info
  = Finished info inhib.
Proof.
  intros Hi. apply Nat.ltb_ge in Hi. destruct fuel; cbn [extract_loop]; rewrite Hi; reflexivity.
Qed.

(** A pass that ends in [return], and a pass that reads outside the word
    array. *)
Lemma extract_loop_return (fuel : nat) (word_array : list string) (i : nat) (query_cluster : Z)
    (inhib : nat) (info : operation_info) (query_cluster' : Z) (info' : operation_info) :
  (i < List.length word_array)%nat ->
  extract_step ophash_unmatched atof word_array i query_cluster info
  = (query_cluster', Return info') ->
  extract_loop ophash_unmatched atof (S fuel) word_array i query_cluster inhib info
  = Finished info' (S inhib).
Proof.
  intros Hi Hstep. cbn [extract_loop]. apply Nat.ltb_lt in Hi. rewrite Hi, Hstep. reflexivity.
Qed.

Lemma extract_loop_fault (fuel : nat) (word_array : list string) (i : nat) (query_cluster : Z)
    (inhib : nat) (info : operation_info) (query_cluster' : Z) :
  (i < List.length word_array)%nat ->
  extract_step ophash_unmatched atof word_array i query_cluster info
  = (query_cluster', MemFault) ->
  extract_loop ophash_unmatched atof (S fuel) word_array i query_cluster inhib info
  = Faulted (S inhib).
Proof.
  intros Hi Hstep. cbn [extract_loop]. apply Nat.ltb_lt in Hi. rewrite Hi, Hstep. reflexivity.
Qed.

(** The pass on a [SELECT] word: the cluster and the case. *)
Lemma extract_step_select (word_array : list string) (i : nat) (query_cluster : Z)
    (info : operation_info) :
  nth_error word_array i = Some "SELECT"%string ->
  extract_step ophash_unmatched atof word_array i query_cluster info
  = (SELECT, select_case ophash_unmatched word_array i info).
Proof.
  intros W0. unfold extract_step, rd_word. rewrite W0. cbv zeta.
  assert (Hq : hw_queryhashmap "SELECT" query_cluster = SELECT) by reflexivity.
  rewrite Hq. reflexivity.
Qed.

(** The word after [SELECT] for which [hw_ophashmap] does not answer [NONE]:
    the case marks the profile as supported with the answer as its
    operation, leaves the two flags alone and does not return; it goes on or
    faults. *)
Lemma select_case_operation (word_array : list string) (i : nat) (info : operation_info)
    (w1 : string) :
  nth_error word_array (i + 1) = Some w1 ->
  hw_ophashmap ophash_unmatched w1 <> NONE ->
  match select_case ophash_unmatched word_array i info with
  | Continue _ info' =>
      hw_support info' = true /\ hw_operation info' = hw_ophashmap ophash_unmatched w1 /\
      aggr_flag info' = aggr_flag info /\ filter_flag info' = filter_flag info
  | Return _ => False
  | MemFault => True
  end.
Proof.
  intros W1 Hop. unfold select_case, rd_word. rewrite W1. cbv zeta.
  destruct (Z.eqb_spec (hw_ophashmap ophash_unmatched w1) NONE) as [E|_]; [contradiction|].
  cbn [negb].
  destruct ((hw_ophashmap ophash_unmatched w1 =? LINREGR)
            || (hw_ophashmap ophash_unmatched w1 =? LOGREGR)).
  { destruct (read_column_list word_array (i + 2)) as [[i1 model_cols]|]; [|exact I].
    destruct (read_column_list word_array i1) as [[i2 data_cols]|]; [|exact I].
    destruct model_cols, data_cols; repeat split. }
  destruct ((hw_ophashmap ophash_unmatched w1 =? SVM)
            || (hw_ophashmap ophash_unmatched w1 =? MLP)
            || (hw_ophashmap ophash_unmatched w1 =? TREE)); [|repeat split].
  destruct (rd_name word_array (i + 2)); [|exact I].
  destruct (rd_name word_array (i + 3)); [|exact I].
  destruct ((hw_ophashmap ophash_unmatched w1 =? SVM)
            || (hw_ophashmap ophash_unmatched w1 =? MLP)).
  - destruct (rd_name word_array (i + 4)); [|exact I].
    destruct (rd_name word_array (i + 5)); [|exact I]. repeat split.
  - destruct (rd_name word_array (i + 4)); [|exact I]. repeat split.
Qed.

(** The case on the name of one of the other three functions. *)
Lemma select_case_predict (word_array : list string) (i : nat) (info : operation_info)
    (name : string) (op : Z) :
  nth_error word_array (i + 1) = Some name ->
  hw_ophashmap ophash_unmatched name = op ->
  op = SVM \/ op = MLP \/ op = TREE ->
  select_case ophash_unmatched word_array i info
  = match rd_name word_array (i + 2), rd_name word_array (i + 3) with
    | Some model, Some data =>
        let info := set_tables model data (set_hw_operation op (set_hw_support true info)) in
        if (op =? SVM) || (op =? MLP) then
          match rd_name word_array (i + 4), rd_name word_array (i + 5) with
          | Some id, Some out =>
              Continue (if op =? MLP then (i + 7)%nat else (i + 6)%nat)
                (set_output_table_name out (set_id_col_name id info))
          | _, _ => MemFault
          end
        else
          match rd_name word_array (i + 4) with
          | Some out => Continue (i + 6)%nat (set_output_table_name out info)
          | None => MemFault
          end
    | _, _ => MemFault
    end.
Proof.
  intros W1 Hop Hor. unfold select_case, rd_word at 1. rewrite W1. cbv zeta. rewrite Hop.
  destruct Hor as [-> | [-> | ->]]; reflexivity.
Qed.

(** The pass on the [SELECT] word of a linear regression. *)
Lemma extract_step_regression (before : list string)
    (model_cols data_cols rest : list string) (query_cluster : Z) (info : operation_info) :
  Forall (fun w => w <> "FROM"%string /\ w <> "ARRAY"%string) model_cols ->
  Forall (fun w => w <> "FROM"%string /\ w <> "ARRAY"%string) data_cols ->
  words_fit model_cols -> words_fit data_cols ->
  extract_step ophash_unmatched atof
    (before ++ ["SELECT"; "madlib.linregr_predict"; "ARRAY"]%string ++ model_cols
       ++ ["ARRAY"%string] ++ data_cols ++ "FROM"%string :: rest)
    (List.length before) query_cluster info
  = (SELECT,
     Continue (List.length before + 4 + List.length model_cols + List.length data_cols)
       (set_data_col data_cols
          (set_model_col model_cols
             (set_hw_operation LINREGR (set_hw_support true info))))).
Proof.
  intros Hm Hd Hmfit Hdfit.
  set (wa := (before ++ ["SELECT"; "madlib.linregr_predict"; "ARRAY"]%string ++ model_cols
                ++ ["ARRAY"%string] ++ data_cols ++ "FROM"%string :: rest)%list).
  set (n := List.length before).
  assert (W0 : nth_error wa n = Some "SELECT"%string).
  { unfold wa, n. rewrite nth_error_app2 by lia. rewrite Nat.sub_diag. reflexivity. }
  assert (W1 : rd_word wa (n + 1) = Some "madlib.linregr_predict"%string).
  { unfold rd_word, wa, n. rewrite nth_error_app2 by lia.
    replace (List.length before + 1 - List.length before)%nat with 1%nat by lia. reflexivity. }
  assert (R1 : read_column_list wa (n + 2)
               = Some ((n + 2 + (1 + List.length model_cols))%nat, Some model_cols)).
  { pose proof (read_column_list_array (before ++ ["SELECT"; "madlib.linregr_predict"]%string)
                  model_cols "ARRAY" (data_cols ++ "FROM"%string :: rest) Hm Hmfit
                  (or_intror eq_refl)) as H.
    rewrite length_app in H. cbn [List.length] in H. fold n in H.
    rewrite <- app_assoc in H. exact H. }
  assert (R2 : read_column_list wa (n + 2 + (1 + List.length model_cols))
               = Some ((n + 2 + (1 + List.length model_cols) + (1 + List.length data_cols))%nat,
                       Some data_cols)).
  { pose proof (read_column_list_array
                  (before ++ ["SELECT"; "madlib.linregr_predict"; "ARRAY"]%string ++ model_cols)
                  data_cols "FROM" rest Hd Hdfit (or_introl eq_refl)) as H.
    rewrite !length_app in H. cbn [List.length] in H. fold n in H.
    rewrite <- !app_assoc in H.
    replace (n + (3 + List.length model_cols))%nat
      with (n + 2 + (1 + List.length model_cols))%nat in H by lia.
    exact H. }
  rewrite (extract_step_select wa n query_cluster info W0).
  unfold select_case. rewrite W1. cbv zeta.
  change (hw_ophashmap ophash_unmatched "madlib.linregr_predict") with LINREGR.
  change (negb (LINREGR =? NONE)) with true.
  change ((LINREGR =? LINREGR) || (LINREGR =? LOGREGR)) with true. cbv iota.
  rewrite R1, R2. do 2 f_equal. lia.
Qed.

(** The pass on the [FROM] word that follows, for a supported regression
    profile. *)
Lemma extract_step_from (word_array : list string) (i : nat) (model data : string)
    (query_cluster : Z) (info : operation_info) :
  nth_error word_array i = Some "FROM"%string ->
  nth_error word_array (i + 1) = Some model ->
  nth_error word_array (i + 2) = Some data ->
  (String.length model < WORD_BYTES)%nat -> (String.length data < WORD_BYTES)%nat ->
  hw_support info = true ->
  hw_operation info = LINREGR \/ hw_operation info = LOGREGR ->
  extract_step ophash_unmatched atof word_array i query_cluster info
  = (FROM, Continue (i + 3) (set_tables model data info)).
Proof.
  intros W0 W1 W2 F1 F2 Hs Hop. unfold extract_step, rd_word. rewrite W0. cbv zeta.
  assert (Hq : hw_queryhashmap "FROM" query_cluster = FROM) by reflexivity.
  rewrite Hq. change (FROM =? NONE) with false. change (FROM =? SELECT) with false.
  change (FROM =? FROM) with true. cbv iota.
  unfold from_case.
  rewrite (rd_name_fits _ _ _ W1 F1), (rd_name_fits _ _ _ W2 F2), Hs.
  destruct Hop as [-> | ->]; reflexivity.
Qed.

(** The pass on a [WHERE] word. *)
Lemma extract_step_where (word_array : list string) (i : nat) (w1 w2 w3 : string)
    (query_cluster : Z) (info : operation_info) :
  nth_error word_array i = Some "WHERE"%string ->
  nth_error word_array (i + 1) = Some w1 ->
  nth_error word_array (i + 2) = Some w2 ->
  nth_error word_array (i + 3) = Some w3 ->
  extract_step ophash_unmatched atof word_array i query_cluster info
  = (WHERE,
     Continue (i + 4)
       (set_filter true (hw_filterhashmap w2)
          (fst (split_table_col w1 (filter_table_name info) (filter_col_name info)))
          (snd (split_table_col w1 (filter_table_name info) (filter_col_name info)))
          (atof w3) info)).
Proof.
  intros W0 W1 W2 W3. unfold extract_step, rd_word. rewrite W0. cbv zeta.
  assert (Hq : hw_queryhashmap "WHERE" query_cluster = WHERE) by reflexivity.
  rewrite Hq. change (WHERE =? NONE) with false. change (WHERE =? SELECT) with false.
  change (WHERE =? FROM) with false. change (WHERE =? WHERE) with true. cbv iota.
  unfold where_case, rd_word. rewrite W1, W2, W3.
  destruct (split_table_col w1 (filter_table_name info) (filter_col_name info)). reflexivity.
Qed.

(** A query string that holds a word too long for its block does not reach
    the extractor. *)
Lemma extract_from_query_long_word (fuel : nat) (query_string w : string) :
  In w (word_array_of query_string) -> fits WORD_BYTES w = false ->
  extract_from_query ophash_unmatched atof fuel query_string = Faulted 0.
Proof.
  intros Hin Hlong. unfold extract_from_query. cbv zeta.
  destruct (forallb (fits WORD_BYTES) (word_array_of query_string)) eqn:E; [|reflexivity].
  rewrite forallb_forall in E. rewrite (E w Hin) in Hlong. discriminate Hlong.
Qed.

End ExtractorSteps.

(** X8: the extractor recovers a linear regression statement of the shape
    [SELECT madlib.linregr_predict(ARRAY[m1..], ARRAY[d1..]) FROM model,
    data], for any two column lists and table names whose words fit their
    blocks of 25 bytes: in two passes it ends with the support flag set, the
    operation [LINREGR], the two column lists with their lengths, and the
    two table names, model first, and the classifier gives Q1.  With [WHERE
    col op value] after it the extractor makes a third pass that records the
    filter, and the class is Q2.  The same statement of the logistic
    regression is not read at all: the name [madlib.logregr_predict_prob]
    has 27 characters, and the copy of that word into its block of 25 bytes
    writes past the block before the extractor is called. *)
Theorem extract_regression_statement (ophash_unmatched : string -> Z) (atof : string -> float)
    (model_cols data_cols : list string) (model data : string)
    (filter_col filter_op filter_val : string) :
  Forall (fun w => w <> "FROM"%string /\ w <> "ARRAY"%string) model_cols ->
  Forall (fun w => w <> "FROM"%string /\ w <> "ARRAY"%string) data_cols ->
  words_fit (model_cols ++ data_cols ++ [model; data; filter_col; filter_op; filter_val]) ->
  let statement :=
    (["SELECT"; "madlib.linregr_predict"; "ARRAY"]%string ++ model_cols
       ++ ["ARRAY"%string] ++ data_cols ++ ["FROM"%string; model; data])%list in
  let info :=
    set_tables model data
      (set_data_col data_cols
         (set_model_col model_cols
            (set_hw_operation LINREGR (set_hw_support true init_operation_info)))) in
  let filtered :=
    set_filter true (hw_filterhashmap filter_op)
      (fst (split_table_col filter_col None None))
      (snd (split_table_col filter_col None None)) (atof filter_val) info in
  extract_operation_info ophash_unmatched atof 21 statement init_operation_info
  = Finished info 2 /\
  extract_operation_info ophash_unmatched atof 21
    (statement ++ ["WHERE"%string; filter_col; filter_op; filter_val]) init_operation_info
  = Finished filtered 3 /\
  hw_support info = true /\ hw_operation info = LINREGR /\
  model_col_name info = model_cols /\
  model_col_len info = Z.of_nat (List.length model_cols) /\
  data_col_name info = data_cols /\
  data_col_len info = Z.of_nat (List.length data_cols) /\
  model_table_name info = Some model /\ data_table_name info = Some data /\
  get_query_num info = Q1 /\ get_query_num filtered = Q2 /\
  (forall (fuel : nat) (query_string : string),
      In "madlib.logregr_predict_prob"%string (word_array_of query_string) ->
      extract_from_query ophash_unmatched atof fuel query_string = Faulted 0).
Proof.
  intros Hm Hd Hfit. cbv zeta.
  apply words_fit_app in Hfit as [Hmfit Hfit]. apply words_fit_app in Hfit as [Hdfit Hfit].
  apply words_fit_cons in Hfit as [Fmodel Hfit]. apply words_fit_cons in Hfit as [Fdata _].
  set (info1 := set_data_col data_cols
                  (set_model_col model_cols
                     (set_hw_operation LINREGR (set_hw_support true init_operation_info)))).
  set (i2 := (4 + List.length model_cols + List.length data_cols)%nat).
  assert (Hmid : forall rest,
            extract_loop ophash_unmatched atof 21
              (["SELECT"; "madlib.linregr_predict"; "ARRAY"]%string ++ model_cols
                 ++ ["ARRAY"%string] ++ data_cols ++ ["FROM"%string; model; data] ++ rest)
              0 0 0 init_operation_info
            = extract_loop ophash_unmatched atof 19
                (["SELECT"; "madlib.linregr_predict"; "ARRAY"]%string ++ model_cols
                   ++ ["ARRAY"%string] ++ data_cols ++ ["FROM"%string; model; data] ++ rest)
                (i2 + 3) FROM 2 (set_tables model data info1)).
  { intros rest.
    set (wa := (["SELECT"; "madlib.linregr_predict"; "ARRAY"]%string ++ model_cols
                 ++ ["ARRAY"%string] ++ data_cols ++ ["FROM"%string; model; data] ++ rest)%list).
    assert (Hwa : wa = ((["SELECT"; "madlib.linregr_predict"; "ARRAY"]%string ++ model_cols
                           ++ ["ARRAY"%string] ++ data_cols)
                          ++ ["FROM"%string; model; data] ++ rest)%list)
      by (unfold wa; rewrite <- !app_assoc; reflexivity).
    assert (Hpre : List.length (["SELECT"; "madlib.linregr_predict"; "ARRAY"]%string
                                  ++ model_cols ++ ["ARRAY"%string] ++ data_cols) = i2)
      by (unfold i2; repeat (rewrite ?length_app; simpl); lia).
    assert (Hlen : (i2 + 3 <= List.length wa)%nat)
      by (rewrite Hwa, length_app, Hpre; simpl; lia).
    rewrite (extract_loop_pass ophash_unmatched atof 20 wa 0 0 0 init_operation_info
               SELECT i2 info1); [|lia|lia|].
    2:{ exact (extract_step_regression ophash_unmatched atof [] model_cols
                 data_cols ([model; data] ++ rest) 0 init_operation_info Hm Hd Hmfit Hdfit). }
    apply extract_loop_pass; [lia|lia|].
    apply extract_step_from; try assumption; try reflexivity.
    - rewrite Hwa, nth_error_app2 by lia. rewrite Hpre, Nat.sub_diag. reflexivity.
    - rewrite Hwa, nth_error_app2 by lia. rewrite Hpre.
      replace (i2 + 1 - i2)%nat with 1%nat by lia. reflexivity.
    - rewrite Hwa, nth_error_app2 by lia. rewrite Hpre.
      replace (i2 + 2 - i2)%nat with 2%nat by lia. reflexivity.
    - left; reflexivity. }
  assert (Hlen0 : List.length (["SELECT"; "madlib.linregr_predict"; "ARRAY"]%string
                     ++ model_cols ++ ["ARRAY"%string] ++ data_cols
                     ++ ["FROM"%string; model; data])
                  = (i2 + 3)%nat)
    by (unfold i2; repeat (rewrite ?length_app; simpl); lia).
  split; [|split].
  - unfold extract_operation_info.
    pose proof (Hmid []) as H. rewrite !app_nil_r in H. rewrite H.
    apply extract_loop_end. rewrite Hlen0. lia.
  - unfold extract_operation_info.
    set (tail := ["WHERE"%string; filter_col; filter_op; filter_val]).
    replace ((["SELECT"; "madlib.linregr_predict"; "ARRAY"]%string ++ model_cols
                ++ ["ARRAY"%string] ++ data_cols ++ ["FROM"%string; model; data]) ++ tail)%list
      with (["SELECT"; "madlib.linregr_predict"; "ARRAY"]%string ++ model_cols
              ++ ["ARRAY"%string] ++ data_cols ++ ["FROM"%string; model; data] ++ tail)%list
      by (rewrite <- !app_assoc; reflexivity).
    rewrite Hmid.
    set (wa := (["SELECT"; "madlib.linregr_predict"; "ARRAY"]%string ++ model_cols
                 ++ ["ARRAY"%string] ++ data_cols ++ ["FROM"%string; model; data] ++ tail)%list).
    assert (Hwa : wa = ((["SELECT"; "madlib.linregr_predict"; "ARRAY"]%string ++ model_cols
                           ++ ["ARRAY"%string] ++ data_cols ++ ["FROM"%string; model; data])
                          ++ tail)%list)
      by (unfold wa; rewrite <- !app_assoc; reflexivity).
    assert (Hlen : List.length wa = (i2 + 7)%nat)
      by (rewrite Hwa, length_app, Hlen0; simpl; lia).
    rewrite (extract_loop_pass ophash_unmatched atof 18 wa (i2 + 3) FROM 2
               (set_tables model data info1) WHERE (i2 + 3 + 4)
               (set_filter true (hw_filterhashmap filter_op)
                  (fst (split_table_col filter_col None None))
                  (snd (split_table_col filter_col None None)) (atof filter_val)
                  (set_tables model data info1))); [|lia|lia|].
    + apply extract_loop_end. lia.
    + apply (extract_step_where ophash_unmatched atof wa (i2 + 3) filter_col filter_op filter_val).
      * rewrite Hwa, nth_error_app2 by lia. rewrite Hlen0, Nat.sub_diag. reflexivity.
      * rewrite Hwa, nth_error_app2 by lia. rewrite Hlen0.
        replace (i2 + 3 + 1 - (i2 + 3))%nat with 1%nat by lia. reflexivity.
      * rewrite Hwa, nth_error_app2 by lia. rewrite Hlen0.
        replace (i2 + 3 + 2 - (i2 + 3))%nat with 2%nat by lia. reflexivity.
      * rewrite Hwa, nth_error_app2 by lia. rewrite Hlen0.
        replace (i2 + 3 + 3 - (i2 + 3))%nat with 3%nat by lia. reflexivity.
  - repeat match goal with |- _ /\ _ => split end; try reflexivity.
    intros fuel query_string Hin.
    apply (extract_from_query_long_word ophash_unmatched atof fuel query_string
             "madlib.logregr_predict_prob" Hin).
    reflexivity.
Qed.

Lemma extract_regression_statement_witness :
  exists info,
    extract_from_query (fun _ => 0) (fun _ => 0.5%float) 21
      "SELECT madlib.linregr_predict(ARRAY[w1,w2,w3], ARRAY[1,x,y]) FROM model, points WHERE points.x >= 0.5;"
    = Finished info 3 /\
    hw_support info = true /\ hw_operation info = LINREGR /\
    model_col_name info = ["w1"; "w2"; "w3"]%string /\
    data_col_name info = ["1"; "x"; "y"]%string /\ data_col_len info = 3 /\
    model_table_name info = Some "model"%string /\
    data_table_name info = Some "points"%string /\
    filter_flag info = true /\ filter_operation info = LARGERSAME /\
    filter_table_name info = Some "points"%string /\ filter_col_name info = Some "x"%string /\
    get_query_num info = Q2.
Proof.
  eexists. split.
  - refine (proj1 (proj2 (extract_regression_statement (fun _ => 0) (fun _ => 0.5%float)
             ["w1"; "w2"; "w3"]%string ["1"; "x"; "y"]%string
             "model" "points" "points.x" ">=" "0.5" _ _ _))).
    + repeat constructor; discriminate.
    + repeat constructor; discriminate.
    + repeat constructor.
  - repeat split.
Defined.

(** X9: whether an aggregate is read as one rests on the value that
    [hw_ophashmap] answers for its name.  The name of an aggregate is none
    of the six names the function tests, so the answer is the value that C
    leaves indeterminate there.  On [SELECT agg(target) FROM (SELECT
    madlib.linregr_predict(ARRAY[..], ARRAY[..]) FROM model, data], with
    words that fit their blocks: when the answer is [NONE] the extractor
    ends after four passes with the aggregate and the regression both
    recorded, and the class is Q3; for any other answer the first pass does
    not record the aggregate: it marks the profile as supported with that
    answer as its operation and leaves the aggregate flag clear, or reads
    past the words. *)
Theorem extract_aggregate_statement (ophash_unmatched : string -> Z) (atof : string -> float)
    (aggregate target : string) (model_cols data_cols : list string)
    (model data : string) :
  In aggregate ["COUNT"; "MAX"; "MIN"; "AVG"; "SUM"]%string ->
  Forall (fun w => w <> "FROM"%string /\ w <> "ARRAY"%string) model_cols ->
  Forall (fun w => w <> "FROM"%string /\ w <> "ARRAY"%string) data_cols ->
  words_fit (target :: model_cols ++ data_cols ++ [model; data]) ->
  let statement :=
    (["SELECT"; aggregate; target; "FROM"; "SELECT"; "madlib.linregr_predict"; "ARRAY"]%string
       ++ model_cols ++ ["ARRAY"%string] ++ data_cols ++ ["FROM"%string; model; data])%list in
  let info :=
    set_tables model data
      (set_data_col data_cols
         (set_model_col model_cols
            (set_hw_operation LINREGR
               (set_hw_support true
                  (set_aggr true (hw_aggrhashmap aggregate)
                     (fst (split_table_col target None None))
                     (snd (split_table_col target None None)) init_operation_info))))) in
  (ophash_unmatched aggregate = NONE ->
   extract_operation_info ophash_unmatched atof 21 statement init_operation_info
   = Finished info 4 /\
   hw_support info = true /\ aggr_flag info = true /\ filter_flag info = false /\
   COUNT <= aggr_operation info <= SUM /\
   get_query_num info = Q3) /\
  (ophash_unmatched aggregate <> NONE ->
   match snd (extract_step ophash_unmatched atof statement 0 NONE init_operation_info) with
   | Continue _ info' =>
       hw_support info' = true /\ hw_operation info' = ophash_unmatched aggregate /\
       aggr_flag info' = false
   | Return _ => False
   | MemFault => True
   end).
Proof.
  intros Hagg Hm Hd Hfit. cbv zeta.
  apply words_fit_cons in Hfit as [Ftarget Hfit].
  apply words_fit_app in Hfit as [Hmfit Hfit]. apply words_fit_app in Hfit as [Hdfit Hfit].
  apply words_fit_cons in Hfit as [Fmodel Hfit]. apply words_fit_cons in Hfit as [Fdata _].
  set (info_a := set_aggr true (hw_aggrhashmap aggregate)
                   (fst (split_table_col target None None))
                   (snd (split_table_col target None None)) init_operation_info).
  set (wa := (["SELECT"; aggregate; target; "FROM"; "SELECT"; "madlib.linregr_predict";
               "ARRAY"]%string
                ++ model_cols ++ ["ARRAY"%string] ++ data_cols
                ++ ["FROM"%string; model; data])%list).
  assert (Hhash : hw_ophashmap ophash_unmatched aggregate = ophash_unmatched aggregate).
  { simpl in Hagg. destruct Hagg as [<-|[<-|[<-|[<-|[<-|[]]]]]]; reflexivity. }
  assert (Haggr : COUNT <= hw_aggrhashmap aggregate <= SUM).
  { simpl in Hagg.
    destruct Hagg as [<-|[<-|[<-|[<-|[<-|[]]]]]]; vm_compute; split; discriminate. }
  split.
  - intros Hun.
    set (i2 := (8 + List.length model_cols + List.length data_cols)%nat).
    assert (Hwa : wa = ((["SELECT"; aggregate; target; "FROM"; "SELECT";
                           "madlib.linregr_predict"; "ARRAY"]%string
                           ++ model_cols ++ ["ARRAY"%string] ++ data_cols)
                          ++ ["FROM"%string; model; data])%list)
      by (unfold wa; rewrite <- !app_assoc; reflexivity).
    assert (Hpre : List.length (["SELECT"; aggregate; target; "FROM"; "SELECT";
                                  "madlib.linregr_predict"; "ARRAY"]%string
                                  ++ model_cols ++ ["ARRAY"%string] ++ data_cols)
                   = i2)
      by (unfold i2; repeat (rewrite ?length_app; simpl); lia).
    assert (Hlen : List.length wa = (i2 + 3)%nat)
      by (rewrite Hwa, length_app, Hpre; simpl; lia).
    assert (S1 : extract_step ophash_unmatched atof wa 0 0 init_operation_info
                 = (SELECT, Continue 3 info_a)).
    { rewrite (extract_step_select ophash_unmatched atof wa 0 0 init_operation_info eq_refl).
      f_equal. unfold select_case. cbn [rd_word nth_error Nat.add wa app]. cbv zeta.
      rewrite Hhash, Hun. change (negb (NONE =? NONE)) with false. cbv iota.
      destruct (Z.eqb_spec (hw_aggrhashmap aggregate) 0) as [E|_];
        [unfold COUNT in Haggr; lia|].
      cbn [negb].
      rewrite (rd_name_fits (_ :: _ :: target :: _) 2 target eq_refl Ftarget).
      unfold info_a.
      destruct (split_table_col target (aggr_table_name init_operation_info)
                  (aggr_table_col init_operation_info)) as [t c] eqn:Esplit.
      cbn [aggr_table_name aggr_table_col init_operation_info] in Esplit.
      rewrite Esplit. reflexivity. }
    assert (S2 : extract_step ophash_unmatched atof wa 3 SELECT info_a
                 = (FROM, Continue 4 info_a)) by reflexivity.
    assert (S3 : extract_step ophash_unmatched atof wa 4 FROM info_a
                 = (SELECT,
                    Continue i2
                      (set_data_col data_cols
                         (set_model_col model_cols
                            (set_hw_operation LINREGR (set_hw_support true info_a)))))).
    { pose proof (extract_step_regression ophash_unmatched atof
                    ["SELECT"; aggregate; target; "FROM"]%string model_cols
                    data_cols [model; data] FROM info_a Hm Hd Hmfit Hdfit) as H.
      cbn [List.length] in H.
      replace (4 + 4 + List.length model_cols + List.length data_cols)%nat with i2 in H
        by (unfold i2; lia).
      exact H. }
    split.
    + unfold extract_operation_info. fold wa.
      rewrite (extract_loop_pass ophash_unmatched atof 20 wa 0 0 0 init_operation_info
                 SELECT 3 info_a); [|rewrite Hlen; lia|lia|exact S1].
      rewrite (extract_loop_pass ophash_unmatched atof 19 wa 3 SELECT 1 info_a
                 FROM 4 info_a); [|rewrite Hlen; lia|lia|exact S2].
      rewrite (extract_loop_pass ophash_unmatched atof 18 wa 4 FROM 2 info_a SELECT i2
                 (set_data_col data_cols
                    (set_model_col model_cols
                       (set_hw_operation LINREGR (set_hw_support true info_a)))));
        [|rewrite Hlen; lia|lia|exact S3].
      rewrite (extract_loop_pass ophash_unmatched atof 17 wa i2 SELECT 3
                 (set_data_col data_cols
                    (set_model_col model_cols
                       (set_hw_operation LINREGR (set_hw_support true info_a))))
                 FROM (i2 + 3)
                 (set_tables model data
                    (set_data_col data_cols
                       (set_model_col model_cols
                          (set_hw_operation LINREGR (set_hw_support true info_a))))));
        [|rewrite Hlen; lia|lia|].
      * apply extract_loop_end. lia.
      * apply extract_step_from; try assumption.
        -- rewrite Hwa, nth_error_app2 by lia. rewrite Hpre, Nat.sub_diag. reflexivity.
        -- rewrite Hwa, nth_error_app2 by lia. rewrite Hpre.
           replace (i2 + 1 - i2)%nat with 1%nat by lia. reflexivity.
        -- rewrite Hwa, nth_error_app2 by lia. rewrite Hpre.
           replace (i2 + 2 - i2)%nat with 2%nat by lia. reflexivity.
        -- reflexivity.
        -- left; reflexivity.
    + split; [reflexivity|]. split; [reflexivity|]. split; [reflexivity|].
      split; [exact Haggr | reflexivity].
  - intros Hun.
    rewrite (extract_step_select ophash_unmatched atof wa 0 NONE init_operation_info eq_refl).
    cbn [snd].
    pose proof (select_case_operation ophash_unmatched wa 0 init_operation_info aggregate
                  eq_refl) as H.
    rewrite Hhash in H. specialize (H Hun).
    destruct (select_case ophash_unmatched wa 0 init_operation_info) as [i' info'| |];
      [|exact H|exact I].
    destruct H as (H1 & H2 & H3 & _). split; [exact H1|]. split; [exact H2 | exact H3].
Qed.

(** The statement with the value 1, the code of [LINREGR], for the unset
    answer: the first pass takes [AVG] for a linear regression, and the run
    ends after four passes with no aggregate recorded and the class Q1. *)
Lemma extract_aggregate_statement_witness :
  (exists i' info',
     extract_step (fun _ => LINREGR) (fun _ => 0%float)
       (word_array_of
          "SELECT AVG(p.y) FROM (SELECT madlib.linregr_predict(ARRAY[a,b], ARRAY[1,x]) FROM m, d")
       0 NONE init_operation_info = (SELECT, Continue i' info') /\
     hw_support info' = true /\ hw_operation info' = LINREGR /\ aggr_flag info' = false) /\
  exists info,
    extract_from_query (fun _ => LINREGR) (fun _ => 0%float) 21
      "SELECT AVG(p.y) FROM (SELECT madlib.linregr_predict(ARRAY[a,b], ARRAY[1,x]) FROM m, d"
    = Finished info 4 /\
    aggr_flag info = false /\ get_query_num info = Q1.
Proof.
  split.
  - pose proof (proj2 (extract_aggregate_statement (fun _ => LINREGR) (fun _ => 0%float)
                         "AVG" "p.y" ["a"; "b"]%string ["1"; "x"]%string "m" "d"
                         ltac:(simpl; tauto)
                         ltac:(repeat constructor; discriminate)
                         ltac:(repeat constructor; discriminate)
                         ltac:(repeat constructor))
                  ltac:(discriminate)) as H.
    exists 2%nat. eexists. split; [reflexivity|]. exact H.
  - eexists. split; [vm_compute; reflexivity|]. split; reflexivity.
Defined.

(** X10: the statements of the other three functions are read in one pass,
    when the words fit their blocks: model table, data table, id column and
    output table for SVM and MLP (MLP steps over one more word), model
    table, data table and output table for the decision tree (one more word
    is stepped over); the classes are Q9, Q10 and Q11.  A statement of SVM
    that ends before the output table makes the extractor read past the last
    word. *)
Theorem extract_predict_statement (ophash_unmatched : string -> Z) (atof : string -> float)
    (model data id out last : string) :
  words_fit [model; data; id; out; last] ->
  let svm := set_output_table_name out (set_id_col_name id (set_tables model data
               (set_hw_operation SVM (set_hw_support true init_operation_info)))) in
  let mlp := set_output_table_name out (set_id_col_name id (set_tables model data
               (set_hw_operation MLP (set_hw_support true init_operation_info)))) in
  let tree := set_output_table_name out (set_tables model data
                (set_hw_operation TREE (set_hw_support true init_operation_info))) in
  extract_operation_info ophash_unmatched atof 21
    ["SELECT"; "madlib.svm_predict"; model; data; id; out]%string init_operation_info
  = Finished svm 1 /\
  extract_operation_info ophash_unmatched atof 21
    ["SELECT"; "madlib.mlp_predict"; model; data; id; out; last]%string init_operation_info
  = Finished mlp 1 /\
  extract_operation_info ophash_unmatched atof 21
    ["SELECT"; "madlib.tree_predict"; model; data; out; last]%string init_operation_info
  = Finished tree 1 /\
  get_query_num svm = Q9 /\ get_query_num mlp = Q10 /\ get_query_num tree = Q11 /\
  extract_operation_info ophash_unmatched atof 21
    ["SELECT"; "madlib.svm_predict"; model; data; id]%string init_operation_info
  = Faulted 1.
Proof.
  intros Hfit. cbv zeta.
  apply words_fit_cons in Hfit as [Fm Hfit]. apply words_fit_cons in Hfit as [Fd Hfit].
  apply words_fit_cons in Hfit as [Fi Hfit]. apply words_fit_cons in Hfit as [Fo _].
  assert (Hstep : forall (name : string) (op : Z) (ws : list string),
            hw_ophashmap ophash_unmatched name = op -> op = SVM \/ op = MLP \/ op = TREE ->
            extract_step ophash_unmatched atof ("SELECT"%string :: name :: ws) 0 0
              init_operation_info
            = (SELECT,
               match rd_name ("SELECT"%string :: name :: ws) 2,
                     rd_name ("SELECT"%string :: name :: ws) 3 with
               | Some model, Some data =>
                   let info := set_tables model data
                                 (set_hw_operation op (set_hw_support true init_operation_info)) in
                   if (op =? SVM) || (op =? MLP) then
                     match rd_name ("SELECT"%string :: name :: ws) 4,
                           rd_name ("SELECT"%string :: name :: ws) 5 with
                     | Some id, Some out =>
                         Continue (if op =? MLP then 7%nat else 6%nat)
                           (set_output_table_name out (set_id_col_name id info))
                     | _, _ => MemFault
                     end
                   else
                     match rd_name ("SELECT"%string :: name :: ws) 4 with
                     | Some out => Continue 6%nat (set_output_table_name out info)
                     | None => MemFault
                     end
               | _, _ => MemFault
               end)).
  { intros name op ws Hop Hor.
    rewrite (extract_step_select ophash_unmatched atof ("SELECT"%string :: name :: ws) 0 0
               init_operation_info eq_refl).
    f_equal.
    exact (select_case_predict ophash_unmatched ("SELECT"%string :: name :: ws) 0
             init_operation_info name op eq_refl Hop Hor). }
  unfold extract_operation_info.
  split; [|split; [|split; [|split; [reflexivity|split; [reflexivity|split; [reflexivity|]]]]]].
  - rewrite (extract_loop_pass ophash_unmatched atof 20
               ["SELECT"; "madlib.svm_predict"; model; data; id; out]%string
               0 0 0 init_operation_info SELECT 6
               (set_output_table_name out (set_id_col_name id (set_tables model data
                  (set_hw_operation SVM (set_hw_support true init_operation_info))))));
      [apply extract_loop_end; simpl; lia | simpl; lia | lia |].
    rewrite (Hstep "madlib.svm_predict"%string SVM [model; data; id; out] eq_refl
               (or_introl eq_refl)).
    rewrite (rd_name_fits ["SELECT"; "madlib.svm_predict"; model; data; id; out]%string
               2 model eq_refl Fm),
      (rd_name_fits ["SELECT"; "madlib.svm_predict"; model; data; id; out]%string
         3 data eq_refl Fd),
      (rd_name_fits ["SELECT"; "madlib.svm_predict"; model; data; id; out]%string
         4 id eq_refl Fi),
      (rd_name_fits ["SELECT"; "madlib.svm_predict"; model; data; id; out]%string
         5 out eq_refl Fo).
    reflexivity.
  - rewrite (extract_loop_pass ophash_unmatched atof 20
               ["SELECT"; "madlib.mlp_predict"; model; data; id; out; last]%string
               0 0 0 init_operation_info SELECT 7
               (set_output_table_name out (set_id_col_name id (set_tables model data
                  (set_hw_operation MLP (set_hw_support true init_operation_info))))));
      [apply extract_loop_end; simpl; lia | simpl; lia | lia |].
    rewrite (Hstep "madlib.mlp_predict"%string MLP [model; data; id; out; last] eq_refl
               (or_intror (or_introl eq_refl))).
    rewrite (rd_name_fits ["SELECT"; "madlib.mlp_predict"; model; data; id; out; last]%string
               2 model eq_refl Fm),
      (rd_name_fits ["SELECT"; "madlib.mlp_predict"; model; data; id; out; last]%string
         3 data eq_refl Fd),
      (rd_name_fits ["SELECT"; "madlib.mlp_predict"; model; data; id; out; last]%string
         4 id eq_refl Fi),
      (rd_name_fits ["SELECT"; "madlib.mlp_predict"; model; data; id; out; last]%string
         5 out eq_refl Fo).
    reflexivity.
  - rewrite (extract_loop_pass ophash_unmatched atof 20
               ["SELECT"; "madlib.tree_predict"; model; data; out; last]%string
               0 0 0 init_operation_info SELECT 6
               (set_output_table_name out (set_tables model data
                  (set_hw_operation TREE (set_hw_support true init_operation_info)))));
      [apply extract_loop_end; simpl; lia | simpl; lia | lia |].
    rewrite (Hstep "madlib.tree_predict"%string TREE [model; data; out; last] eq_refl
               (or_intror (or_intror eq_refl))).
    rewrite (rd_name_fits ["SELECT"; "madlib.tree_predict"; model; data; out; last]%string
               2 model eq_refl Fm),
      (rd_name_fits ["SELECT"; "madlib.tree_predict"; model; data; out; last]%string
         3 data eq_refl Fd),
      (rd_name_fits ["SELECT"; "madlib.tree_predict"; model; data; out; last]%string
         4 out eq_refl Fo).
    reflexivity.
  - apply (extract_loop_fault ophash_unmatched atof 20
             ["SELECT"; "madlib.svm_predict"; model; data; id]%string
             0 0 0 init_operation_info SELECT); [simpl; lia|].
    rewrite (Hstep "madlib.svm_predict"%string SVM [model; data; id] eq_refl
               (or_introl eq_refl)).
    rewrite (rd_name_fits ["SELECT"; "madlib.svm_predict"; model; data; id]%string
               2 model eq_refl Fm),
      (rd_name_fits ["SELECT"; "madlib.svm_predict"; model; data; id]%string
         3 data eq_refl Fd),
      (rd_name_fits ["SELECT"; "madlib.svm_predict"; model; data; id]%string
         4 id eq_refl Fi).
    reflexivity.
Qed.

Lemma extract_predict_statement_witness :
  exists info,
    extract_from_query (fun _ => 0) (fun _ => 0%float) 21
      "SELECT madlib.svm_predict('model', 'points', 'id', 'out');" = Finished info 1 /\
    model_table_name info = Some "model"%string /\
    data_table_name info = Some "points"%string /\
    id_col_name info = Some "id"%string /\ output_table_name info = Some "out"%string /\
    get_query_num info = Q9.
Proof.
  eexists. split.
  - refine (proj1 (extract_predict_statement (fun _ => 0) (fun _ => 0%float)
                     "model" "points" "id" "out" "x" _)).
    repeat constructor.
  - repeat split.
Defined.

(** X29: what the first pass does with a statement that opens with [SELECT]
    followed by a word that is neither one of the six prediction functions
    nor one of the five aggregates rests on the value that [hw_ophashmap]
    answers for that word, which C leaves indeterminate.  When the answer is
    [NONE] the statement is answered in the first pass, whatever follows:
    the profile is returned as not supported.  For any other answer the
    first pass does not return: it marks the profile as supported, with
    that answer as its operation, and goes on, or reads past the words. *)
Theorem plain_select_first_pass (ophash_unmatched : string -> Z) (atof : string -> float)
    (w : string) (rest : list string) (info : operation_info) :
  ~ In w ["madlib.linregr_predict"; "madlib.logregr_predict_prob"; "madlib.svm_predict";
          "madlib.mlp_predict"; "madlib.tree_predict"; "madlib.forest_predict"]%string ->
  ~ In w ["COUNT"; "MAX"; "MIN"; "AVG"; "SUM"]%string ->
  (ophash_unmatched w = NONE ->
   extract_operation_info ophash_unmatched atof 21 ("SELECT"%string :: w :: rest) info
   = Finished (set_hw_support false info) 1) /\
  (ophash_unmatched w <> NONE ->
   match snd (extract_step ophash_unmatched atof ("SELECT"%string :: w :: rest) 0 NONE info) with
   | Continue _ info' =>
       hw_support info' = true /\ hw_operation info' = ophash_unmatched w
   | Return _ => False
   | MemFault => True
   end).
Proof.
  intros Hp Ha.
  assert (Hcmp : forall l name, ~ In w l -> In name l -> hw_strcmp w name = false).
  { intros l name Hn Hi. destruct (hw_strcmp w name) eqn:E; [|reflexivity].
    apply hw_strcmp_true_iff in E. subst name. contradiction. }
  assert (Hop : hw_ophashmap ophash_unmatched w = ophash_unmatched w).
  { unfold hw_ophashmap. rewrite !(Hcmp _ _ Hp) by (simpl; auto 8). reflexivity. }
  assert (Hag : hw_aggrhashmap w = 0).
  { unfold hw_aggrhashmap. rewrite !(Hcmp _ _ Ha) by (simpl; auto 8). reflexivity. }
  split.
  - intros Hu.
    unfold extract_operation_info.
    apply (extract_loop_return ophash_unmatched atof 20 ("SELECT"%string :: w :: rest) 0 0 0
             info SELECT); [simpl; lia|].
    rewrite (extract_step_select ophash_unmatched atof ("SELECT"%string :: w :: rest) 0 0 info
               eq_refl).
    f_equal. unfold select_case. cbn [rd_word nth_error Nat.add]. cbv zeta.
    rewrite Hop, Hu, Hag. reflexivity.
  - intros Hu.
    rewrite (extract_step_select ophash_unmatched atof ("SELECT"%string :: w :: rest) 0 NONE
               info eq_refl).
    cbn [snd].
    pose proof (select_case_operation ophash_unmatched ("SELECT"%string :: w :: rest) 0 info w
                  eq_refl) as H.
    rewrite Hop in H. specialize (H Hu).
    destruct (select_case ophash_unmatched ("SELECT"%string :: w :: rest) 0 info)
      as [i' info'| |]; [|exact H|exact I].
    destruct H as (H1 & H2 & _). split; [exact H1 | exact H2].
Qed.

(** The statement [SELECT * FROM t] with the value 1, the code of [LINREGR],
    for the unset answer: the first pass takes it for a linear regression
    and goes on at the word [FROM], and the second pass reads past the last
    word for the name of the data table. *)
Lemma plain_select_first_pass_witness :
  (exists info',
     extract_step (fun _ => LINREGR) (fun _ => 0%float)
       ["SELECT"; "*"; "FROM"; "t"]%string 0 NONE init_operation_info
     = (SELECT, Continue 2 info') /\
     hw_support info' = true /\ hw_operation info' = LINREGR) /\
  extract_operation_info (fun _ => LINREGR) (fun _ => 0%float) 21
    ["SELECT"; "*"; "FROM"; "t"]%string init_operation_info = Faulted 2.
Proof.
  split; [|reflexivity].
  pose proof (proj2 (plain_select_first_pass (fun _ => LINREGR) (fun _ => 0%float)
                       "*" ["FROM"; "t"]%string init_operation_info
                       ltac:(simpl; intros H; repeat (destruct H as [H|H]; [discriminate H|]);
                             exact H)
                       ltac:(simpl; intros H; repeat (destruct H as [H|H]; [discriminate H|]);
                             exact H))
                ltac:(discriminate)) as H.
  eexists. split; [reflexivity|]. exact H.
Defined.

(** ** Column numbers and bit masks *)

(** The first [n] passes of the loop of [match_columns]. *)
Lemma match_columns_prefix (name : string) (cols : list string) (num0 : option Z) (bit0 : Z)
    (n : nat) :
  (n <= List.length cols)%nat -> (n <= 32)%nat -> 0 <= bit0 < 2 ^ 32 ->
  exists num bit,
    for_up n (fun now_col_num st =>
      match st with
      | None => None
      | Some (col_num, col_num_bit) =>
          if hw_strcmp name (nth now_col_num cols EmptyString) then
            if (now_col_num <=? 31)%nat then
              Some (Some (Z.of_nat now_col_num),
                    Z.lor col_num_bit (Z.shiftl 1 (31 - Z.of_nat now_col_num)))
            else None
          else Some (col_num, col_num_bit)
      end) (Some (num0, bit0)) = Some (num, bit) /\
    0 <= bit < 2 ^ 32 /\
    (forall p, Z.testbit bit p = true <->
       Z.testbit bit0 p = true \/
       exists j, (j < n)%nat /\ p = 31 - Z.of_nat j /\ nth j cols EmptyString = name) /\
    ((forall j, (j < n)%nat -> nth j cols EmptyString <> name) -> num = num0) /\
    ((exists j, (j < n)%nat /\ nth j cols EmptyString = name) ->
     exists j, num = Some (Z.of_nat j) /\ (j < n)%nat /\ nth j cols EmptyString = name /\
               forall j', (j < j' < n)%nat -> nth j' cols EmptyString <> name).
Proof.
  induction n as [|n IH]; intros Hn H32 Hb.
  - exists num0, bit0. split; [reflexivity|]. split; [exact Hb|]. split; [|split].
    + intros p. split; [tauto | intros [H|(j & Hj & _)]; [exact H | lia]].
    + reflexivity.
    + intros (j & Hj & _). lia.
  - destruct (IH ltac:(lia) ltac:(lia) Hb) as (num & bit & Hrun & Hbit & Hbits & Hnone & Hsome).
    cbn [for_up]. rewrite Hrun.
    destruct (hw_strcmp name (nth n cols EmptyString)) eqn:E.
    + apply hw_strcmp_true_iff in E.
      destruct (Nat.leb_spec n 31) as [Hn31|Hn31]; [|lia].
      exists (Some (Z.of_nat n)), (Z.lor bit (Z.shiftl 1 (31 - Z.of_nat n))).
      split; [reflexivity|].
      assert (Hpow : Z.shiftl 1 (31 - Z.of_nat n) = 2 ^ (31 - Z.of_nat n))
        by (rewrite Z.shiftl_1_l; reflexivity).
      split; [|split; [|split]].
      * split; [apply Z.lor_nonneg; split; [lia | rewrite Hpow; apply Z.pow_nonneg; lia]|].
        destruct (Z.eq_dec (Z.lor bit (Z.shiftl 1 (31 - Z.of_nat n))) 0) as [->|Hnz]; [lia|].
        apply Z.log2_lt_pow2; [pose proof (Z.lor_nonneg bit (Z.shiftl 1 (31 - Z.of_nat n))) as Hl;
          rewrite Hpow in *; pose proof (Z.pow_nonneg 2 (31 - Z.of_nat n) ltac:(lia)); lia|].
        rewrite Z.log2_lor by (rewrite ?Hpow; try apply Z.pow_nonneg; lia).
        apply Z.max_lub_lt.
        -- destruct (Z.eq_dec bit 0) as [->|Hb0]; [simpl; lia|].
           apply Z.log2_lt_pow2; lia.
        -- rewrite Hpow, Z.log2_pow2 by lia. lia.
      * intros p. rewrite Z.lor_spec, orb_true_iff, Hbits, Hpow.
        destruct (Z.ltb_spec p 0) as [Hneg|Hpos].
        { rewrite !Z.testbit_neg_r by lia. split.
          - intros [[H|(j & Hj & -> & Hname)]|H]; try discriminate.
            right. exists j. split; [lia|]. split; [reflexivity | exact Hname].
          - intros [H|(j & Hj & Hp & Hname)]; [discriminate|]. lia. }
        rewrite Z.pow2_bits_eqb by lia. split.
        -- intros [[H|(j & Hj & Hp & Hname)]|H].
           ++ left; exact H.
           ++ right. exists j. split; [lia|]. split; assumption.
           ++ apply Z.eqb_eq in H. right. exists n. split; [lia|]. split; [lia | symmetry; exact E].
        -- intros [H|(j & Hj & Hp & Hname)].
           ++ left; left; exact H.
           ++ destruct (Nat.eq_dec j n) as [->|Hne].
              ** right. apply Z.eqb_eq. lia.
              ** left; right. exists j. split; [lia|]. split; assumption.
      * intros Hall. exfalso. apply (Hall n); [lia | symmetry; exact E].
      * intros _. exists n. split; [reflexivity|]. split; [lia|]. split; [symmetry; exact E|].
        intros j' Hj'. exfalso; lia.
    + assert (Hne : nth n cols EmptyString <> name).
      { intros H. rewrite H in E. rewrite (proj2 (hw_strcmp_true_iff name name) eq_refl) in E.
        discriminate. }
      exists num, bit. split; [reflexivity|]. split; [exact Hbit|]. split; [|split].
      * intros p. rewrite Hbits. split.
        -- intros [H|(j & Hj & Hp & Hname)]; [left; exact H|].
           right. exists j. split; [lia|]. split; assumption.
        -- intros [H|(j & Hj & Hp & Hname)]; [left; exact H|].
           destruct (Nat.eq_dec j n) as [->|Hjn]; [contradiction|].
           right. exists j. split; [lia|]. split; assumption.
      * intros Hall. apply Hnone. intros j Hj. apply Hall. lia.
      * intros (j & Hj & Hname).
        destruct (Nat.eq_dec j n) as [->|Hjn]; [contradiction|].
        assert (Hjn' : (j < n)%nat) by lia.
        destruct (Hsome (ex_intro _ j (conj Hjn' Hname))) as (j0 & Hnum & Hj0 & Hn0 & Hlast).
        exists j0. split; [exact Hnum|]. split; [lia|]. split; [exact Hn0|].
        intros j' Hj'. destruct (Nat.eq_dec j' n) as [->|Hj'n]; [exact Hne|]. apply Hlast. lia.
Qed.

(** The loop over the names, from any column numbers and any mask. *)
Lemma column_numbers_from (cols : list string) (names : list string) :
  (List.length cols <= 32)%nat ->
  forall (nums0 : list (option Z)) (bit0 : Z),
    0 <= bit0 < 2 ^ 32 ->
    exists nums bit,
      fold_left (fun acc now_col_name =>
        match acc with
        | None => None
        | Some (col_num, col_num_bit) =>
            if hw_strcmp now_col_name "1" then Some ((col_num ++ [Some (-1)])%list, col_num_bit)
            else
              match match_columns now_col_name cols (Some (None, col_num_bit)) with
              | None => None
              | Some (num, col_num_bit) => Some ((col_num ++ [num])%list, col_num_bit)
              end
        end) names (Some (nums0, bit0)) = Some ((nums0 ++ nums)%list, bit) /\
      0 <= bit < 2 ^ 32 /\
      (forall p, Z.testbit bit p = true <->
         Z.testbit bit0 p = true \/
         exists j, (j < List.length cols)%nat /\ p = 31 - Z.of_nat j /\
                   In (nth j cols EmptyString) names /\ nth j cols EmptyString <> "1"%string) /\
      Forall2 (fun name entry =>
        (name = "1"%string -> entry = Some (-1)) /\
        (name <> "1"%string -> ~ In name cols -> entry = None) /\
        (name <> "1"%string -> In name cols ->
         exists j, entry = Some (Z.of_nat j) /\ (j < List.length cols)%nat /\
                   nth j cols EmptyString = name /\
                   forall j', (j < j' < List.length cols)%nat ->
                              nth j' cols EmptyString <> name)) names nums.
Proof.
  intros Hcols. induction names as [|name names IH]; intros nums0 bit0 Hb.
  - exists [], bit0. cbn [fold_left]. rewrite app_nil_r. split; [reflexivity|].
    split; [exact Hb|]. split; [|constructor].
    intros p. split; [tauto | intros [H|(j & _ & _ & [] & _)]; exact H].
  - cbn [fold_left].
    destruct (hw_strcmp name "1") eqn:E1.
    + apply hw_strcmp_true_iff in E1.
      destruct (IH (nums0 ++ [Some (-1)])%list bit0 Hb) as (nums & bit & Hrun & Hbit & Hbits & Hent).
      exists (Some (-1) :: nums), bit.
      split; [rewrite Hrun, <- app_assoc; reflexivity|]. split; [exact Hbit|]. split.
      * intros p. rewrite Hbits. split.
        -- intros [H|(j & Hj & Hp & Hin & Hne)]; [left; exact H|].
           right. exists j. repeat split; try assumption. right; exact Hin.
        -- intros [H|(j & Hj & Hp & Hin & Hne)]; [left; exact H|].
           right. exists j. repeat split; try assumption.
           destruct Hin as [Hin|Hin]; [congruence | exact Hin].
      * constructor; [|exact Hent].
        split; [reflexivity|]. split; intros; contradiction.
    + assert (Hne1 : name <> "1"%string).
      { intros ->. discriminate E1. }
      destruct (match_columns_prefix name cols None bit0 (List.length cols)
                  ltac:(lia) Hcols Hb) as (num & bit1 & Hrun1 & Hbit1 & Hbits1 & Hnone & Hsome).
      assert (Hrun1' : match_columns name cols (Some (None, bit0)) = Some (num, bit1))
        by exact Hrun1.
      rewrite Hrun1'.
      destruct (IH (nums0 ++ [num])%list bit1 Hbit1) as (nums & bit & Hrun & Hbit & Hbits & Hent).
      exists (num :: nums), bit.
      split; [rewrite Hrun, <- app_assoc; reflexivity|]. split; [exact Hbit|]. split.
      * intros p. rewrite Hbits, Hbits1. split.
        -- intros [[H|(j & Hj & Hp & Hname)]|(j & Hj & Hp & Hin & Hne)].
           ++ left; exact H.
           ++ right. exists j. repeat split; try assumption; [left; symmetry; exact Hname | congruence].
           ++ right. exists j. repeat split; try assumption. right; exact Hin.
        -- intros [H|(j & Hj & Hp & Hin & Hne)]; [left; left; exact H|].
           destruct Hin as [Hin|Hin].
           ++ left; right. exists j. repeat split; try assumption. symmetry; exact Hin.
           ++ right. exists j. repeat split; assumption.
      * constructor; [|exact Hent].
        split; [intros; contradiction|]. split.
        -- intros _ Hnot. apply Hnone. intros j Hj Hname. apply Hnot.
           rewrite <- Hname. apply nth_In. exact Hj.
        -- intros _ Hin. apply Hsome.
           destruct (In_nth _ _ EmptyString Hin) as (j & Hj & Hname). exists j. split; assumption.
Qed.

(** X11: for a table of at most 32 columns the two loops of
    [sw_stack_for_hw] that number the columns of a regression never shift by
    a negative count, and they end with a 32-bit mask whose bit [31 - j] is
    set exactly when column [j] of the table is named in the statement (the
    bias column [1] apart), and with one entry per name of the statement: -1
    for the bias column, the number of the last column of that name when the
    table has one, and nothing at all (the cell that [malloc] returned is
    never written) when the table has no column of that name. *)
Theorem column_numbers_spec (col_name rtable_colname : list string) :
  (List.length rtable_colname <= 32)%nat ->
  exists (col_num : list (option Z)) (col_num_bit : Z),
    column_numbers col_name rtable_colname = Some (col_num, col_num_bit) /\
    0 <= col_num_bit < 2 ^ 32 /\
    (forall p, Z.testbit col_num_bit p = true <->
       exists j, (j < List.length rtable_colname)%nat /\ p = 31 - Z.of_nat j /\
                 In (nth j rtable_colname EmptyString) col_name /\
                 nth j rtable_colname EmptyString <> "1"%string) /\
    Forall2 (fun name entry =>
      (name = "1"%string -> entry = Some (-1)) /\
      (name <> "1"%string -> ~ In name rtable_colname -> entry = None) /\
      (name <> "1"%string -> In name rtable_colname ->
       exists j, entry = Some (Z.of_nat j) /\ (j < List.length rtable_colname)%nat /\
                 nth j rtable_colname EmptyString = name /\
                 forall j', (j < j' < List.length rtable_colname)%nat ->
                            nth j' rtable_colname EmptyString <> name)) col_name col_num.
Proof.
  intros Hcols.
  destruct (column_numbers_from rtable_colname col_name Hcols [] 0 ltac:(lia))
    as (nums & bit & Hrun & Hbit & Hbits & Hent).
  exists nums, bit. split; [exact Hrun|]. split; [exact Hbit|]. split; [|exact Hent].
  intros p. rewrite Hbits, Z.bits_0. split; [intros [H|H]; [discriminate | exact H] | tauto].
Qed.

Lemma column_numbers_spec_witness :
  column_numbers ["1"; "x3"; "nope"; "x1"]%string ["id"; "x1"; "x2"; "x3"]%string
  = Some ([Some (-1); Some 3; None; Some 1], 1342177280) /\
  exists col_num col_num_bit,
    column_numbers ["1"; "x3"; "nope"; "x1"]%string ["id"; "x1"; "x2"; "x3"]%string
    = Some (col_num, col_num_bit) /\ 0 <= col_num_bit < 2 ^ 32.
Proof.
  split; [reflexivity|].
  destruct (column_numbers_spec ["1"; "x3"; "nope"; "x1"]%string ["id"; "x1"; "x2"; "x3"]%string)
    as (col_num & col_num_bit & Hrun & Hbit & _); [simpl; lia|].
  exists col_num, col_num_bit. split; assumption.
Defined.

(** ** The query for the two tables *)

Lemma length_append (s1 s2 : string) :
  String.length (s1 ++ s2) = (String.length s1 + String.length s2)%nat.
Proof. induction s1 as [|c s1 IH]; simpl; [reflexivity | rewrite IH; reflexivity]. Qed.

(** X12: the query that [hw_query_modification] writes has 17 characters
    more than the two table names together; with its terminator it takes
    two bytes less than the [20 + strlen(data) + strlen(model)] bytes that
    [sw_stack_for_hw] allocates for it, so the [strcpy] and the four
    [strcat]s stay inside the buffer whatever the names. *)
Theorem hw_query_modification_fits (data_table model_table : string) :
  String.length (hw_query_modification data_table model_table)
  = (17 + String.length data_table + String.length model_table)%nat /\
  (String.length (hw_query_modification data_table model_table) + 1
   < data_model_query_bytes data_table model_table)%nat.
Proof.
  unfold hw_query_modification, data_model_query_bytes.
  rewrite !length_append. simpl. split; lia.
Qed.

(** ** Table statistics probe: when the estimate is exact *)

Lemma items_on_uniform_pages (rel : relation_storage) (n : nat) :
  (forall b, 0 <= b < Z.of_nat n -> max_offset_number rel b = max_offset_number rel 0) ->
  items_on_pages rel n = Z.of_nat n * max_offset_number rel 0.
Proof.
  induction n as [|n IH]; intros H; [reflexivity|].
  cbn [items_on_pages]. rewrite IH by (intros b Hb; apply H; lia).
  rewrite (H (Z.of_nat n)) by lia. lia.
Qed.

(** X13: for a table of at least one page whose pages before the last all
    hold as many items as the first one, the estimate of [get_data_num] is
    the exact sum of the item counts of all the pages; the last page may
    hold any number. *)
Theorem get_data_num_exact_on_uniform_pages (rel : relation_storage) :
  8192 <= st_size rel ->
  (forall b, 0 <= b < total_page_num rel - 1 ->
             max_offset_number rel b = max_offset_number rel 0) ->
  get_data_num rel = items_on_pages rel (Z.to_nat (total_page_num rel)).
Proof.
  intros Hsize Hfull.
  assert (Hn : 1 <= total_page_num rel).
  { unfold total_page_num. rewrite Z.quot_div_nonneg by lia.
    apply Z.div_le_lower_bound; lia. }
  unfold get_data_num, last_page_size, first_page_size.
  replace (Z.to_nat (total_page_num rel)) with (S (Z.to_nat (total_page_num rel - 1))) by lia.
  cbn [items_on_pages].
  rewrite items_on_uniform_pages by (intros b Hb; apply Hfull; lia).
  rewrite Z2Nat.id by lia.
  destruct (Z.eqb_spec (total_page_num rel) 1) as [E|E].
  - rewrite E. simpl. reflexivity.
  - lia.
Qed.

Lemma get_data_num_exact_on_uniform_pages_witness :
  get_data_num (mk_relation_storage 30000 (fun b => if b =? 2 then 17 else 60)) = 137 /\
  items_on_pages (mk_relation_storage 30000 (fun b => if b =? 2 then 17 else 60)) 3 = 137.
Proof.
  pose proof (get_data_num_exact_on_uniform_pages
                (mk_relation_storage 30000 (fun b => if b =? 2 then 17 else 60))) as H.
  split; [reflexivity|]. symmetry. apply H.
  - simpl; lia.
  - intros b Hb. change (total_page_num _) with 3 in Hb. simpl.
    destruct (Z.eqb_spec b 2); [lia | reflexivity].
Defined.

(** ** Accelerator latency model: the pages that are charged *)



(** X15: on the path that reaches the latency model (a supported profile
    whose operation the classifier knows) the dataset chosen from the number
    of data columns is one of the four the cycle tables know, both unit
    cycle counts are positive, never the zeros that the tables leave for an
    unknown dataset or class, and the model prices the statement as an
    aggregate exactly when it is an aggregate over a regression: the
    aggregate flag of an SVM, MLP or decision-tree statement is not looked
    at. *)
Theorem reachable_unit_cycles (info : operation_info) (cols : Z) :
  hw_support info = true ->
  In (hw_operation info) classified_operations ->
  In (dataset_num cols) [HIGGS; FOREST; WILT; HABERMAN] /\
  0 < fst (unit_cycles (dataset_num cols) (get_query_num info)) /\
  0 < snd (unit_cycles (dataset_num cols) (get_query_num info)) /\
  aggregate_query (get_query_num info)
  = aggr_flag info && ((hw_operation info =? LINREGR) || (hw_operation info =? LOGREGR)).
Proof.
  intros Hs Hop. unfold get_query_num. rewrite Hs.
  assert (Hd : dataset_num cols = HIGGS \/ dataset_num cols = FOREST \/
               dataset_num cols = WILT \/ dataset_num cols = HABERMAN).
  { unfold dataset_num. destruct (17 <? cols); [tauto|]. destruct (8 <? cols); [tauto|].
    destruct (4 <? cols); tauto. }
  split; [destruct Hd as [-> |[-> |[-> | ->]]]; simpl; auto 6|].
  simpl in Hop.
  destruct Hop as [<-|[<-|[<-|[<-|[<-|[]]]]]];
    destruct (filter_flag info), (aggr_flag info);
    destruct Hd as [-> |[-> |[-> | ->]]]; vm_compute; repeat split.
Qed.

Lemma reachable_unit_cycles_witness :
  unit_cycles (dataset_num 28) (get_query_num (profile true SVM true true)) = (5522, 703) /\
  aggregate_query (get_query_num (profile true SVM true true)) = false.
Proof.
  destruct (reachable_unit_cycles (profile true SVM true true) 28) as (_ & _ & _ & H).
  - reflexivity.
  - simpl; tauto.
  - split; [reflexivity | exact H].
Defined.

(** ** The initial sample sets *)

Lemma sorted_uptob_sound (a : list float) (n : nat) :
  sorted_uptob a n = true -> sorted_upto a n.
Proof.
  unfold sorted_uptob, sorted_upto. intros H i Hi.
  rewrite forallb_forall in H. apply H. apply in_seq. lia.
Qed.

Lemma positive_uptob_sound (a : list float) (n : nat) :
  positive_uptob a n = true -> forall i, (i < n)%nat -> (0 <? cell a i)%float = true.
Proof.
  unfold positive_uptob. intros H i Hi.
  rewrite forallb_forall in H. apply H. apply in_seq. lia.
Qed.

(** X16: for each of the 11 classes the sample set that [get_init_values]
    builds holds 15, 13 and 18 samples in arrays of 50 cells, so that every
    range has free cells and more than [ADJ_MIN_DATANUM] samples; the sizes
    of each range are strictly ascending; the last sample of a range is the
    first sample of the next one, size and time; and every time is
    positive.  Whatever the cells past the samples hold has no part in
    this. *)
Theorem get_init_values_invariant (uninit_cell : float) (unset_coef : list float) (x : nat) :
  (x < Z.to_nat QUERYNUM)%nat ->
  let m := get_init_values uninit_cell unset_coef x in
  (data1_len m = 15 /\ data2_len m = 13 /\ data3_len m = 18)%nat /\
  ranges_sorted m /\ ranges_contiguous m /\ ranges_have_room m /\
  cell (data_num1 m) 14 = cell (data_num2 m) 0 /\
  cell (exec_time1 m) 14 = cell (exec_time2 m) 0 /\
  cell (data_num2 m) 12 = cell (data_num3 m) 0 /\
  cell (exec_time2 m) 12 = cell (exec_time3 m) 0 /\
  (forall i, (i < 15)%nat -> (0 <? cell (exec_time1 m) i)%float = true) /\
  (forall i, (i < 13)%nat -> (0 <? cell (exec_time2 m) i)%float = true) /\
  (forall i, (i < 18)%nat -> (0 <? cell (exec_time3 m) i)%float = true).
Proof.
  intros Hx m.
  assert (Hcases : In x (seq 0 11)) by (apply in_seq; unfold QUERYNUM in Hx; simpl in Hx; lia).
  split; [repeat split|].
  split.
  { repeat split; apply sorted_uptob_sound;
      simpl in Hcases;
      repeat (destruct Hcases as [<-|Hcases]; [vm_compute; reflexivity|]); contradiction. }
  split.
  { unfold ranges_contiguous.
    simpl in Hcases;
      repeat (destruct Hcases as [<-|Hcases]; [vm_compute; repeat split; lia|]); contradiction. }
  split.
  { simpl in Hcases;
      repeat (destruct Hcases as [<-|Hcases]; [vm_compute; repeat split; lia|]); contradiction. }
  simpl in Hcases.
  repeat (destruct Hcases as [<-|Hcases];
    [repeat split; try (vm_compute; reflexivity);
     apply positive_uptob_sound; vm_compute; reflexivity|]).
  contradiction.
Qed.

Lemma get_init_values_invariant_witness :
  ranges_sorted (get_init_values 0 [] 0) /\ ranges_contiguous (get_init_values 0 [] 0) /\
  cell (exec_time1 (get_init_values 0 [] 0)) 14 = 365.524%float.
Proof.
  destruct (get_init_values_invariant 0 [] 0) as (_ & Hs & Hc & _); [vm_compute; lia|].
  split; [exact Hs|]. split; [exact Hc | reflexivity].
Defined.

(** ** Insertion step of [add_new_data]: what it keeps and what it drops *)

Lemma data_range_cases (m : class_model) (x : float) :
  In (data_range m x) [1; 2; 3]%nat.
Proof.
  unfold data_range.
  destruct (x <=? cell (data_num2 m) 0)%float; [simpl; tauto|].
  destruct (x <=? cell (data_num3 m) 0)%float; simpl; tauto.
Qed.

(** [insert_step] is [insert_sample] on the range the observation is routed
    to; the other two ranges and the coefficients stay. *)
Lemma insert_step_range (m : class_model) (x t : float) :
  match insert_sample (range_data_num m (data_range m x)) (range_exec_time m (data_range m x))
          (range_len m (data_range m x)) x t with
  | None => insert_step m x t = None
  | Some (dn, et, len) =>
      exists m',
        insert_step m x t = Some m' /\
        range_data_num m' (data_range m x) = dn /\
        range_exec_time m' (data_range m x) = et /\
        range_len m' (data_range m x) = len /\
        (forall k', In k' [1; 2; 3]%nat -> k' <> data_range m x ->
                    range_data_num m' k' = range_data_num m k' /\
                    range_exec_time m' k' = range_exec_time m k' /\
                    range_len m' k' = range_len m k')
  end.
Proof.
  unfold insert_step.
  destruct (data_range_cases m x) as [<-|[<-|[<-|[]]]]; cbn [range_data_num range_exec_time range_len];
    match goal with
    | |- context [insert_sample ?a ?b ?c ?d ?e] => destruct (insert_sample a b c d e) as [[[dn et] len]|]
    end; try reflexivity;
    (eexists; split; [reflexivity|]; repeat split; try reflexivity;
     simpl in H; destruct H as [<-|[<-|[<-|[]]]]; try reflexivity; congruence).
Qed.

Lemma insert_sample_bounds (dn et : list float) (len : nat) (x t : float)
    (dn' et' : list float) (len' : nat) :
  insert_sample dn et len x t = Some (dn', et', len') ->
  (len <= len' <= S len)%nat /\
  cell dn' (len' - 1) = cell dn (len - 1) /\
  ((x <=? cell dn 0)%float = false -> cell dn' 0 = cell dn 0).
Proof.
  unfold insert_sample.
  destruct (first_not_below dn x 0 len) as [i|] eqn:Hf.
  2:{ intros H; injection H as <- <- <-. repeat split; lia. }
  apply first_not_below_some in Hf as (Hi & Hle & Hbelow).
  destruct (cell dn i =? x)%float.
  { intros H; injection H as <- <- <-. repeat split; lia. }
  destruct ((len <? List.length dn) && (len <? List.length et))%nat eqn:Hroom; [|discriminate].
  apply andb_true_iff in Hroom as [Hroom _]. apply Nat.ltb_lt in Hroom.
  intros H; injection H as <- <- <-.
  split; [lia|]. split.
  - rewrite inserted_cell by lia.
    replace (S len - 1)%nat with len by lia.
    destruct (Nat.eqb_spec len i); [lia|].
    destruct (Nat.ltb_spec i len); [|lia]. rewrite Nat.leb_refl. reflexivity.
  - intros H0. assert (i <> 0)%nat by (intros ->; congruence).
    rewrite inserted_cell by lia.
    destruct (Nat.eqb_spec 0 i); [lia|]. reflexivity.
Qed.

(** What the insertion step keeps whenever it returns. *)
Lemma insert_step_result_bounds (m m' : class_model) (x t : float) :
  insert_step m x t = Some m' ->
  cell (data_num2 m') 0 = cell (data_num2 m) 0 /\
  cell (data_num3 m') 0 = cell (data_num3 m) 0 /\
  (forall k, In k [1; 2; 3]%nat ->
     (range_len m k <= range_len m' k)%nat /\
     cell (range_data_num m' k) (range_len m' k - 1)
     = cell (range_data_num m k) (range_len m k - 1)) /\
  (forall y, data_range m' y = data_range m y) /\
  (ranges_contiguous m -> ranges_contiguous m').
Proof.
  intros Hstep.
  pose proof (insert_step_range m x t) as H.
  destruct (insert_sample (range_data_num m (data_range m x)) (range_exec_time m (data_range m x))
              (range_len m (data_range m x)) x t) as [[[dn et] len]|] eqn:Hins; [|congruence].
  destruct H as (m0 & Hm0 & Hdn & Het & Hlen & Hother).
  rewrite Hstep in Hm0. injection Hm0 as <-.
  apply insert_sample_bounds in Hins as (Hl & Hlast & Hfirst).
  assert (Hk : forall k, In k [1; 2; 3]%nat ->
             (range_len m k <= range_len m' k)%nat /\
             cell (range_data_num m' k) (range_len m' k - 1)
             = cell (range_data_num m k) (range_len m k - 1)).
  { intros k Hk. destruct (Nat.eq_dec k (data_range m x)) as [->|Hne].
    - rewrite Hdn, Hlen. split; [lia | exact Hlast].
    - destruct (Hother k Hk Hne) as (-> & _ & ->). split; [lia | reflexivity]. }
  assert (H2 : cell (data_num2 m') 0 = cell (data_num2 m) 0).
  { destruct (Nat.eq_dec 2 (data_range m x)) as [E|Hne].
    - change (data_num2 m') with (range_data_num m' 2). rewrite E, Hdn.
      rewrite <- E in Hfirst. apply Hfirst.
      unfold data_range in E. cbn [range_data_num].
      destruct (x <=? cell (data_num2 m) 0)%float; [discriminate E | reflexivity].
    - destruct (Hother 2%nat ltac:(simpl; tauto) Hne) as (E & _). exact (f_equal (fun a => cell a 0) E). }
  assert (H3 : cell (data_num3 m') 0 = cell (data_num3 m) 0).
  { destruct (Nat.eq_dec 3 (data_range m x)) as [E|Hne].
    - change (data_num3 m') with (range_data_num m' 3). rewrite E, Hdn.
      rewrite <- E in Hfirst. apply Hfirst.
      unfold data_range in E. cbn [range_data_num].
      destruct (x <=? cell (data_num2 m) 0)%float; [discriminate E|].
      destruct (x <=? cell (data_num3 m) 0)%float; [discriminate E | reflexivity].
    - destruct (Hother 3%nat ltac:(simpl; tauto) Hne) as (E & _). exact (f_equal (fun a => cell a 0) E). }
  split; [exact H2|]. split; [exact H3|]. split; [exact Hk|].
  split; [intros y; unfold data_range; rewrite H2, H3; reflexivity|].
  intros (Hn1 & Hn2 & Hn3 & Hc12 & Hc23).
  destruct (Hk 1%nat ltac:(simpl; tauto)) as [L1 E1].
  destruct (Hk 2%nat ltac:(simpl; tauto)) as [L2 E2].
  destruct (Hk 3%nat ltac:(simpl; tauto)) as [L3 _].
  cbn [range_len range_data_num] in *.
  unfold ranges_contiguous. rewrite E1, E2, H2, H3. repeat split; try lia; assumption.
Qed.

(** X17: when the range an observation is routed to has a free cell, the
    insertion step of [add_new_data] returns, and it leaves the first size
    of the middle range, the first size of the far range and the last size
    of each of the three ranges as they were, and shortens no range.  So
    such an observation does not move the two thresholds that route the
    later observations and the predictions, and ranges that follow one
    another still do after the step.  (Without a free cell the step can
    write past the range: [insert_step_full_range_overruns].) *)
Theorem insert_step_keeps_bounds (m : class_model) (x t : float) :
  (range_len m (data_range m x) < List.length (range_data_num m (data_range m x)))%nat ->
  (range_len m (data_range m x) < List.length (range_exec_time m (data_range m x)))%nat ->
  exists m',
    insert_step m x t = Some m' /\
    cell (data_num2 m') 0 = cell (data_num2 m) 0 /\
    cell (data_num3 m') 0 = cell (data_num3 m) 0 /\
    (forall k, In k [1; 2; 3]%nat ->
       (range_len m k <= range_len m' k)%nat /\
       cell (range_data_num m' k) (range_len m' k - 1)
       = cell (range_data_num m k) (range_len m k - 1)) /\
    (forall y, data_range m' y = data_range m y) /\
    (ranges_contiguous m -> ranges_contiguous m').
Proof.
  intros Hr Hr'.
  destruct (insert_sample_room _ _ _ x t Hr Hr') as [[[dn et] len] Hins].
  pose proof (insert_step_range m x t) as H. rewrite Hins in H.
  destruct H as (m' & Hstep & _).
  exists m'. split; [exact Hstep|].
  exact (insert_step_result_bounds m m' x t Hstep).
Qed.

Lemma insert_step_keeps_bounds_witness :
  exists m',
    insert_step gap_model 15 7 = Some m' /\
    data2_len m' = 5%nat /\
    cell (data_num2 m') 0 = 10%float /\ cell (data_num2 m') 4 = 40%float /\
    ranges_contiguous m'.
Proof.
  destruct (insert_step_keeps_bounds gap_model 15 7) as (m' & Hstep & H2 & _ & Hk & _ & Hc).
  - simpl; lia.
  - simpl; lia.
  - exists m'. split; [exact Hstep|].
    assert (E : m' = match insert_step gap_model 15 7 with Some r => r | None => m' end)
      by (rewrite Hstep; reflexivity).
    split; [rewrite E; reflexivity|]. split; [exact H2|].
    split; [|exact (Hc gap_model_contiguous)].
    destruct (Hk 2%nat (or_intror (or_introl eq_refl))) as [_ Hlast].
    cbn [range_len range_data_num] in Hlast.
    replace (data2_len m') with 5%nat in Hlast by (rewrite E; reflexivity).
    exact Hlast.
Defined.

(** X18: an observation whose size is above every size of the range it is
    routed to is dropped, whichever range that is and whether or not the
    ranges are sorted: the step returns the sample set as it was.  A size
    that falls between the last sample of a range and the first sample of
    the next one is routed to the former, and is never recorded. *)
Theorem insert_step_above_range_dropped (m : class_model) (x t : float) :
  (forall j, (j < range_len m (data_range m x))%nat ->
             (cell (range_data_num m (data_range m x)) j <? x)%float = true) ->
  insert_step m x t = Some m.
Proof.
  intros Hall.
  assert (Hnone : first_not_below (range_data_num m (data_range m x)) x 0
                    (range_len m (data_range m x)) = None).
  { apply first_not_below_all_below. intros j Hj. apply ltb_not_leb, Hall. lia. }
  unfold insert_step, insert_sample.
  destruct (data_range_cases m x) as [E|[E|[E|[]]]]; rewrite <- E in *;
    cbn [range_data_num range_len] in Hnone; rewrite Hnone; destruct m; reflexivity.
Qed.

Lemma insert_step_above_range_dropped_witness :
  data_range gap_model 5 = 1%nat /\ insert_step gap_model 5 7 = Some gap_model.
Proof.
  split; [reflexivity|].
  apply insert_step_above_range_dropped.
  intros j Hj. change (data_range gap_model 5) with 1%nat in *. simpl in Hj.
  do 4 (destruct j as [|j]; [reflexivity|]). lia.
Defined.

(** X19: an observation whose size is new to the range it is routed to, and
    which has a sample of a larger size in that range, is recorded: when
    index [i] is the first whose size is not below the new one, and the
    range has a free cell, the step puts the size and the time at index [i],
    moves the samples from [i] on up by one cell, makes the range one sample
    longer, and leaves the samples before [i] and the other two ranges as
    they were. *)
Theorem insert_step_new_sample (m : class_model) (x t : float) (i : nat) :
  let k := data_range m x in
  (i < range_len m k)%nat ->
  (x <=? cell (range_data_num m k) i)%float = true ->
  (cell (range_data_num m k) i =? x)%float = false ->
  (forall j, (j < i)%nat -> (x <=? cell (range_data_num m k) j)%float = false) ->
  (range_len m k < List.length (range_data_num m k))%nat ->
  (range_len m k < List.length (range_exec_time m k))%nat ->
  exists m',
    insert_step m x t = Some m' /\
    range_len m' k = S (range_len m k) /\
    cell (range_data_num m' k) i = x /\ cell (range_exec_time m' k) i = t /\
    (forall j, (j < i)%nat ->
       cell (range_data_num m' k) j = cell (range_data_num m k) j /\
       cell (range_exec_time m' k) j = cell (range_exec_time m k) j) /\
    (forall j, (i <= j < range_len m k)%nat ->
       cell (range_data_num m' k) (S j) = cell (range_data_num m k) j /\
       cell (range_exec_time m' k) (S j) = cell (range_exec_time m k) j) /\
    (forall k', In k' [1; 2; 3]%nat -> k' <> k ->
       range_data_num m' k' = range_data_num m k' /\
       range_exec_time m' k' = range_exec_time m k' /\
       range_len m' k' = range_len m k').
Proof.
  intros k Hi Hle Hne Hbelow Hr Hr'.
  assert (Hf : first_not_below (range_data_num m k) x 0 (range_len m k) = Some i).
  { destruct (first_not_below (range_data_num m k) x 0 (range_len m k)) as [i0|] eqn:Hf.
    - apply first_not_below_some in Hf as (Hi0 & Hle0 & Hbelow0).
      f_equal. destruct (Nat.lt_trichotomy i0 i) as [Hlt|[E|Hgt]]; [|exact E|].
      + rewrite (Hbelow i0 Hlt) in Hle0. discriminate.
      + rewrite (Hbelow0 i) in Hle by lia. discriminate.
    - rewrite (first_not_below_none _ _ _ _ Hf i) in Hle by lia. discriminate. }
  pose proof (insert_step_range m x t) as H. fold k in H.
  unfold insert_sample in H. rewrite Hf, Hne in H.
  apply Nat.ltb_lt in Hr, Hr'. rewrite Hr, Hr' in H. cbn [andb] in H.
  apply Nat.ltb_lt in Hr, Hr'.
  destruct H as (m' & Hstep & Hdn & Het & Hlen & Hother).
  exists m'. split; [exact Hstep|]. split; [exact Hlen|].
  rewrite Hdn, Het.
  split; [rewrite inserted_cell by lia; rewrite Nat.eqb_refl; reflexivity|].
  split; [rewrite inserted_cell by lia; rewrite Nat.eqb_refl; reflexivity|].
  split; [|split; [|exact Hother]].
  - intros j Hj. rewrite !inserted_cell by lia.
    destruct (Nat.eqb_spec j i); [lia|]. destruct (Nat.ltb_spec i j); [lia|]. split; reflexivity.
  - intros j Hj. rewrite !inserted_cell by lia.
    destruct (Nat.eqb_spec (S j) i); [lia|]. destruct (Nat.ltb_spec i (S j)); [|lia].
    destruct (Nat.leb_spec (S j) (range_len m k)); [|lia]. simpl. rewrite Nat.sub_0_r.
    split; reflexivity.
Qed.

Lemma insert_step_new_sample_witness :
  exists m',
    insert_step gap_model 15 7 = Some m' /\
    data2_len m' = 5%nat /\
    cell (data_num2 m') 1 = 15%float /\ cell (exec_time2 m') 1 = 7%float /\
    cell (data_num2 m') 2 = 20%float.
Proof.
  destruct (insert_step_new_sample gap_model 15 7 1)
    as (m' & Hstep & Hlen & Hx & Ht & _ & Hshift & _).
  - simpl; lia.
  - reflexivity.
  - reflexivity.
  - intros j Hj. destruct j as [|j]; [reflexivity | lia].
  - simpl; lia.
  - simpl; lia.
  - exists m'. split; [exact Hstep|]. split; [exact Hlen|]. split; [exact Hx|].
    split; [exact Ht|]. exact (proj1 (Hshift 1%nat ltac:(simpl; lia))).
Defined.

(** ** Least-squares fit: what [polyfit] writes *)

(** The loop that copies the solution into [coefficientResults]. *)
Lemma store_loop_length (n : nat) (f : nat -> float) (a : list float) :
  List.length (for_up n (fun i res => store res i (f i)) a) = List.length a.
Proof. induction n as [|n IH]; simpl; [reflexivity|]. rewrite length_store. exact IH. Qed.

Lemma store_loop_cell (n : nat) (f : nat -> float) (a : list float) (k : nat) :
  cell (for_up n (fun i res => store res i (f i)) a) k
  = if ((k <? n) && (k <? List.length a))%nat then f k else cell a k.
Proof.
  induction n as [|n IH]; simpl; [reflexivity|].
  destruct (Nat.eq_dec n k) as [->|Hne].
  - destruct (Nat.ltb_spec k (S k)); [|lia]. simpl.
    destruct (Nat.ltb_spec k (List.length a)).
    + apply cell_store_eq. rewrite store_loop_length. assumption.
    + unfold cell. rewrite !nth_overflow; try reflexivity; try lia.
      rewrite length_store, store_loop_length. lia.
  - rewrite cell_store_neq by assumption. rewrite IH.
    destruct (Nat.ltb_spec k n), (Nat.ltb_spec k (S n)); try lia; reflexivity.
Qed.

(** X20: [polyfit] writes the cells [0 .. coefficientCount - 1] of
    [coefficientResults] and nothing else: the array keeps its length and
    its cells from [coefficientCount] on.  With fewer points than
    coefficients it answers -2 and writes nothing.  With enough points it
    answers 0 or -4, and in both cases the cells it writes hold what the
    elimination computed: a second call on the same points with another
    array of the same length gives the same code and the same
    coefficients, so nothing of what the array held before is left. *)
Theorem polyfit_frame (pow : float -> float -> float) (pointCount : nat)
    (xValues yValues : list float) (coefficientCount : nat)
    (coefficientResults previous : list float) :
  let result := polyfit pow pointCount xValues yValues coefficientCount coefficientResults in
  List.length (snd result) = List.length coefficientResults /\
  (forall k, (coefficientCount <= k)%nat -> cell (snd result) k = cell coefficientResults k) /\
  ((pointCount < coefficientCount)%nat -> result = (-2, coefficientResults)) /\
  ((coefficientCount <= pointCount)%nat ->
   (fst result = 0 \/ fst result = -4) /\
   (List.length previous = List.length coefficientResults ->
    fst (polyfit pow pointCount xValues yValues coefficientCount previous) = fst result /\
    forall k, (k < coefficientCount)%nat ->
      cell (snd (polyfit pow pointCount xValues yValues coefficientCount previous)) k
      = cell (snd result) k)).
Proof.
  cbv zeta. unfold polyfit.
  destruct (Nat.ltb_spec pointCount coefficientCount) as [Hlt|Hge].
  - repeat split; try reflexivity; intros; lia.
  - pose proof (eliminate_codes coefficientCount 0
                  (normal_equations pow pointCount xValues yValues coefficientCount)) as Hc.
    destruct (eliminate coefficientCount 0
                (normal_equations pow pointCount xValues yValues coefficientCount)) as [rVal ab].
    cbn [fst snd] in *. split; [apply store_loop_length|]. split.
    + intros k Hk. rewrite store_loop_cell.
      destruct (Nat.ltb_spec k coefficientCount); [lia | reflexivity].
    + split; [intros; lia|]. intros _. split; [exact Hc|].
      intros Hlen. split; [reflexivity|].
      intros k Hk. rewrite !store_loop_cell, Hlen.
      destruct (Nat.ltb_spec k coefficientCount); [|lia]. simpl.
      destruct (Nat.ltb_spec k (List.length coefficientResults)); [reflexivity|].
      unfold cell. rewrite !nth_overflow by lia. reflexivity.
Qed.

(** ** Least-squares fit: the transpose *)

(** A loop that writes the cells [base + c], [c < n], of an array. *)
Lemma store_run_length (n base : nat) (f : nat -> float) (a : list float) :
  List.length (for_up n (fun c a => store a (base + c) (f c)) a) = List.length a.
Proof. induction n as [|n IH]; simpl; [reflexivity|]. rewrite length_store. exact IH. Qed.

Lemma store_run_cell (n base : nat) (f : nat -> float) (a : list float) (k : nat) :
  (base + n <= List.length a)%nat ->
  cell (for_up n (fun c a => store a (base + c) (f c)) a) k
  = if ((base <=? k) && (k <? base + n))%nat then f (k - base)%nat else cell a k.
Proof.
  intros Hlen. induction n as [|n IH]; simpl.
  - destruct (Nat.leb_spec base k), (Nat.ltb_spec k (base + 0)); simpl; try reflexivity; lia.
  - destruct (Nat.eq_dec (base + n) k) as [<-|Hne].
    + rewrite cell_store_eq by (rewrite store_run_length; lia).
      destruct (Nat.leb_spec base (base + n)); [|lia].
      destruct (Nat.ltb_spec (base + n) (base + S n)); [|lia]. simpl. f_equal. lia.
    + rewrite cell_store_neq by assumption. rewrite IH by lia.
      destruct (Nat.leb_spec base k); simpl; [|reflexivity].
      destruct (Nat.ltb_spec k (base + n)), (Nat.ltb_spec k (base + S n)); try lia; reflexivity.
Qed.

(** The inner loop of [createTranspose]: row [r] of the matrix is written. *)
Lemma set_row (r : nat) (g : nat -> float) (n : nat) (M : matrix_t) :
  for_up n (fun c M => MATRIX_SET M r c (g c)) M
  = mk_matrix (rows M) (cols M)
      (for_up n (fun c a => store a (r * cols M + c) (g c)) (pContents M)).
Proof.
  induction n as [|n IH]; simpl; [destruct M; reflexivity|].
  rewrite IH. reflexivity.
Qed.

(** The two nested loops that fill a fresh matrix of [R] rows and [C]
    columns with [f r c], after [n] rows. *)
Lemma fill_rows (R C : nat) (f : nat -> nat -> float) (n : nat) :
  (n <= R)%nat ->
  exists contents,
    for_up n (fun r M => for_up (cols M) (fun c M => MATRIX_SET M r c (f r c)) M)
      (createMatrix R C) = mk_matrix R C contents /\
    List.length contents = (R * C)%nat /\
    (forall r c, (r < n)%nat -> (c < C)%nat -> cell contents (r * C + c) = f r c).
Proof.
  induction n as [|n IH]; intros Hn.
  - exists (repeat 0%float (R * C)). split; [reflexivity|].
    split; [apply repeat_length|]. intros; lia.
  - destruct (IH ltac:(lia)) as (cn & Hrun & Hlen & Hcells).
    cbn [for_up]. rewrite Hrun, set_row. cbn [rows cols pContents].
    eexists. split; [reflexivity|]. split; [rewrite store_run_length; exact Hlen|].
    intros r c Hr Hc. rewrite store_run_cell by (rewrite Hlen; nia).
    destruct (Nat.leb_spec (n * C) (r * C + c)) as [H1|H1];
      destruct (Nat.ltb_spec (r * C + c) (n * C + C)) as [H2|H2]; simpl.
    + assert (r = n) by nia. subst r. f_equal. lia.
    + exfalso. nia.
    + apply Hcells; [nia | exact Hc].
    + exfalso. nia.
Qed.

Lemma createTranspose_cells (pMat : matrix_t) :
  exists contents,
    createTranspose pMat = mk_matrix (cols pMat) (rows pMat) contents /\
    List.length contents = (cols pMat * rows pMat)%nat /\
    (forall r c, (r < cols pMat)%nat -> (c < rows pMat)%nat ->
                 cell contents (r * rows pMat + c) = MATRIX_VALUE pMat c r).
Proof.
  unfold createTranspose. cbv zeta. cbn [rows cols createMatrix].
  destruct (fill_rows (cols pMat) (rows pMat) (fun r c => MATRIX_VALUE pMat c r)
              (cols pMat) ltac:(lia)) as (cn & Hrun & Hlen & Hcells).
  exists cn. split; [exact Hrun|]. split; [exact Hlen | exact Hcells].
Qed.

(** X21: for a matrix whose contents have [rows * cols] cells,
    [createTranspose] gives a matrix of [cols] rows and [rows] columns whose
    entry [(r, c)] is the entry [(c, r)] of the argument, and the transpose
    of the transpose is the matrix itself. *)
Theorem createTranspose_involutive (pMat : matrix_t) :
  List.length (pContents pMat) = (rows pMat * cols pMat)%nat ->
  rows (createTranspose pMat) = cols pMat /\
  cols (createTranspose pMat) = rows pMat /\
  (forall r c, (r < cols pMat)%nat -> (c < rows pMat)%nat ->
               MATRIX_VALUE (createTranspose pMat) r c = MATRIX_VALUE pMat c r) /\
  createTranspose (createTranspose pMat) = pMat.
Proof.
  intros Hwf.
  destruct (createTranspose_cells pMat) as (t & Ht & Htlen & Htcells).
  split; [rewrite Ht; reflexivity|]. split; [rewrite Ht; reflexivity|].
  assert (Hval : forall r c, (r < cols pMat)%nat -> (c < rows pMat)%nat ->
            MATRIX_VALUE (createTranspose pMat) r c = MATRIX_VALUE pMat c r).
  { intros r c Hr Hc. rewrite Ht. unfold MATRIX_VALUE at 1. cbn [pContents cols].
    apply Htcells; assumption. }
  split; [exact Hval|].
  destruct (createTranspose_cells (createTranspose pMat)) as (tt & Htt & Httlen & Httcells).
  rewrite Htt. rewrite Ht in *. cbn [rows cols] in *. rewrite <- Ht in *.
  destruct pMat as [R C contents]. cbn [rows cols pContents] in *.
  f_equal. apply (nth_ext _ _ 0%float 0%float); [lia|].
  intros k Hk. rewrite Httlen in Hk.
  assert (HC : (0 < C)%nat) by nia.
  pose proof (Nat.div_mod_eq k C) as Hdm.
  pose proof (Nat.mod_upper_bound k C ltac:(lia)) as Hmod.
  assert (Hdiv : (k / C < R)%nat) by (apply Nat.Div0.div_lt_upper_bound; lia).
  change (nth k tt 0%float) with (cell tt k). change (nth k contents 0%float) with (cell contents k).
  replace k with ((k / C) * C + k mod C)%nat at 1 by lia.
  rewrite Httcells by assumption. rewrite Hval by assumption.
  unfold MATRIX_VALUE. cbn [pContents cols]. f_equal. lia.
Qed.

Lemma createTranspose_involutive_witness :
  createTranspose (mk_matrix 2 3 [1; 2; 3; 4; 5; 6]%float)
  = mk_matrix 3 2 [1; 4; 2; 5; 3; 6]%float /\
  createTranspose (createTranspose (mk_matrix 2 3 [1; 2; 3; 4; 5; 6]%float))
  = mk_matrix 2 3 [1; 2; 3; 4; 5; 6]%float.
Proof.
  split; [reflexivity|].
  apply (createTranspose_involutive (mk_matrix 2 3 [1; 2; 3; 4; 5; 6]%float)). reflexivity.
Defined.

(** ** Fit of a bucket and the test of a step *)

(** X22: with fewer than four samples [get_avg_error] hands back the
    coefficient block it was given, unwritten ([polyfit] has refused the
    samples), so the two errors are measured with whatever the block held;
    with no sample at all both errors are NaN. *)
Theorem get_avg_error_few_samples (pow : float -> float -> float)
    (data_num exec_time : list float) (data_len : nat) (exec_coef : list float)
    (first_flag : bool) :
  ((data_len < 4)%nat ->
   snd (get_avg_error pow data_num exec_time data_len exec_coef first_flag) = exec_coef) /\
  get_avg_error pow data_num exec_time 0 exec_coef first_flag = (nan, nan, exec_coef).
Proof.
  split.
  - intros H. unfold get_avg_error. rewrite polyfit_too_few_points by exact H. reflexivity.
  - unfold get_avg_error. rewrite polyfit_too_few_points by lia. reflexivity.
Qed.

(** NaN in comparisons and in differences. *)
Lemma not_eqb_self_nan (x : float) : (x =? x)%float = false -> Prim2SF x = S754_nan.
Proof.
  intros H. destruct (Prim2SF x) eqn:E; try reflexivity; exfalso;
    assert (Hx : (x =? x)%float = true)
      by (apply eqb_fcompare; unfold fcompare; rewrite E; apply SFcompare_refl; discriminate);
    congruence.
Qed.

Lemma nan_ltb_l (x y : float) : Prim2SF x = S754_nan -> (x <? y)%float = false.
Proof. intros H. rewrite ltb_spec, H. reflexivity. Qed.

Lemma nan_ltb_r (x y : float) : Prim2SF y = S754_nan -> (x <? y)%float = false.
Proof. intros H. rewrite ltb_spec, H. unfold SFltb. destruct (Prim2SF x); reflexivity. Qed.

Lemma nan_sub_l (x y : float) : Prim2SF x = S754_nan -> Prim2SF (x - y) = S754_nan.
Proof. intros H. rewrite sub_spec, H. reflexivity. Qed.

Lemma nan_sub_r (x y : float) : Prim2SF y = S754_nan -> Prim2SF (x - y) = S754_nan.
Proof. intros H. rewrite sub_spec, H. destruct (Prim2SF x); reflexivity. Qed.

(** X23: a step is never accepted when one of the four error rates it
    compares is NaN, be it a rate recorded so far or a rate of the new fit:
    a bucket whose fit is NaN (as after a zero pivot) ends the phase. *)
Theorem step_accepted_nan (min_left_rate min_right_rate left_error_rate right_error_rate : float) :
  (min_left_rate =? min_left_rate)%float = false \/
  (min_right_rate =? min_right_rate)%float = false \/
  (left_error_rate =? left_error_rate)%float = false \/
  (right_error_rate =? right_error_rate)%float = false ->
  step_accepted min_left_rate min_right_rate left_error_rate right_error_rate = false.
Proof.
  unfold step_accepted.
  intros [H|[H|[H|H]]]; apply not_eqb_self_nan in H.
  - rewrite (nan_ltb_r left_error_rate _ H), (nan_ltb_l _ left_error_rate H). simpl.
    apply nan_ltb_l, nan_sub_r, H.
  - rewrite (nan_ltb_r right_error_rate _ H), (nan_ltb_l _ right_error_rate H).
    rewrite !andb_false_r. apply nan_ltb_r, nan_sub_l, H.
  - rewrite (nan_ltb_l _ min_left_rate H), (nan_ltb_r min_left_rate _ H). simpl.
    apply nan_ltb_l, nan_sub_l, H.
  - rewrite (nan_ltb_l _ min_right_rate H), (nan_ltb_r min_right_rate _ H).
    rewrite !andb_false_r. apply nan_ltb_r, nan_sub_r, H.
Qed.

Lemma step_accepted_nan_witness : step_accepted 3 4 nan 1 = false.
Proof. apply step_accepted_nan. right; right; left. reflexivity. Defined.

(** ** Re-partitioning: the roll back of a step *)

(** The shift of the right arrays in [take_from_right]: the cells [0 .. n-1]
    receive the contents of the cells [1 .. n]. *)
Lemma shift_down_length (n : nat) (a : list float) :
  List.length (for_up n (fun d a => store a d (cell a (d + 1))) a) = List.length a.
Proof. induction n as [|n IH]; simpl; [reflexivity|]. rewrite length_store. exact IH. Qed.

Lemma shift_down_cell (n : nat) (a : list float) (k : nat) :
  (n < List.length a)%nat ->
  cell (for_up n (fun d a => store a d (cell a (d + 1))) a) k
  = if (k <? n)%nat then cell a (k + 1) else cell a k.
Proof.
  revert k. induction n as [|n IH]; intros k Hlen; simpl; [reflexivity|].
  destruct (Nat.eq_dec n k) as [->|Hne].
  - rewrite cell_store_eq by (rewrite shift_down_length; lia).
    rewrite IH by lia.
    destruct (Nat.ltb_spec (k + 1) k); [lia|].
    destruct (Nat.ltb_spec k (S k)); [reflexivity | lia].
  - rewrite cell_store_neq by assumption. rewrite IH by lia.
    destruct (Nat.ltb_spec k n), (Nat.ltb_spec k (S n)); try lia; reflexivity.
Qed.

(** The shift of the right arrays in [give_to_right]: the cells [1 .. n]
    receive the contents of the cells [0 .. n-1]. *)
Lemma shift_right_as_insert (n : nat) :
  forall a : list float,
    for_down 1 n (fun d a => store a d (cell a (d - 1))) a
    = for_down 0 n (fun j a => store a (j + 1) (cell a j)) a.
Proof.
  induction n as [|n IH]; intros a; simpl; [reflexivity|].
  rewrite Nat.sub_0_r, IH. replace (n + 1)%nat with (S n) by lia. reflexivity.
Qed.

(** X24: the move of phase 1 followed by its roll back gives back the two
    buckets only in part.  The lengths and the samples of the left bucket
    are as before, and so are the samples of the right bucket from index 1
    on; but cell 0 of the right arrays receives the last sample of the left
    bucket, whatever it held, and the cell after the last sample of the
    left bucket is set to zero.  The right bucket is restored exactly when
    the two buckets share their boundary sample, size and time. *)
Theorem rollback_of_phase1_step (st st1 st2 : scan_state) :
  List.length (min_right_data_num st) = List.length (min_left_data_num st) ->
  List.length (min_left_exec_time st) = List.length (min_left_data_num st) ->
  List.length (min_right_exec_time st) = List.length (min_left_data_num st) ->
  take_from_right st = Some st1 ->
  give_to_right st1 = Some st2 ->
  left_len st2 = left_len st /\ right_len st2 = right_len st /\
  (forall k, (k < left_len st)%nat ->
     cell (min_left_data_num st2) k = cell (min_left_data_num st) k /\
     cell (min_left_exec_time st2) k = cell (min_left_exec_time st) k) /\
  cell (min_left_data_num st2) (left_len st) = 0%float /\
  cell (min_left_exec_time st2) (left_len st) = 0%float /\
  cell (min_right_data_num st2) 0 = cell (min_left_data_num st) (left_len st - 1) /\
  cell (min_right_exec_time st2) 0 = cell (min_left_exec_time st) (left_len st - 1) /\
  (forall k, (1 <= k < right_len st)%nat ->
     cell (min_right_data_num st2) k = cell (min_right_data_num st) k /\
     cell (min_right_exec_time st2) k = cell (min_right_exec_time st) k).
Proof.
  intros Hrn Hlt Hrt. unfold take_from_right.
  set (cap := List.length (min_left_data_num st)) in *.
  destruct ((1 <? cap) && (left_len st <? cap) && (1 <=? right_len st) && (right_len st <=? cap))%nat
    eqn:Hc; [|discriminate].
  apply andb_true_iff in Hc as [Hc Hc4]. apply andb_true_iff in Hc as [Hc Hc3].
  apply andb_true_iff in Hc as [Hc1 Hc2].
  apply Nat.ltb_lt in Hc1, Hc2. apply Nat.leb_le in Hc3, Hc4.
  intros H; injection H as <-. unfold give_to_right.
  cbn [min_left_data_num min_right_data_num min_left_exec_time min_right_exec_time
       left_len right_len].
  rewrite length_store. fold cap.
  destruct ((2 <=? left_len st + 1) && (left_len st + 1 <=? cap) && (right_len st - 1 <? cap))%nat
    eqn:Hg; [|discriminate].
  intros H; injection H as <-.
  cbn [min_left_data_num min_right_data_num min_left_exec_time min_right_exec_time
       left_len right_len].
  apply andb_true_iff in Hg as [Hg _]. apply andb_true_iff in Hg as [Hg1 _].
  apply Nat.leb_le in Hg1.
  replace (left_len st + 1 - 1)%nat with (left_len st) by lia.
  replace (left_len st + 1 - 2)%nat with (left_len st - 1)%nat by lia.
  rewrite !shift_right_as_insert.
  split; [lia|]. split; [lia|].
  split; [|split; [|split; [|split; [|split]]]].
  - intros k Hk. rewrite !cell_store_neq by lia. split; reflexivity.
  - apply cell_store_eq. rewrite length_store. fold cap. lia.
  - apply cell_store_eq. rewrite length_store, Hlt. lia.
  - rewrite cell_store_eq by (rewrite shift_up_length, length_store, shift_down_length, Hrn; lia).
    apply cell_store_neq. lia.
  - rewrite cell_store_eq by (rewrite shift_up_length, length_store, shift_down_length, Hrt; lia).
    apply cell_store_neq. lia.
  - intros k Hk. rewrite !cell_store_neq by lia.
    rewrite !shift_up_cell by (rewrite length_store, shift_down_length; lia).
    destruct (Nat.ltb_spec 0 k); [|lia].
    destruct (Nat.leb_spec k (0 + (right_len st - 1))); [|lia]. simpl.
    rewrite !cell_store_neq by lia.
    rewrite !shift_down_cell by lia.
    destruct (Nat.ltb_spec (k - 1) (right_len st - 1)); [|lia].
    replace (k - 1 + 1)%nat with k by lia. split; reflexivity.
Qed.

Lemma rollback_of_phase1_step_witness :
  exists st2,
    give_to_right
      (match take_from_right
               (mk_scan_state [1; 2; 3; 0; 0; 0]%float [7; 8; 9; 0; 0; 0]%float
                  [10; 20; 30; 0; 0; 0]%float [70; 80; 90; 0; 0; 0]%float 3 3
                  0 0 0 0 [] [] 3 3) with
       | Some st1 => st1
       | None => mk_scan_state [] [] [] [] 0 0 0 0 0 0 [] [] 0 0
       end) = Some st2 /\
    cell (min_right_data_num st2) 0 = 3%float /\
    cell (min_right_exec_time st2) 0 = 30%float.
Proof.
  eexists. split; [reflexivity|].
  destruct (rollback_of_phase1_step
              (mk_scan_state [1; 2; 3; 0; 0; 0]%float [7; 8; 9; 0; 0; 0]%float
                 [10; 20; 30; 0; 0; 0]%float [70; 80; 90; 0; 0; 0]%float 3 3
                 0 0 0 0 [] [] 3 3) _ _ eq_refl eq_refl eq_refl eq_refl eq_refl)
    as (_ & _ & _ & _ & _ & Hn & Ht & _).
  split; [exact Hn | exact Ht].
Defined.

(** ** Re-partitioning: the two defects, on samples *)

(** The move of phase 1, the recording of the step and the roll back, on
    the cells and the lengths. *)
Lemma take_record_give (st st1 st2 : scan_state) (left_error right_error
    left_error_rate right_error_rate : float) (left_coef right_coef : list float) :
  List.length (min_right_data_num st) = List.length (min_left_data_num st) ->
  List.length (min_left_exec_time st) = List.length (min_left_data_num st) ->
  List.length (min_right_exec_time st) = List.length (min_left_data_num st) ->
  take_from_right st = Some st1 ->
  give_to_right (record_min st1 left_error right_error left_error_rate right_error_rate
                   left_coef right_coef) = Some st2 ->
  min_left_len st2 = S (left_len st) /\ min_right_len st2 = (right_len st - 1)%nat /\
  min_left_error_rate st2 = left_error_rate /\ min_right_error_rate st2 = right_error_rate /\
  left_len st2 = left_len st /\ right_len st2 = right_len st /\
  (forall k, (k < left_len st)%nat ->
     cell (min_left_data_num st2) k = cell (min_left_data_num st) k /\
     cell (min_left_exec_time st2) k = cell (min_left_exec_time st) k) /\
  cell (min_left_data_num st2) (left_len st) = 0%float /\
  cell (min_left_exec_time st2) (left_len st) = 0%float /\
  cell (min_right_data_num st2) 0 = cell (min_left_data_num st) (left_len st - 1) /\
  cell (min_right_exec_time st2) 0 = cell (min_left_exec_time st) (left_len st - 1) /\
  (forall k, (1 <= k < right_len st)%nat ->
     cell (min_right_data_num st2) k = cell (min_right_data_num st) k /\
     cell (min_right_exec_time st2) k = cell (min_right_exec_time st) k).
Proof.
  intros Hrn Hlt Hrt. unfold take_from_right.
  set (cap := List.length (min_left_data_num st)) in *.
  destruct ((1 <? cap) && (left_len st <? cap) && (1 <=? right_len st) && (right_len st <=? cap))%nat
    eqn:Hc; [|discriminate].
  apply andb_true_iff in Hc as [Hc Hc4]. apply andb_true_iff in Hc as [Hc Hc3].
  apply andb_true_iff in Hc as [Hc1 Hc2].
  apply Nat.ltb_lt in Hc1, Hc2. apply Nat.leb_le in Hc3, Hc4.
  intros H; injection H as <-. unfold give_to_right.
  cbn [record_min min_left_data_num min_right_data_num min_left_exec_time min_right_exec_time
       left_len right_len min_left_error min_right_error min_left_error_rate
       min_right_error_rate min_left_coef min_right_coef min_left_len min_right_len].
  rewrite length_store. fold cap.
  destruct ((2 <=? left_len st + 1) && (left_len st + 1 <=? cap) && (right_len st - 1 <? cap))%nat
    eqn:Hg; [|discriminate].
  intros H; injection H as <-.
  cbn [min_left_data_num min_right_data_num min_left_exec_time min_right_exec_time
       left_len right_len min_left_error_rate min_right_error_rate min_left_len min_right_len].
  apply andb_true_iff in Hg as [Hg _]. apply andb_true_iff in Hg as [Hg1 _].
  apply Nat.leb_le in Hg1.
  replace (left_len st + 1 - 1)%nat with (left_len st) by lia.
  replace (left_len st + 1 - 2)%nat with (left_len st - 1)%nat by lia.
  rewrite !shift_right_as_insert.
  split; [lia|]. split; [reflexivity|]. split; [reflexivity|]. split; [reflexivity|].
  split; [lia|]. split; [lia|].
  split; [|split; [|split; [|split; [|split]]]].
  - intros k Hk. rewrite !cell_store_neq by lia. split; reflexivity.
  - apply cell_store_eq. rewrite length_store. fold cap. lia.
  - apply cell_store_eq. rewrite length_store, Hlt. lia.
  - rewrite cell_store_eq by (rewrite shift_up_length, length_store, shift_down_length, Hrn; lia).
    apply cell_store_neq. lia.
  - rewrite cell_store_eq by (rewrite shift_up_length, length_store, shift_down_length, Hrt; lia).
    apply cell_store_neq. lia.
  - intros k Hk. rewrite !cell_store_neq by lia.
    rewrite !shift_up_cell by (rewrite length_store, shift_down_length; lia).
    destruct (Nat.ltb_spec 0 k); [|lia].
    destruct (Nat.leb_spec k (0 + (right_len st - 1))); [|lia]. simpl.
    rewrite !cell_store_neq by lia.
    rewrite !shift_down_cell by lia.
    destruct (Nat.ltb_spec (k - 1) (right_len st - 1)); [|lia].
    replace (k - 1 + 1)%nat with k by lia. split; reflexivity.
Qed.

(** X25: the defect behind the first failure of C3, whatever the samples.
    When a step of phase 1 is recorded and one of the recorded rates is
    below 5, the scan stops: it keeps the lengths and the rates recorded
    after the step, and rolls the arrays back.  The running lengths are
    those of before the step, and so are the samples of the left bucket and
    the samples of the right bucket from index 1 on; cell 0 of the right
    arrays receives the last sample of the left bucket, and the cell that
    the recorded left length now reaches holds 0.  The recorded lengths, one
    more on the left and one less on the right, no longer match the
    arrays. *)
Theorem phase1_early_stop_state (pow : float -> float -> float)
    (uninit_coef : alloc_site -> list float) (first_flag : bool) (todo rec : nat)
    (st st1 st2 : scan_state) :
  List.length (min_right_data_num st) = List.length (min_left_data_num st) ->
  List.length (min_left_exec_time st) = List.length (min_left_data_num st) ->
  List.length (min_right_exec_time st) = List.length (min_left_data_num st) ->
  take_from_right st = Some st1 ->
  let left_fit :=
    get_avg_error pow (min_left_data_num st1) (min_left_exec_time st1) (left_len st1)
      (uninit_coef (Phase1Left rec)) first_flag in
  let right_fit :=
    get_avg_error pow (min_right_data_num st1) (min_right_exec_time st1) (right_len st1)
      (uninit_coef (Phase1Right rec)) false in
  step_accepted (min_left_error_rate st) (min_right_error_rate st)
    (snd (fst left_fit)) (snd (fst right_fit)) = true ->
  ((snd (fst left_fit) <? 5)%float || (snd (fst right_fit) <? 5)%float) = true ->
  phase1 pow uninit_coef first_flag (S todo) rec st = Some st2 ->
  min_left_len st2 = S (left_len st) /\ min_right_len st2 = (right_len st - 1)%nat /\
  min_left_error_rate st2 = snd (fst left_fit) /\
  min_right_error_rate st2 = snd (fst right_fit) /\
  left_len st2 = left_len st /\ right_len st2 = right_len st /\
  (forall k, (k < left_len st)%nat ->
     cell (min_left_data_num st2) k = cell (min_left_data_num st) k /\
     cell (min_left_exec_time st2) k = cell (min_left_exec_time st) k) /\
  cell (min_left_data_num st2) (left_len st) = 0%float /\
  cell (min_left_exec_time st2) (left_len st) = 0%float /\
  cell (min_right_data_num st2) 0 = cell (min_left_data_num st) (left_len st - 1) /\
  cell (min_right_exec_time st2) 0 = cell (min_left_exec_time st) (left_len st - 1) /\
  (forall k, (1 <= k < right_len st)%nat ->
     cell (min_right_data_num st2) k = cell (min_right_data_num st) k /\
     cell (min_right_exec_time st2) k = cell (min_right_exec_time st) k).
Proof.
  intros Hrn Hlt Hrt Htake left_fit right_fit Hacc Hsmall.
  cbn [phase1]. rewrite Htake. fold left_fit right_fit.
  destruct left_fit as [[left_error left_error_rate] left_coef].
  destruct right_fit as [[right_error right_error_rate] right_coef].
  cbn [fst snd] in Hacc, Hsmall |- *.
  destruct (take_from_right_lengths st st1 Htake) as (_ & _ & _ & _ & _ & Hml & Hmr).
  rewrite Hml, Hmr, Hacc.
  cbn [record_min min_left_error_rate min_right_error_rate]. rewrite Hsmall.
  intros Hgive.
  exact (take_record_give st st1 st2 left_error right_error left_error_rate right_error_rate
           left_coef right_coef Hrn Hlt Hrt Htake Hgive).
Qed.

(** The early stop of phase 1 on the buckets [steady_left] and
    [steady_right]: the recorded lengths are 7 and 6, the running lengths 6
    and 7, and the cell that the left length 7 reaches holds 0. *)
Lemma phase1_early_stop_state_witness :
  exists st2,
    phase1 pow_exact zero_blocks true 7 0
      (initial_scan_state pow_exact zero_blocks 0 steady_left_num steady_right_num
         steady_left_time steady_right_time 6 7 true) = Some st2 /\
    min_left_len st2 = 7%nat /\ min_right_len st2 = 6%nat /\
    left_len st2 = 6%nat /\ right_len st2 = 7%nat /\
    cell (min_left_data_num st2) 6 = 0%float.
Proof.
  eexists. split; [vm_compute; reflexivity|].
  edestruct (phase1_early_stop_state pow_exact zero_blocks true 6 0
               (initial_scan_state pow_exact zero_blocks 0 steady_left_num steady_right_num
                  steady_left_time steady_right_time 6 7 true))
    as (H1 & H2 & _ & _ & H5 & H6 & _ & H8 & _).
  - vm_compute. reflexivity.
  - vm_compute. reflexivity.
  - vm_compute. reflexivity.
  - vm_compute. reflexivity.
  - vm_compute. reflexivity.
  - vm_compute. reflexivity.
  - vm_compute. reflexivity.
  - split; [exact H1|]. split; [exact H2|]. split; [exact H5|]. split; [exact H6 | exact H8].
Defined.

(** Phase 2 on the buckets [bent_left] and [bent_right]: its first step is
    recorded with a left rate far below 5, and the scan goes on to a second
    step because the rates that phase 1 recorded are 5 or more: an instance
    of [phase2_goes_on]. *)
Lemma phase2_goes_on_witness :
  let st0 := initial_scan_state pow_exact zero_blocks 0 bent_left_num bent_right_num
               bent_left_time bent_right_time 8 6 true in
  exists p1 st1 left_rate right_rate,
    phase1 pow_exact zero_blocks true 6 0 st0 = Some p1 /\
    give_to_right st0 = Some st1 /\
    snd (fst (get_avg_error pow_exact (min_left_data_num st1) (min_left_exec_time st1)
                (left_len st1) (zero_blocks (Phase2Left 0)) true)) = left_rate /\
    snd (fst (get_avg_error pow_exact (min_right_data_num st1) (min_right_exec_time st1)
                (right_len st1) (zero_blocks (Phase2Right 0)) false)) = right_rate /\
    (left_rate <? 5)%float = true /\
    phase2 pow_exact zero_blocks true p1 8 0 st0
    = phase2 pow_exact zero_blocks true p1 7 1
        (record_min st1
           (fst (fst (get_avg_error pow_exact (min_left_data_num st1) (min_left_exec_time st1)
                        (left_len st1) (zero_blocks (Phase2Left 0)) true)))
           (fst (fst (get_avg_error pow_exact (min_right_data_num st1) (min_right_exec_time st1)
                        (right_len st1) (zero_blocks (Phase2Right 0)) false)))
           left_rate right_rate
           (snd (get_avg_error pow_exact (min_left_data_num st1) (min_left_exec_time st1)
                   (left_len st1) (zero_blocks (Phase2Left 0)) true))
           (snd (get_avg_error pow_exact (min_right_data_num st1) (min_right_exec_time st1)
                   (right_len st1) (zero_blocks (Phase2Right 0)) false))).
Proof.
  cbv zeta. eexists. eexists. eexists. eexists.
  split; [vm_compute; reflexivity|].
  split; [vm_compute; reflexivity|].
  split; [reflexivity|]. split; [reflexivity|].
  split; [vm_compute; reflexivity|].
  apply phase2_goes_on.
  - vm_compute. reflexivity.
  - vm_compute. reflexivity.
  - vm_compute. reflexivity.
  - vm_compute. reflexivity.
Defined.

(** ** Reading arrays out of a TOAST item *)

(** X27: as long as the products and sums of [addr_auto_padder] stay in the
    range of [int] (the item is shorter than 2^15 bytes, the address lies
    inside it, and [num_nodes * data_size] is an [int] that can be added to
    the bytes already read), the function returns, never moves the address
    back nor past the end of the item, and moves it by less than one
    element.  When the [num_nodes] elements that follow do not fit in the
    item, the bytes left after the padded address are a whole number of
    elements: every element that begins inside the item then ends inside
    it, and [carefully_incl_addr] reports the change of item exactly on the
    element that ends where the item ends.  When the elements fit, the
    address is returned as it is. *)
Theorem addr_auto_padder_aligns (lp_len now_data_addr item_base_addr num_nodes data_size : Z) :
  0 < data_size ->
  0 <= now_data_addr - item_base_addr <= lp_len ->
  lp_len < 2 ^ 15 ->
  - 2 ^ 31 <= num_nodes * data_size ->
  now_data_addr - item_base_addr + num_nodes * data_size < 2 ^ 31 ->
  exists padded,
    addr_auto_padder lp_len now_data_addr item_base_addr num_nodes data_size = Some padded /\
    let item_end := item_base_addr + lp_len in
    now_data_addr <= padded <= item_end /\
    padded - now_data_addr < data_size /\
    (now_data_addr - item_base_addr + num_nodes * data_size < lp_len -> padded = now_data_addr) /\
    (lp_len <= now_data_addr - item_base_addr + num_nodes * data_size ->
     (item_end - padded) mod data_size = 0 /\
     forall j, 0 <= j -> padded + j * data_size < item_end ->
       padded + j * data_size + data_size <= item_end /\
       (carefully_incl_addr lp_len item_base_addr (padded + j * data_size) data_size = false
        <-> padded + j * data_size + data_size = item_end)).
Proof.
  intros Hsize Hfilled Hlen Hlow Hhigh. unfold addr_auto_padder. cbv zeta.
  assert (H1 : in_int (now_data_addr - item_base_addr) = true)
    by (unfold in_int; apply andb_true_iff; split; [apply Z.leb_le | apply Z.ltb_lt]; lia).
  assert (H2 : in_int (num_nodes * data_size) = true)
    by (unfold in_int; apply andb_true_iff; split; [apply Z.leb_le | apply Z.ltb_lt]; lia).
  assert (H3 : in_int (now_data_addr - item_base_addr + num_nodes * data_size) = true)
    by (unfold in_int; apply andb_true_iff; split; [apply Z.leb_le | apply Z.ltb_lt]; lia).
  assert (H4 : in_int (lp_len - (now_data_addr - item_base_addr)) = true)
    by (unfold in_int; apply andb_true_iff; split; [apply Z.leb_le | apply Z.ltb_lt]; lia).
  rewrite H1, H2, H3, H4. cbn [andb].
  destruct (Z.eqb_spec data_size 0) as [E|_]; [lia|]. cbn [negb].
  destruct (Z.leb_spec lp_len (now_data_addr - item_base_addr + num_nodes * data_size)) as [Hle|Hgt].
  - eexists. split; [reflexivity|].
    rewrite Z.rem_mod_nonneg by lia.
    set (r := lp_len - (now_data_addr - item_base_addr)) in *.
    pose proof (Z.mod_pos_bound r data_size Hsize) as Hmod.
    pose proof (Z.div_mod r data_size ltac:(lia)) as Hdm.
    assert (Hr : 0 <= r) by (unfold r; lia).
    assert (Hq : 0 <= r / data_size) by (apply Z.div_pos; lia).
    assert (Hend : item_base_addr + lp_len - (now_data_addr + r mod data_size)
                   = data_size * (r / data_size)) by (unfold r in *; lia).
    split; [unfold r in *; nia|]. split; [lia|]. split; [lia|].
    intros _. split.
    + rewrite Hend, Z.mul_comm. apply Z.mod_mul. lia.
    + intros j Hj Hin.
      assert (Hjq : j < r / data_size) by nia.
      assert (Hfit : now_data_addr + r mod data_size + j * data_size + data_size
                     <= item_base_addr + lp_len) by nia.
      split; [exact Hfit|].
      unfold carefully_incl_addr.
      destruct (Z.leb_spec (item_base_addr + lp_len)
                  (now_data_addr + r mod data_size + j * data_size + data_size)); split;
        intros; try lia; try discriminate; reflexivity.
  - eexists. split; [reflexivity|].
    split; [lia|]. split; [lia|]. split; [reflexivity|]. intros; lia.
Qed.

Lemma addr_auto_padder_aligns_witness :
  addr_auto_padder 100 1010 1000 40 8 = Some 1012 /\
  (1100 - 1012) mod 8 = 0.
Proof.
  destruct (addr_auto_padder_aligns 100 1010 1000 40 8) as (padded & Hp & _ & _ & _ & H);
    [lia | lia | lia | lia | lia |].
  assert (E : padded = 1012) by (vm_compute in Hp; congruence).
  subst padded. split; [exact Hp|]. apply H. lia.
Defined.

(** ** Logging of durations *)

(** X28: with [elapsed] the whole milliseconds between the start of the
    statement and now, [check_log_duration] answers 0, 1 or 2; the threshold
    counts as exceeded when [log_min_duration_statement] is 0, or is
    positive and at most [elapsed] (the two-step test that avoids the
    overflow of [secs * 1000] decides exactly that); the answer is 0 exactly
    when nothing asks for a log line (no [log_duration], no sampled
    transaction, threshold off or not exceeded), and 2 exactly when the
    threshold is exceeded or the transaction is sampled and the statement
    has not been logged yet. *)
Theorem check_log_duration_spec (log_duration : bool) (log_min_duration_statement : Z)
    (xact_is_sampled : bool) (secs usecs : Z) (was_logged : bool) :
  0 <= secs -> 0 <= usecs < 1000000 ->
  let elapsed_ms := secs * 1000 + usecs / 1000 in
  let exceeded :=
    log_min_duration_statement = 0 \/
    (0 < log_min_duration_statement /\ log_min_duration_statement <= elapsed_ms) in
  let result := check_log_duration log_duration log_min_duration_statement xact_is_sampled
                  secs usecs was_logged in
  (result = 0 \/ result = 1 \/ result = 2) /\
  (result = 0 <-> log_duration = false /\ xact_is_sampled = false /\ ~ exceeded) /\
  (result = 2 <-> was_logged = false /\ (exceeded \/ xact_is_sampled = true)).
Proof.
  intros Hs Hu. cbv zeta. unfold check_log_duration.
  rewrite (Z.quot_div_nonneg usecs 1000) by lia.
  set (msecs := usecs / 1000).
  assert (Hm : 0 <= msecs < 1000) by (unfold msecs; Z.div_mod_to_equations; lia).
  assert (Hq : 0 < log_min_duration_statement ->
               (Z.quot log_min_duration_statement 1000 < secs
                \/ log_min_duration_statement <= secs * 1000 + msecs)
               <-> log_min_duration_statement <= secs * 1000 + msecs).
  { intros Hpos. rewrite Z.quot_div_nonneg by lia.
    split; [intros [H|H]; [Z.div_mod_to_equations; lia | exact H] | intros H; right; exact H]. }
  destruct (Z.eqb_spec log_min_duration_statement 0) as [E0|E0];
    destruct (Z.ltb_spec 0 log_min_duration_statement) as [Ep|Ep];
    destruct (Z.leb_spec 0 log_min_duration_statement) as [En|En]; try lia;
    destruct (Z.ltb_spec (Z.quot log_min_duration_statement 1000) secs) as [E1|E1];
    destruct (Z.leb_spec log_min_duration_statement (secs * 1000 + msecs)) as [E2|E2];
    try (specialize (Hq Ep)); 
    destruct log_duration, xact_is_sampled, was_logged; cbn;
    repeat split; try tauto; try lia; try discriminate; try intuition (auto; lia || discriminate).
Qed.

Lemma check_log_duration_spec_witness :
  check_log_duration false 250 false 0 250999 false = 2 /\
  check_log_duration false 250 false 0 249999 false = 0.
Proof.
  destruct (check_log_duration_spec false 250 false 0 250999 false) as (_ & _ & H2);
    [lia | lia |].
  destruct (check_log_duration_spec false 250 false 0 249999 false) as (_ & H0 & _);
    [lia | lia |].
  split.
  - apply H2. split; [reflexivity|]. left. right. split; [lia|].
    change (250999 / 1000) with 250. lia.
  - apply H0. split; [reflexivity|]. split; [reflexivity|].
    change (249999 / 1000) with 249. lia.
Defined.

Lemma give_to_right_counts (n : nat) (st st1 : scan_state) :
  scan_counts n st -> give_to_right st = Some st1 -> scan_counts n st1.
Proof.
  intros (Hl & Hm & H1 & H2 & H3 & H4). unfold give_to_right.
  destruct ((2 <=? left_len st) && (left_len st <=? List.length (min_left_data_num st)) &&
            (right_len st <? List.length (min_left_data_num st)))%nat eqn:Hc; [|discriminate].
  intros H; injection H as <-. unfold scan_counts. simpl.
  apply andb_true_iff in Hc as [Hc _]. apply andb_true_iff in Hc as [Hc _].
  apply Nat.leb_le in Hc.
  rewrite !length_store, !shift_right_as_insert, !shift_up_length. repeat split; lia.
Qed.

Lemma take_from_right_counts (n : nat) (st st1 : scan_state) :
  scan_counts n st -> take_from_right st = Some st1 -> scan_counts n st1.
Proof.
  intros (Hl & Hm & H1 & H2 & H3 & H4). unfold take_from_right.
  destruct ((1 <? List.length (min_left_data_num st)) &&
            (left_len st <? List.length (min_left_data_num st)) &&
            (1 <=? right_len st) && (right_len st <=? List.length (min_left_data_num st)))%nat
    eqn:Hc; [|discriminate].
  intros H; injection H as <-. unfold scan_counts. simpl.
  apply andb_true_iff in Hc as [Hc _]. apply andb_true_iff in Hc as [_ Hc].
  apply Nat.leb_le in Hc.
  rewrite !length_store, !shift_down_length. repeat split; lia.
Qed.

Lemma record_min_counts (n : nat) (st : scan_state) (le re ler rer : float)
    (lc rc : list float) :
  scan_counts n st -> scan_counts n (record_min st le re ler rer lc rc).
Proof. intros (Hl & Hm & H1 & H2 & H3 & H4). unfold scan_counts. simpl. repeat split; lia. Qed.

Section Counts.

Variable pow : float -> float -> float.
Variable uninit_coef : alloc_site -> list float.
Variable uninit_cell : float.

Lemma phase1_counts (first_flag : bool) (n todo : nat) :
  forall (rec : nat) (st st' : scan_state),
    scan_counts n st ->
    phase1 pow uninit_coef first_flag todo rec st = Some st' ->
    scan_counts n st'.
Proof.
  induction todo as [|todo IH]; intros rec st st' Hc; cbn [phase1].
  - intros H; injection H as <-. exact Hc.
  - destruct (take_from_right st) as [st1|] eqn:Ht; [|discriminate].
    apply (take_from_right_counts n) in Ht; [|exact Hc].
    destruct (get_avg_error pow (min_left_data_num st1) (min_left_exec_time st1) (left_len st1)
                (uninit_coef (Phase1Left rec)) first_flag) as [[le ler] lc].
    destruct (get_avg_error pow (min_right_data_num st1) (min_right_exec_time st1) (right_len st1)
                (uninit_coef (Phase1Right rec)) false) as [[re rer] rc].
    destruct (step_accepted (min_left_error_rate st1) (min_right_error_rate st1) ler rer).
    + pose proof (record_min_counts n st1 le re ler rer lc rc Ht) as H2.
      set (st2 := record_min st1 le re ler rer lc rc) in *.
      destruct ((min_left_error_rate st2 <? 5)%float || (min_right_error_rate st2 <? 5)%float);
        [apply give_to_right_counts; exact H2|].
      destruct ((min_left_len st2 <? 4)%nat || (min_right_len st2 <? 4)%nat);
        [apply give_to_right_counts; exact H2|].
      apply IH; exact H2.
    + apply give_to_right_counts; exact Ht.
Qed.

Lemma phase2_counts (first_flag : bool) (p1 : scan_state) (n todo : nat) :
  forall (rec : nat) (st st' : scan_state),
    scan_counts n st ->
    phase2 pow uninit_coef first_flag p1 todo rec st = Some st' ->
    scan_counts n st'.
Proof.
  induction todo as [|todo IH]; intros rec st st' Hc; cbn [phase2].
  - intros H; injection H as <-. exact Hc.
  - destruct (give_to_right st) as [st1|] eqn:Ht; [|discriminate].
    apply (give_to_right_counts n) in Ht; [|exact Hc].
    destruct (get_avg_error pow (min_left_data_num st1) (min_left_exec_time st1) (left_len st1)
                (uninit_coef (Phase2Left rec)) first_flag) as [[le ler] lc].
    destruct (get_avg_error pow (min_right_data_num st1) (min_right_exec_time st1) (right_len st1)
                (uninit_coef (Phase2Right rec)) false) as [[re rer] rc].
    destruct (step_accepted (min_left_error_rate st1) (min_right_error_rate st1) ler rer).
    + pose proof (record_min_counts n st1 le re ler rer lc rc Ht) as H2.
      set (st2 := record_min st1 le re ler rer lc rc) in *.
      destruct ((min_left_error_rate p1 <? 5)%float || (min_right_error_rate p1 <? 5)%float);
        [apply take_from_right_counts; exact H2|].
      destruct ((min_left_len p1 <? 4)%nat || (min_right_len p1 <? 4)%nat);
        [apply take_from_right_counts; exact H2|].
      apply IH; exact H2.
    + apply take_from_right_counts; exact Ht.
Qed.

Lemma initial_scan_state_counts (data_num1 data_num2 exec_time1 exec_time2 : list float)
    (data1_len data2_len : nat) (first_flag : bool) :
  scan_counts (data1_len + data2_len)
    (initial_scan_state pow uninit_coef uninit_cell data_num1 data_num2 exec_time1 exec_time2
       data1_len data2_len first_flag).
Proof.
  unfold initial_scan_state.
  destruct (get_avg_error pow data_num1 exec_time1 data1_len (uninit_coef DefLeft) first_flag)
    as [[le ler] lc].
  destruct (get_avg_error pow data_num2 exec_time2 data2_len (uninit_coef DefRight) false)
    as [[re rer] rc].
  unfold scan_counts. simpl.
  rewrite !length_app, !length_map, !length_seq, !repeat_length. repeat split; lia.
Qed.

(** X30: the lengths and the blocks that [adjust_range] hands back.
    Whenever it returns, the two lengths it reports add up to the sum of the
    two lengths it was given, and each of the four arrays it hands back
    (those of the scan it chose) is a block of that many cells: a bucket
    comes back with exactly as many free cells as the other bucket has
    samples.  This holds whatever the samples, the fits and the values left
    in unwritten memory.  It is a statement on the counts alone: which
    samples the reported lengths cover is another matter (see
    [adjust_range_breaks_partition]). *)
Theorem adjust_range_keeps_count (data_num1 data_num2 exec_time1 exec_time2 : list float)
    (data1_len data2_len : nat) (first_flag : bool) (r : adjust_result) :
  adjust_range pow uninit_coef uninit_cell data_num1 data_num2 exec_time1 exec_time2
    data1_len data2_len first_flag = Some r ->
  (out_data1_len r + out_data2_len r = data1_len + data2_len)%nat /\
  List.length (out_left_data_num r) = (data1_len + data2_len)%nat /\
  List.length (out_right_data_num r) = (data1_len + data2_len)%nat /\
  List.length (out_left_exec_time r) = (data1_len + data2_len)%nat /\
  List.length (out_right_exec_time r) = (data1_len + data2_len)%nat /\
  (List.length (out_left_data_num r) - out_data1_len r = out_data2_len r)%nat /\
  (List.length (out_right_data_num r) - out_data2_len r = out_data1_len r)%nat.
Proof.
  unfold adjust_range.
  pose proof (initial_scan_state_counts data_num1 data_num2 exec_time1 exec_time2
                data1_len data2_len first_flag) as H0.
  set (st0 := initial_scan_state pow uninit_coef uninit_cell data_num1 data_num2
                exec_time1 exec_time2 data1_len data2_len first_flag) in *.
  destruct (phase1 pow uninit_coef first_flag data2_len 0 st0) as [p1|] eqn:E1; [|discriminate].
  destruct (phase2 pow uninit_coef first_flag p1 data1_len 0 st0) as [p2|] eqn:E2; [|discriminate].
  apply (phase1_counts first_flag (data1_len + data2_len)) in E1; [|exact H0].
  apply (phase2_counts first_flag p1 (data1_len + data2_len)) in E2; [|exact H0].
  destruct E1 as (_ & S1 & L1 & R1 & LT1 & RT1). destruct E2 as (_ & S2 & L2 & R2 & LT2 & RT2).
  destruct (min_left_error_rate p1 + min_right_error_rate p1
            <? min_left_error_rate p2 + min_right_error_rate p2)%float;
    intros H; injection H as <-; simpl; repeat split; try assumption; lia.
Qed.

End Counts.

(** The buckets [steady_left] and [steady_right], of six and seven samples:
    the lengths come back as seven and six, in blocks of thirteen cells. *)
Lemma adjust_range_keeps_count_witness :
  exists r,
    adjust_range pow_exact zero_blocks 0 steady_left_num steady_right_num
      steady_left_time steady_right_time 6 7 true = Some r /\
    out_data1_len r = 7%nat /\ out_data2_len r = 6%nat /\
    (out_data1_len r + out_data2_len r = 6 + 7)%nat.
Proof.
  eexists. split; [vm_compute; reflexivity|].
  split; [reflexivity|]. split; [reflexivity|].
  refine (proj1 (adjust_range_keeps_count pow_exact zero_blocks 0 steady_left_num
                   steady_right_num steady_left_time steady_right_time 6 7 true _ _)).
  vm_compute. reflexivity.
Defined.
